(** * The dependency resolver, the subproject engine and the target registry
      of [mesonbuild/interpreter/interpreter.py]

    A shallow embedding of the parts of the class [Interpreter] that own the
    subproject cache, the dependency caches, the target registry, the frozen
    argument flags and the sandbox check, with the properties the project
    description states about them.

    Conventions.
    - A Python exception is a value of [Exc]: its class and its message.  A
      method is a function from the state to an [Outcome]; both outcomes
      carry the state, because the dictionaries the method has written
      before raising stay written.
    - [Interp] holds the attributes of one [Interpreter] object.  [Shared]
      holds the objects every nested interpreter refers to: the dictionary
      [self.subprojects] ([subi.subprojects = self.subprojects]), the
      override tables of the dependencies, the [coredata] object, and the
      record of the calls made to the external collaborators.
    - The collaborators that live in other modules (the wrap resolver, the
      dependency probe, the statement executor that runs a nested
      interpreter, ...) are the fields of the class [Collaborators]. *)

From Stdlib Require Import Ascii String.
From stdpp Require Import base option list gmap strings pretty.

(* ===================================================================== *)
(** ** Python strings *)
(* ===================================================================== *)

Module PyStr.

(** [str.isspace] on one character (code points below 256). *)
Definition isspace (c : ascii) : bool :=
  let n := nat_of_ascii c in
  (Nat.leb 9 n && Nat.leb n 13) || (Nat.leb 28 n && Nat.leb n 32)
  || Nat.eqb n 133 || Nat.eqb n 160.

(** [s.lstrip()] *)
Fixpoint lstrip (s : string) : string :=
  match s with
  | EmptyString => EmptyString
  | String c s' => if isspace c then lstrip s' else s
  end.

(** [s.rstrip()] *)
Fixpoint rstrip (s : string) : string :=
  match s with
  | EmptyString => EmptyString
  | String c s' =>
      match rstrip s' with
      | EmptyString => if isspace c then EmptyString else String c EmptyString
      | r => String c r
      end
  end.

(** [s.strip()] *)
Definition strip (s : string) : string := rstrip (lstrip s).

(** [s.startswith(p)] *)
Definition startswith (s p : string) : bool := String.prefix p s.

(** [c in s] for a one-character string [c] *)
Fixpoint contains_char (c : ascii) (s : string) : bool :=
  match s with
  | EmptyString => false
  | String d s' => if Ascii.eqb c d then true else contains_char c s'
  end.

(** [sub in s] *)
Fixpoint contains (sub s : string) : bool :=
  if String.prefix sub s then true
  else match s with
       | EmptyString => false
       | String _ s' => contains sub s'
       end.

(** [sep.join(l)] *)
Definition join (sep : string) (l : list string) : string :=
  String.concat sep l.

(** [s.lower()] on the letters A to Z *)
Definition lower_char (c : ascii) : ascii :=
  let n := nat_of_ascii c in
  if Nat.leb 65 n && Nat.leb n 90 then ascii_of_nat (n + 32) else c.

Fixpoint lower (s : string) : string :=
  match s with
  | EmptyString => EmptyString
  | String c s' => String (lower_char c) (lower s')
  end.

(** [s.endswith('/')] *)
Fixpoint ends_with_slash (s : string) : bool :=
  match s with
  | EmptyString => false
  | String c EmptyString => Ascii.eqb c "/"%char
  | String _ s' => ends_with_slash s'
  end.

(** [all(c.isspace() for c in s)] *)
Fixpoint all_space (s : string) : bool :=
  match s with
  | EmptyString => true
  | String c s' => isspace c && all_space s'
  end.

End PyStr.

(** The one-character string made of a double quote. *)
Definition dquote : string := String (ascii_of_nat 34) EmptyString.

(** The one-character string made of a line feed. *)
Definition nl : string := String (ascii_of_nat 10) EmptyString.

(** [os.path.isabs] of posixpath *)
Definition os_path_isabs (s : string) : bool := PyStr.startswith s "/".

(** [os.path.join(a, b)] of posixpath *)
Definition os_path_join (a b : string) : string :=
  if os_path_isabs b then b
  else if bool_decide (a = EmptyString) || PyStr.ends_with_slash a then a +:+ b
  else a +:+ "/" +:+ b.

(** [x in l] for a list of strings *)
Definition str_in (x : string) (l : list string) : bool :=
  bool_decide (x ∈ l).

(* ===================================================================== *)
(** ** Exceptions and outcomes *)
(* ===================================================================== *)

(** The exception classes the modelled methods raise or catch.
    [InvalidCode] and [InvalidArguments] derive from
    [InterpreterException], which derives from [MesonException] as
    [DependencyException] and [WrapException] do; every class derives from
    [Exception]. *)
Inductive ExcClass :=
| MesonException
| InterpreterException
| InvalidArguments
| InvalidCode
| DependencyException
| WrapException
| AttributeError
| IndexError
| OtherException.

Record Exc := mkExc { exc_class : ExcClass; exc_msg : string }.

Global Instance ExcClass_eq_dec : EqDecision ExcClass.
Proof. solve_decision. Defined.

Global Instance Exc_eq_dec : EqDecision Exc.
Proof. solve_decision. Defined.

(** [except InvalidCode:] *)
Definition is_InvalidCode (e : Exc) : bool :=
  bool_decide (exc_class e = InvalidCode).

(** [except InvalidArguments:] *)
Definition is_InvalidArguments (e : Exc) : bool :=
  bool_decide (exc_class e = InvalidArguments).

Inductive Outcome (S A : Type) : Type :=
| Return (a : A) (s : S)
| Raise (e : Exc) (s : S).

Arguments Return {S A} a s.
Arguments Raise {S A} e s.

Definition outcome_state {S A} (o : Outcome S A) : S :=
  match o with Return _ s => s | Raise _ s => s end.

Definition raised {S A} (o : Outcome S A) : option Exc :=
  match o with Return _ _ => None | Raise e _ => Some e end.

Definition returned {S A} (o : Outcome S A) : option A :=
  match o with Return a _ => Some a | Raise _ _ => None end.

(** A method: state in, outcome out. *)
Definition M (S A : Type) : Type := S -> Outcome S A.

Definition ret {S A} (a : A) : M S A := fun s => Return a s.

Definition raise {S A} (c : ExcClass) (msg : string) : M S A :=
  fun s => Raise (mkExc c msg) s.

Definition reraise {S A} (e : Exc) : M S A := fun s => Raise e s.

Definition bind {S A B} (m : M S A) (k : A -> M S B) : M S B :=
  fun s => match m s with
           | Return a s' => k a s'
           | Raise e s' => Raise e s'
           end.

(** [try: m except Exception as e: h e] *)
Definition try_catch {S A} (m : M S A) (h : Exc -> M S A) : M S A :=
  fun s => match m s with
           | Return a s' => Return a s'
           | Raise e s' => h e s'
           end.

Definition get {S} : M S S := fun s => Return s s.
Definition modify {S} (f : S -> S) : M S unit := fun s => Return tt (f s).

Declare Scope py_scope.
Delimit Scope py_scope with py.
Notation "x <- m ;; k" := (bind m (fun x => k))
  (at level 100, m at next level, right associativity) : py_scope.
Notation "m ;;; k" := (bind m (fun _ => k))
  (at level 100, right associativity) : py_scope.
Notation "'when' b 'then_raise' c 'msg' s" :=
  (if b then raise c s else ret tt)
  (at level 90, b at level 9, c at level 9, s at level 9) : py_scope.

Local Open Scope py_scope.

(* ===================================================================== *)
(** ** More of Python: [split], [replace], [repr], ordered dictionaries *)
(* ===================================================================== *)

Module PyLib.

(** [s.split(c)] for a separator of one character *)
Fixpoint split (c : ascii) (s : string) : list string :=
  match s with
  | EmptyString => [EmptyString]
  | String d s' =>
      if Ascii.eqb d c then EmptyString :: split c s'
      else match split c s' with
           | [] => [String d EmptyString]
           | w :: ws => String d w :: ws
           end
  end.

(** [s.split(c, 1)]: nothing when [c] does not occur, otherwise the text
    before the first [c] and the text after it *)
Fixpoint split_once (c : ascii) (s : string) : option (string * string) :=
  match s with
  | EmptyString => None
  | String d s' =>
      if Ascii.eqb d c then Some (EmptyString, s')
      else match split_once c s' with
           | Some (a, b) => Some (String d a, b)
           | None => None
           end
  end.

(** [s.replace(c, d)] for strings of one character *)
Fixpoint replace (c d : ascii) (s : string) : string :=
  match s with
  | EmptyString => EmptyString
  | String x s' => String (if Ascii.eqb x c then d else x) (replace c d s')
  end.

(** [' ' * n] *)
Definition spaces (n : nat) : string := Nat.iter n (String " "%char) EmptyString.

(** [any(c.isspace() for c in s)] *)
Fixpoint any_space (s : string) : bool :=
  match s with
  | EmptyString => false
  | String c s' => PyStr.isspace c || any_space s'
  end.

Definition hex_digit (n : nat) : ascii :=
  default "0"%char (String.get n "0123456789abcdef").

(** One character of [repr(s)], between quotes [q]. *)
Definition repr_char (q c : ascii) : string :=
  let n := nat_of_ascii c in
  if Ascii.eqb c "\"%char then "\\"
  else if Ascii.eqb c q then String "\"%char (String q EmptyString)
  else if Nat.eqb n 9 then "\t"
  else if Nat.eqb n 10 then "\n"
  else if Nat.eqb n 13 then "\r"
  else if Nat.ltb n 32 || (Nat.leb 127 n && Nat.leb n 160) || Nat.eqb n 173
  then String "\"%char (String "x"%char
         (String (hex_digit (n / 16)) (String (hex_digit (n mod 16)) EmptyString)))
  else String c EmptyString.

Fixpoint repr_body (q : ascii) (s : string) : string :=
  match s with
  | EmptyString => EmptyString
  | String c s' => repr_char q c +:+ repr_body q s'
  end.

(** [repr(s)] of a string (code points below 256): single quotes, unless the
    string holds a single quote and no double quote. *)
Definition repr (s : string) : string :=
  let q := if PyStr.contains_char "'"%char s
              && negb (PyStr.contains_char (ascii_of_nat 34) s)
           then ascii_of_nat 34 else "'"%char in
  String q (repr_body q s +:+ String q EmptyString).

(** [str(b)] of a boolean *)
Definition str_bool (b : bool) : string := if b then "True" else "False".

(** [d.get(k)] on a dictionary with string keys, kept in insertion order *)
Fixpoint od_get {V} (d : list (string * V)) (k : string) : option V :=
  match d with
  | [] => None
  | (k', v) :: d' => if bool_decide (k' = k) then Some v else od_get d' k
  end.

(** [d[k] = v]: an existing key keeps its place *)
Fixpoint od_set {V} (d : list (string * V)) (k : string) (v : V)
  : list (string * V) :=
  match d with
  | [] => [(k, v)]
  | (k', v') :: d' =>
      if bool_decide (k' = k) then (k, v) :: d' else (k', v') :: od_set d' k v
  end.

(** The first exception of a list of results, or all their values. *)
Fixpoint collect {A} (l : list (Exc + A)) : Exc + list A :=
  match l with
  | [] => inr []
  | inl e :: _ => inl e
  | inr a :: l' =>
      match collect l' with
      | inl e => inl e
      | inr r => inr (a :: r)
      end
  end.

End PyLib.

(** [repr(l)] of a list of strings *)
Definition repr_list (l : list string) : string :=
  "[" +:+ PyStr.join ", " (PyLib.repr <$> l) +:+ "]".

(* ===================================================================== *)
(** ** Data model *)
(* ===================================================================== *)

(** [MachineChoice] and the two-slot container [PerMachine]. *)
Inductive MachineChoice := BUILD | HOST.

Global Instance MachineChoice_eq_dec : EqDecision MachineChoice.
Proof. solve_decision. Defined.

Record PerMachine (A : Type) := mkPerMachine { pm_build : A; pm_host : A }.
Arguments mkPerMachine {A} _ _.
Arguments pm_build {A} _.
Arguments pm_host {A} _.

(** [pm[for_machine]] *)
Definition pm_get {A} (pm : PerMachine A) (m : MachineChoice) : A :=
  match m with BUILD => pm_build pm | HOST => pm_host pm end.

(** [pm[for_machine] = a] *)
Definition pm_set {A} (pm : PerMachine A) (m : MachineChoice) (a : A)
  : PerMachine A :=
  match m with
  | BUILD => mkPerMachine a (pm_host pm)
  | HOST => mkPerMachine (pm_build pm) a
  end.

(** The kinds of target the interpreter registers. *)
Inductive TargetKind :=
| Executable | SharedLibrary | SharedModule | StaticLibrary | Jar
| CustomTarget | RunTarget | AliasTarget.

Global Instance TargetKind_eq_dec : EqDecision TargetKind.
Proof. solve_decision. Defined.

Record Target := mkTarget {
  tgt_name : string;
  tgt_kind : TargetKind;
  tgt_subdir : string;
  tgt_subproject : string;
  tgt_project_version : string
}.

Global Instance Target_eq_dec : EqDecision Target.
Proof. solve_decision. Defined.

(** Modelled from the spec: [Target.type_suffix] of build.py is not among the
    sources.  The identifier is "name plus a discriminator that allows an
    executable and a static library to share a display name but not two
    targets of the same kind"; the discriminator is a tag of the kind. *)
Definition type_suffix (k : TargetKind) : string :=
  match k with
  | Executable => "@exe"
  | SharedLibrary => "@sha"
  | SharedModule => "@shm"
  | StaticLibrary => "@sta"
  | Jar => "@jar"
  | CustomTarget => "@cus"
  | RunTarget => "@run"
  | AliasTarget => "@alias"
  end.

(** Modelled from the spec: [Target.get_id] of build.py is not among the
    sources; identifier = name plus the discriminator. *)
Definition get_id (t : Target) : string :=
  tgt_name t +:+ type_suffix (tgt_kind t).

(** Modelled from the spec: the classes [Dependency], [NotFoundDependency],
    ... of the package [dependencies] are not among the sources.  A dependency
    is one of the variants NotFound, External, Internal; it has a version
    string (the sentinel "undefined" when unknown) and a found flag. *)
Inductive Dependency :=
| NotFoundDependency
| ExternalDependency (name version : string) (is_found : bool)
| InternalDependency (version : string).

Global Instance Dependency_eq_dec : EqDecision Dependency.
Proof. solve_decision. Defined.

(** Modelled from the spec: [Dependency.found] is not among the sources; it
    reads the found flag. *)
Definition dep_found (d : Dependency) : bool :=
  match d with
  | NotFoundDependency => false
  | ExternalDependency _ _ f => f
  | InternalDependency _ => true
  end.

(** Modelled from the spec: [Dependency.get_version] is not among the
    sources; it reads the version string. *)
Definition dep_get_version (d : Dependency) : string :=
  match d with
  | NotFoundDependency => "undefined"
  | ExternalDependency _ v _ => v
  | InternalDependency v => v
  end.

(** [build.DependencyOverride(dep, node, explicit)]; the syntax node is only
    used in messages and is left out. *)
Record DependencyOverride := mkOverride {
  ov_dep : Dependency;
  ov_explicit : bool
}.

(** [DependencyHolder(dep, subproject)] *)
Record DependencyHolder := mkDepHolder {
  held_object : Dependency;
  holder_subproject : string
}.

Global Instance DependencyHolder_eq_dec : EqDecision DependencyHolder.
Proof. solve_decision. Defined.

(** Modelled from the spec: [DependencyHolder.found] of
    interpreterobjects.py is not among the sources; the holder is found when
    the dependency it holds is. *)
Definition holder_found (h : DependencyHolder) : bool :=
  dep_found (held_object h).

(** The values a variable of a build description can hold, as far as the
    modelled methods tell them apart. *)
Inductive Value :=
| VStr (s : string)
| VBool (b : bool)
| VDep (h : DependencyHolder)
| VTarget (t : Target).

(** A keyword argument whose type the interpreter checks itself. *)
Inductive PyVal :=
| PyBool (b : bool)
| PyStr (s : string)
| PyObject (tag : string).

Global Instance PyVal_eq_dec : EqDecision PyVal.
Proof. solve_decision. Defined.

(** The keyword argument [version]: a string, or a list of strings. *)
Inductive VersionKw :=
| VersionStr (s : string)
| VersionList (l : list string).

(** [mesonlib.stringlistify(kwargs.get('version', []))] *)
Definition wanted_versions (version : option VersionKw) : list string :=
  match version with
  | None => []
  | Some (VersionStr s) => [s]
  | Some (VersionList l) => l
  end.

(** [str(wanted)] for [wanted = kwargs['version']], as a format string has
    it *)
Definition format_version (wanted : VersionKw) : string :=
  match wanted with
  | VersionStr s => s
  | VersionList l => repr_list l
  end.

(** The keyword arguments the modelled methods read.  [None] is an absent
    key.  [kw_fallback] and [kw_default_options] hold the value after
    [listify]. *)
Record Kwargs := mkKwargs {
  kw_required : option PyVal;
  kw_default_options : option (list string);
  kw_version : option VersionKw;
  kw_fallback : option (list string);
  kw_allow_fallback : option PyVal;
  kw_native : option PyVal;
  kw_language : option (list string)
}.

Definition no_kwargs : Kwargs := mkKwargs None None None None None None None.

(** [kwargs['required'] = b] *)
Definition set_required (kw : Kwargs) (b : bool) : Kwargs :=
  mkKwargs (Some (PyBool b)) (kw_default_options kw) (kw_version kw)
           (kw_fallback kw) (kw_allow_fallback kw) (kw_native kw)
           (kw_language kw).

(** Truth value of [kwargs.get('required', True)]. *)
Definition get_required (kw : Kwargs) : bool :=
  match kw_required kw with
  | None => true
  | Some (PyBool b) => b
  | Some (PyStr s) => negb (bool_decide (s = EmptyString))
  | Some (PyObject _) => true
  end.

(** [WrapMode] of the package [wrap], as far as the interpreter tests it. *)
Inductive WrapMode := wm_default | wm_nofallback | wm_nodownload
                    | wm_forcefallback | wm_nopromote.

Global Instance WrapMode_eq_dec : EqDecision WrapMode.
Proof. solve_decision. Defined.

(** [build.Build], the attributes the modelled methods touch.  The attribute
    [dependency_overrides] is a reference to tables that all interpreters of
    a run write in place; it is a field of [Shared] below. *)
Record Build := mkBuild {
  targets : gmap string Target;
  global_args : PerMachine (gmap string (list string));
  global_link_args : PerMachine (gmap string (list string));
  projects_args : PerMachine (gmap string (gmap string (list string)));
  projects_link_args : PerMachine (gmap string (gmap string (list string)));
  build_subprojects : gmap string string
}.

(** One [Interpreter] object. *)
Record Interp := mkInterp {
  source_dir : string;
  subproject : string;
  subdir : string;
  root_subdir : string;
  subproject_dir : string;
  project_version : string;
  active_projectname : string;
  project_args_frozen : bool;
  global_args_frozen : bool;
  subproject_stack : list string;
  build : Build;
  build_def_files : gset string;
  variables : gmap string Value;
  summary : gmap string string
}.

(** [SubprojectHolder(subi, subdir, warnings, disabled_feature, exception)] *)
Record SubprojectHolder := mkSubprojectHolder {
  sp_held_object : option Interp;
  sp_subdir : string;
  sp_warnings : nat;
  sp_disabled_feature : option string;
  sp_exception : option Exc
}.

(** Modelled from the spec: [SubprojectHolder.found] of interpreterobjects.py
    is not among the sources; a handle is found when it owns the nested
    evaluation state. *)
Definition sp_found (h : SubprojectHolder) : bool :=
  match sp_held_object h with Some _ => true | None => false end.

(** A call to an external collaborator. *)
Inductive Call :=
| CallWrapResolve (subp_name method : string)
| CallCMake (subp_name : string)
| CallRun (subp_name : string)
| CallProbe (name : string).

(** The objects all interpreters of one run refer to. *)
Record Shared := mkShared {
  subprojects : gmap string SubprojectHolder;
  dependency_overrides : PerMachine (gmap string DependencyOverride);
  coredata_deps : PerMachine (gmap string Dependency);
  target_guids : gmap string string;
  initialized_subprojects : gset string;
  uuid_count : nat;
  log_warnings_counter : nat;
  calls : list Call
}.

Record State := mkState { self : Interp; shared : Shared }.

Abbreviation Py A := (M State A).

(** Setters for the attributes the methods assign. *)
Definition set_build (b : Build) (i : Interp) : Interp :=
  mkInterp (source_dir i) (subproject i) (subdir i) (root_subdir i)
           (subproject_dir i) (project_version i)
           (active_projectname i) (project_args_frozen i)
           (global_args_frozen i) (subproject_stack i) b
           (build_def_files i) (variables i) (summary i).

Definition set_project_args_frozen (v : bool) (i : Interp) : Interp :=
  mkInterp (source_dir i) (subproject i) (subdir i) (root_subdir i)
           (subproject_dir i) (project_version i)
           (active_projectname i) v
           (global_args_frozen i) (subproject_stack i) (build i)
           (build_def_files i) (variables i) (summary i).

Definition set_global_args_frozen (v : bool) (i : Interp) : Interp :=
  mkInterp (source_dir i) (subproject i) (subdir i) (root_subdir i)
           (subproject_dir i) (project_version i)
           (active_projectname i) (project_args_frozen i)
           v (subproject_stack i) (build i)
           (build_def_files i) (variables i) (summary i).

Definition set_active_projectname (v : string) (i : Interp) : Interp :=
  mkInterp (source_dir i) (subproject i) (subdir i) (root_subdir i)
           (subproject_dir i) (project_version i)
           v (project_args_frozen i)
           (global_args_frozen i) (subproject_stack i) (build i)
           (build_def_files i) (variables i) (summary i).

Definition set_build_def_files (v : gset string) (i : Interp) : Interp :=
  mkInterp (source_dir i) (subproject i) (subdir i) (root_subdir i)
           (subproject_dir i) (project_version i)
           (active_projectname i) (project_args_frozen i)
           (global_args_frozen i) (subproject_stack i) (build i)
           v (variables i) (summary i).

Definition set_summary (v : gmap string string) (i : Interp) : Interp :=
  mkInterp (source_dir i) (subproject i) (subdir i) (root_subdir i)
           (subproject_dir i) (project_version i)
           (active_projectname i) (project_args_frozen i)
           (global_args_frozen i) (subproject_stack i) (build i)
           (build_def_files i) (variables i) v.

Definition set_targets (t : gmap string Target) (b : Build) : Build :=
  mkBuild t (global_args b) (global_link_args b)
          (projects_args b) (projects_link_args b) (build_subprojects b).

Definition set_global_args
    (a : PerMachine (gmap string (list string))) (b : Build) : Build :=
  mkBuild (targets b) a (global_link_args b)
          (projects_args b) (projects_link_args b) (build_subprojects b).

Definition set_global_link_args
    (a : PerMachine (gmap string (list string))) (b : Build) : Build :=
  mkBuild (targets b) (global_args b) a
          (projects_args b) (projects_link_args b) (build_subprojects b).

Definition set_projects_args
    (a : PerMachine (gmap string (gmap string (list string)))) (b : Build)
  : Build :=
  mkBuild (targets b) (global_args b)
          (global_link_args b) a (projects_link_args b) (build_subprojects b).

Definition set_projects_link_args
    (a : PerMachine (gmap string (gmap string (list string)))) (b : Build)
  : Build :=
  mkBuild (targets b) (global_args b)
          (global_link_args b) (projects_args b) a (build_subprojects b).

Definition set_build_subprojects (v : gmap string string) (b : Build) : Build :=
  mkBuild (targets b) (global_args b)
          (global_link_args b) (projects_args b) (projects_link_args b) v.

Definition set_subprojects (v : gmap string SubprojectHolder) (w : Shared)
  : Shared :=
  mkShared v (dependency_overrides w) (coredata_deps w) (target_guids w)
           (initialized_subprojects w) (uuid_count w) (log_warnings_counter w)
           (calls w).

Definition set_dependency_overrides
    (v : PerMachine (gmap string DependencyOverride)) (w : Shared) : Shared :=
  mkShared (subprojects w) v (coredata_deps w) (target_guids w)
           (initialized_subprojects w) (uuid_count w) (log_warnings_counter w)
           (calls w).

Definition set_coredata_deps (v : PerMachine (gmap string Dependency))
    (w : Shared) : Shared :=
  mkShared (subprojects w) (dependency_overrides w) v (target_guids w)
           (initialized_subprojects w)
           (uuid_count w) (log_warnings_counter w) (calls w).

Definition set_target_guids (v : gmap string string) (n : nat) (w : Shared)
  : Shared :=
  mkShared (subprojects w) (dependency_overrides w) (coredata_deps w) v (initialized_subprojects w)
           n (log_warnings_counter w) (calls w).

Definition set_initialized_subprojects (v : gset string) (w : Shared)
  : Shared :=
  mkShared (subprojects w) (dependency_overrides w) (coredata_deps w) (target_guids w) v
           (uuid_count w) (log_warnings_counter w) (calls w).

Definition set_log_warnings_counter (n : nat) (w : Shared) : Shared :=
  mkShared (subprojects w) (dependency_overrides w) (coredata_deps w) (target_guids w)
           (initialized_subprojects w) (uuid_count w) n (calls w).

Definition record_call (c : Call) (w : Shared) : Shared :=
  mkShared (subprojects w) (dependency_overrides w) (coredata_deps w) (target_guids w)
           (initialized_subprojects w) (uuid_count w)
           (log_warnings_counter w) (calls w ++ [c]).

Definition on_self (f : Interp -> Interp) (st : State) : State :=
  mkState (f (self st)) (shared st).

Definition on_shared (f : Shared -> Shared) (st : State) : State :=
  mkState (self st) (f (shared st)).

Definition on_build (f : Build -> Build) (st : State) : State :=
  on_self (fun i => set_build (f (build i)) i) st.

(** Lift a collaborator's answer into a method. *)
Definition lift_result {A} (r : Exc + A) : Py A :=
  fun st => match r with inl e => Raise e st | inr a => Return a st end.

(** A [pathlib] path: whether it starts at the root, and its components. *)
Record PurePath := mkPath { anchored : bool; parts : list string }.

Global Instance PurePath_eq_dec : EqDecision PurePath.
Proof. solve_decision. Defined.

(* ===================================================================== *)
(** ** External collaborators *)
(* ===================================================================== *)

(** What the modelled methods call in other modules.  An answer that depends
    on the file system or on the machine is a function of the calls made so
    far. *)
Class Collaborators := {
  (** [extract_required_kwarg(kwargs, self.subproject)] of
      interpreterobjects.py: the triple [(disabled, required, feature)] and
      the keyword arguments as the call leaves them. *)
  extract_required_kwarg :
    Kwargs -> string -> Exc + (bool * bool * option string * Kwargs);
  (** [coredata.create_options_dict(default_options, subp_name)] *)
  create_options_dict : list string -> string -> Exc + gmap string string;
  (** [self.environment.wrap_resolver.resolve(subp_name, method, subproject)] *)
  wrap_resolve : string -> string -> string -> list Call -> Exc + string;
  (** [CMakeInterpreter]: initialise, analyse, translate, write the build
      file; yields [cm_int.bs_files]. *)
  cmake_translate : string -> string -> Kwargs -> list Call -> Exc + gset string;
  (** Constructing the nested [Interpreter] (which parses the project) and
      [subi.run()]: from the nested object as [_do_subproject_meson] sets it
      up, to the object after the run. *)
  interp_run : bool -> gmap string string -> Interp -> M Shared Interp;
  (** [Build.copy] and [Build.merge] *)
  build_copy : Build -> Build;
  build_merge : Build -> Build -> Build;
  (** [dependencies.find_external_dependency(name, env, kwargs)] *)
  find_external_dependency : string -> Kwargs -> list Call -> Exc + Dependency;
  (** [wrap_resolver.find_dep_provider(name)]: nothing, the name of a
      subproject, or that name and the name of a variable *)
  find_dep_provider : string -> option (string * option string);
  (** [dependencies.get_dep_identifier(name, kwargs)] *)
  get_dep_identifier : string -> Kwargs -> string;
  (** [mesonlib.version_compare_many(found, wanted)[0]] *)
  version_compare_many : string -> list string -> bool;
  (** the options [wrap_mode] and [force_fallback_for] of coredata *)
  wrap_mode : WrapMode;
  force_fallback_for : list string;
  (** [Path.resolve] and [os.path.isdir] *)
  path_resolve : PurePath -> PurePath;
  os_path_isdir : PurePath -> bool;
  (** The check of [mesonlib.File.from_source_file(source_root, subdir,
      fname)], which raises [MesonException] when the file does not exist;
      the file it makes is [File(False, subdir, fname)]. *)
  from_source_file : string -> string -> string -> Exc + unit;
  (** The processing of the keyword arguments of a build target and the
      constructor of its class ([build.Executable], ...), applied to the name,
      [self.subdir], [self.subproject], the machine and the keyword
      arguments. *)
  construct_target :
    TargetKind -> string -> string -> string -> MachineChoice -> Kwargs
    -> Exc + Target;
  (** [coredata.FORBIDDEN_TARGET_NAMES] *)
  FORBIDDEN_TARGET_NAMES : list string;
  (** [str(uuid.uuid4()).upper()], the n-th value drawn *)
  uuid4 : nat -> string
}.

(* ===================================================================== *)
(** ** The target registry: [add_target] *)
(* ===================================================================== *)

Section Registry.
Context `{Collaborators}.

Definition add_target (name : string) (tobj : Target) : Py unit :=
  when (bool_decide (name = EmptyString)) then_raise
    InterpreterException msg "Target name must not be empty." ;;;
  when (bool_decide (PyStr.strip name = EmptyString)) then_raise
    InterpreterException msg "Target name must not consist only of whitespace." ;;;
  when (PyStr.startswith name "meson-") then_raise
    InvalidArguments msg ("Target names starting with 'meson-' are reserved "
                          +:+ "for Meson's internal use. Please rename.") ;;;
  when (str_in name FORBIDDEN_TARGET_NAMES) then_raise
    InvalidArguments msg ("Target name '" +:+ name +:+ "' is reserved for Meson's "
                          +:+ "internal use. Please rename.") ;;;
  let idname := get_id tobj in
  st <- get ;;
  when (bool_decide (is_Some (targets (build (self st)) !! idname))) then_raise
    InvalidCode msg ("Tried to create target " +:+ dquote +:+ name +:+ dquote
                     +:+ ", but a target of that name already exists.") ;;;
  modify (on_build (fun b => set_targets (<[idname := tobj]> (targets b)) b)) ;;;
  modify (on_shared (fun w =>
    if bool_decide (is_Some (target_guids w !! idname)) then w
    else set_target_guids (<[idname := uuid4 (uuid_count w)]> (target_guids w))
                          (S (uuid_count w)) w)).

End Registry.

(* ===================================================================== *)
(** ** The sandbox check: [validate_within_subproject] *)
(* ===================================================================== *)

Module PathLib.

(** [s.split('/')] *)
Fixpoint split_slash (s : string) : list string :=
  match s with
  | EmptyString => [EmptyString]
  | String c s' =>
      if Ascii.eqb c "/"%char then EmptyString :: split_slash s'
      else match split_slash s' with
           | [] => [String c EmptyString]
           | w :: ws => String c w :: ws
           end
  end.

Definition keep_part (w : string) : bool :=
  negb (bool_decide (w = EmptyString)) && negb (bool_decide (w = ".")).

(** [Path(s)]: empty components and [.] are dropped, [..] is kept. *)
Definition of_string (s : string) : PurePath :=
  mkPath (PyStr.startswith s "/") (List.filter keep_part (split_slash s)).

(** [a / b]: an anchored right operand replaces the left one. *)
Definition join (a b : PurePath) : PurePath :=
  if anchored b then b else mkPath (anchored a) (parts a ++ parts b).

(** The proper prefixes of a list, longest first. *)
Fixpoint proper_prefixes (l : list string) : list (list string) :=
  match l with
  | [] => []
  | x :: l' => List.map (cons x) (proper_prefixes l') ++ [[]]
  end.

(** [p.parents] *)
Definition parents (p : PurePath) : list PurePath :=
  List.map (mkPath (anchored p)) (proper_prefixes (parts p)).

(** [a in p.parents] *)
Definition in_parents (a p : PurePath) : bool := bool_decide (a ∈ parents p).

(** [p.name] *)
Definition name (p : PurePath) : string := List.last (parts p) EmptyString.

(** Resolution of [..] on the components alone, for a file system without
    symbolic links; [..] at the root stays at the root. *)
Fixpoint normalize (acc rest : list string) : list string :=
  match rest with
  | [] => List.rev acc
  | w :: rest' =>
      if bool_decide (w = "..")
      then normalize (List.tl acc) rest'
      else normalize (w :: acc) rest'
  end.

Definition lexical_resolve (p : PurePath) : PurePath :=
  mkPath true (normalize [] (parts p)).

End PathLib.

Section Sandbox.
Context `{Collaborators}.

(** [Path(srcdir, subdir, fname).resolve()] *)
Definition norm_of (self : Interp) (subdir fname : string) : PurePath :=
  path_resolve (PathLib.join
             (PathLib.join (PathLib.of_string (source_dir self))
                           (PathLib.of_string subdir))
             (PathLib.of_string fname)).

(** [Path(srcdir, self.root_subdir)] *)
Definition project_root (self : Interp) : PurePath :=
  PathLib.join (PathLib.of_string (source_dir self))
               (PathLib.of_string (root_subdir self)).

Definition validate_within_subproject (self : Interp) (subdir fname : string)
  : Exc + unit :=
  let srcdir := PathLib.of_string (source_dir self) in
  let norm := norm_of self subdir fname in
  let inputtype := if os_path_isdir norm then "directory" else "file" in
  if negb (PathLib.in_parents srcdir norm) then inr tt
  else
    let project_root := project_root self in
    if bool_decide (norm = project_root) then inr tt
    else if negb (PathLib.in_parents project_root norm) then
      inl (mkExc InterpreterException
             ("Sandbox violation: Tried to grab " +:+ inputtype +:+ " "
              +:+ PathLib.name norm +:+ " outside current (sub)project."))
    else if PathLib.in_parents
              (PathLib.join project_root
                            (PathLib.of_string (subproject_dir self)))
              norm then
      inl (mkExc InterpreterException
             ("Sandbox violation: Tried to grab " +:+ inputtype +:+ " "
              +:+ PathLib.name norm +:+ " from a nested subproject."))
    else inr tt.

End Sandbox.

(* ===================================================================== *)
(** ** Frozen arguments and the declaration of targets *)
(* ===================================================================== *)

(** [machine_from_native_kwarg(kwargs)] *)
Definition machine_from_native_kwarg (kwargs : Kwargs) : Exc + MachineChoice :=
  match kw_native kwargs with
  | None => inr HOST
  | Some (PyBool native) => inr (if native then BUILD else HOST)
  | Some _ =>
      inl (mkExc InvalidArguments
             ("Argument to " +:+ dquote +:+ "native" +:+ dquote
              +:+ " must be a boolean."))
  end.

(** [self.is_subproject()] *)
Definition is_subproject (self : Interp) : bool :=
  negb (bool_decide (subproject self = EmptyString)).

(** Which of the two argument tables of [Build] a call writes: the one of
    [add_global_arguments] / [add_project_arguments] or the one of the
    [_link_] variants. *)
Inductive ArgsTable := CompileArgs | LinkArgs.

(** A source given to a target: a string; an object of one of the classes
    [source_strings_to_files] accepts (a [File], or the holder of a target,
    a generated list or generated objects), by its tag; or another object,
    by its [repr]. *)
Inductive SourceInput :=
| SrcString (s : string)
| SrcObject (tag : string)
| SrcInvalid (repr : string).

Inductive SourceOutput :=
| OutFile (subdir fname : string)
| OutObject (tag : string).

Section Declarations.
Context `{Collaborators}.

(** [add_arguments]: the dictionary [argsdict] is passed in and the
    dictionary it has become is passed out. *)
Definition add_arguments (func_name : string)
    (argsdict : gmap string (list string)) (args_frozen : bool)
    (args : list string) (kwargs : Kwargs)
  : Exc + gmap string (list string) :=
  if args_frozen then
    inl (mkExc InvalidCode
           ("Tried to use '" +:+ func_name
            +:+ "' after a build target has been declared." +:+ nl
            +:+ "This is not permitted. Please declare all "
            +:+ "arguments before your targets."))
  else
    match kw_language kwargs with
    | None =>
        inl (mkExc InvalidCode
               ("Missing language definition in " +:+ func_name))
    | Some langs =>
        inr (List.fold_left
               (fun d lang =>
                  let lang := PyStr.lower lang in
                  <[lang := default [] (d !! lang) ++ args]> d)
               langs argsdict)
    end.

Definition global_table (t : ArgsTable) (b : Build) :=
  match t with CompileArgs => global_args b | LinkArgs => global_link_args b end.

Definition set_global_table (t : ArgsTable) v (b : Build) : Build :=
  match t with
  | CompileArgs => set_global_args v b
  | LinkArgs => set_global_link_args v b
  end.

Definition projects_table (t : ArgsTable) (b : Build) :=
  match t with
  | CompileArgs => projects_args b
  | LinkArgs => projects_link_args b
  end.

Definition set_projects_table (t : ArgsTable) v (b : Build) : Build :=
  match t with
  | CompileArgs => set_projects_args v b
  | LinkArgs => set_projects_link_args v b
  end.

(** [add_global_arguments(node, self.build.global_args[for_machine], args,
    kwargs)] *)
Definition add_global_arguments (func_name : string) (t : ArgsTable)
    (for_machine : MachineChoice) (args : list string) (kwargs : Kwargs)
  : Py unit :=
  st <- get ;;
  if is_subproject (self st) then
    raise InvalidCode
      ("Function '" +:+ func_name +:+ "' cannot be used in subprojects because "
       +:+ "there is no way to make that reliable." +:+ nl
       +:+ "Please only call this if is_subproject() returns false. Alternatively, "
       +:+ "define a variable that" +:+ nl
       +:+ "contains your language-specific arguments and add it to the "
       +:+ "appropriate *_args kwarg in each target.")
  else
    let frozen := project_args_frozen (self st) || global_args_frozen (self st) in
    let argsdict := pm_get (global_table t (build (self st))) for_machine in
    argsdict' <- lift_result (add_arguments func_name argsdict frozen args kwargs) ;;
    modify (on_build (fun b =>
      set_global_table t (pm_set (global_table t b) for_machine argsdict') b)).

(** [add_project_arguments(node, self.build.projects_args[for_machine],
    args, kwargs)] *)
Definition add_project_arguments (func_name : string) (t : ArgsTable)
    (for_machine : MachineChoice) (args : list string) (kwargs : Kwargs)
  : Py unit :=
  st <- get ;;
  let sp := subproject (self st) in
  (* if self.subproject not in argsdict: argsdict[self.subproject] = {} *)
  modify (on_build (fun b =>
    let argsdict := pm_get (projects_table t b) for_machine in
    match argsdict !! sp with
    | Some _ => b
    | None => set_projects_table t
                (pm_set (projects_table t b) for_machine (<[sp := ∅]> argsdict)) b
    end)) ;;;
  st <- get ;;
  let argsdict := pm_get (projects_table t (build (self st))) for_machine in
  sub' <- lift_result
            (add_arguments func_name (default ∅ (argsdict !! sp))
                           (project_args_frozen (self st)) args kwargs) ;;
  modify (on_build (fun b =>
    let argsdict := pm_get (projects_table t b) for_machine in
    set_projects_table t
      (pm_set (projects_table t b) for_machine (<[sp := sub']> argsdict)) b)).

(** [func_add_global_arguments] and [func_add_global_link_arguments] *)
Definition func_add_global_arguments (func_name : string) (t : ArgsTable)
    (args : list string) (kwargs : Kwargs) : Py unit :=
  for_machine <- lift_result (machine_from_native_kwarg kwargs) ;;
  add_global_arguments func_name t for_machine args kwargs.

(** [func_add_project_arguments] and [func_add_project_link_arguments] *)
Definition func_add_project_arguments (func_name : string) (t : ArgsTable)
    (args : list string) (kwargs : Kwargs) : Py unit :=
  for_machine <- lift_result (machine_from_native_kwarg kwargs) ;;
  add_project_arguments func_name t for_machine args kwargs.

(** [source_strings_to_files(sources)]: a string is checked against the
    sandbox and becomes, when the file exists, a file of the current
    directory; an accepted object is passed on; another object raises. *)
Fixpoint source_strings_to_files (sources : list SourceInput)
  : Py (list SourceOutput) :=
  match sources with
  | [] => ret []
  | s :: rest =>
      st <- get ;;
      out <- match s with
             | SrcString str =>
                 lift_result (validate_within_subproject (self st) (subdir (self st)) str) ;;;
                 lift_result (from_source_file (source_dir (self st))
                                (subdir (self st)) str) ;;;
                 ret (OutFile (subdir (self st)) str)
             | SrcObject tag => ret (OutObject tag)
             | SrcInvalid r =>
                 raise InterpreterException
                   ("Source item is " +:+ r
                    +:+ " instead of string or File-type object")
             end ;;
      outs <- source_strings_to_files rest ;;
      ret (out :: outs)
  end.

(** [build_target(node, args, kwargs, targetholder)] with
    [args = [name, *sources]]; sources given by keyword count among [args].
    The holder classes of the other kinds reach the branch
    [raise RuntimeError('Unreachable code')]. *)
Definition build_target (args : list SourceInput) (kwargs : Kwargs)
    (targetholder : TargetKind) : Py Target :=
  match args with
  | [] => raise InterpreterException "Target does not have a name."
  | SrcString name :: sources =>
      for_machine <- lift_result (machine_from_native_kwarg kwargs) ;;
      source_strings_to_files sources ;;;
      match targetholder with
      | Executable | SharedLibrary | SharedModule | StaticLibrary | Jar =>
          st <- get ;;
          target <- lift_result
                      (construct_target targetholder name (subdir (self st))
                         (subproject (self st)) for_machine kwargs) ;;
          let target := mkTarget (tgt_name target) (tgt_kind target)
                                 (tgt_subdir target) (tgt_subproject target)
                                 (project_version (self st)) in
          add_target name target ;;;
          modify (on_self (set_project_args_frozen true)) ;;;
          ret target
      | _ => raise OtherException "Unreachable code"
      end
  | _ :: _ => raise OtherException "Target name is not a string"
  end.

(** [isinstance(d, (build.BuildTarget, build.CustomTarget))] *)
Definition is_build_or_custom_target (v : Value) : bool :=
  match v with
  | VTarget t =>
      match tgt_kind t with
      | RunTarget | AliasTarget => false
      | _ => true
      end
  | _ => false
  end.

(** [func_alias_target(node, args, kwargs)] *)
Definition func_alias_target (args : list Value) : Py Target :=
  match args with
  | [] | [_] => raise InvalidCode "alias_target takes at least 2 arguments."
  | name :: deps =>
      match name with
      | VStr name =>
          if negb (forallb is_build_or_custom_target deps) then
            raise InterpreterException "Depends items must be build targets."
          else
            st <- get ;;
            let tg := mkTarget name AliasTarget (subdir (self st))
                               (subproject (self st)) EmptyString in
            add_target name tg ;;;
            ret tg
      | _ => raise InterpreterException "First argument must be a string."
      end
  end.

End Declarations.

(* ===================================================================== *)
(** ** The subproject engine: [do_subproject] *)
(* ===================================================================== *)

(** Modelled from the spec: [SubprojectHolder.get_variable_method] of
    interpreterobjects.py is not among the sources.  The variable-extraction
    path looks the variable up in the subproject's own binding table and, if
    it is absent, fails with an unknown-variable signal ([InvalidArguments],
    as [get_subproject_dep] catches it) distinct from subproject-not-found. *)
Definition get_variable_method (sub : SubprojectHolder) (varname : string)
  : Exc + Value :=
  match sp_held_object sub with
  | None =>
      inl (mkExc InterpreterException
             ("Subproject " +:+ dquote +:+ sp_subdir sub +:+ dquote
              +:+ " disabled can't get_variable on it."))
  | Some subi =>
      match variables subi !! varname with
      | Some v => inr v
      | None =>
          inl (mkExc InvalidArguments
                 ("Requested variable " +:+ dquote +:+ varname +:+ dquote
                  +:+ " not found."))
      end
  end.

Section Subprojects.
Context `{Collaborators}.

(** [disabled_subproject(subp_name, disabled_feature, exception)] *)
Definition disabled_subproject (subp_name : string)
    (disabled_feature : option string) (exception : option Exc)
  : Py SubprojectHolder :=
  st <- get ;;
  let sub := mkSubprojectHolder None
               (os_path_join (subproject_dir (self st)) subp_name) 0
               disabled_feature exception in
  modify (on_shared (fun w =>
    set_subprojects (<[subp_name := sub]> (subprojects w)) w)) ;;;
  modify (on_shared (fun w =>
    set_initialized_subprojects ({[subp_name]} ∪ initialized_subprojects w) w)) ;;;
  ret sub.

(** [get_subproject(subp_name)] *)
Definition get_subproject (w : Shared) (subp_name : string)
  : option SubprojectHolder :=
  match subprojects w !! subp_name with
  | Some sub => if sp_found sub then Some sub else None
  | None => None
  end.

(** The nested interpreter as [_do_subproject_meson] sets it up:
    [Interpreter(new_build, self.backend, subp_name, subdir,
    self.subproject_dir, ...)] followed by the assignment of
    [subi.subproject_stack]; [subi.subprojects] is the shared dictionary. *)
Definition nested_interpreter (me : Interp) (subp_name subdir : string)
    (is_translated : bool) : Interp :=
  mkInterp (source_dir me) subp_name subdir subdir (subproject_dir me)
           "undefined" EmptyString false false
           (subproject_stack me ++ [subp_name])
           (build_copy (build me))
           (if is_translated then ∅
            else {[os_path_join subdir "meson.build"]})
           ∅ ∅.

(** [subi = Interpreter(...); subi.run()]: the nested interpreter works on
    the shared objects and leaves the attributes of [self] alone. *)
Definition run_nested (is_translated : bool)
    (default_options : gmap string string) (subi0 : Interp) : Py Interp :=
  fun st =>
    match interp_run is_translated default_options subi0 (shared st) with
    | Return subi w => Return subi (mkState (self st) w)
    | Raise e w => Raise e (mkState (self st) w)
    end.

(** [_do_subproject_meson(subp_name, subdir, default_options, kwargs, ast,
    build_def_files, is_translated)] *)
Definition _do_subproject_meson (subp_name subdir : string)
    (default_options : gmap string string) (kwargs : Kwargs)
    (bs_files : option (gset string)) (is_translated : bool)
  : Py SubprojectHolder :=
  st <- get ;;
  let subi0 := nested_interpreter (self st) subp_name subdir is_translated in
  let current_active := active_projectname (self st) in
  let current_warnings_counter := log_warnings_counter (shared st) in
  modify (on_shared (set_log_warnings_counter 0)) ;;;
  modify (on_shared (record_call (CallRun subp_name))) ;;;
  subi <- run_nested is_translated default_options subi0 ;;
  st <- get ;;
  let subi_warnings := log_warnings_counter (shared st) in
  modify (on_shared (set_log_warnings_counter current_warnings_counter)) ;;;
  match kw_version kwargs with
  | Some wanted =>
      let pv := project_version subi in
      when (bool_decide (pv = "undefined")
            || negb (version_compare_many pv (wanted_versions (Some wanted))))
      then_raise InterpreterException
      msg ("Subproject " +:+ subp_name +:+ " version is " +:+ pv +:+ " but "
           +:+ format_version wanted +:+ " required.")
  | None => ret tt
  end ;;;
  modify (on_self (set_active_projectname current_active)) ;;;
  (* self.subprojects.update(subi.subprojects): the same dictionary *)
  modify (on_shared (fun w =>
    set_subprojects
      (<[subp_name := mkSubprojectHolder (Some subi) subdir subi_warnings None None]>
         (subprojects w)) w)) ;;;
  match bs_files with
  | Some files =>
      modify (on_self (fun i => set_build_def_files (build_def_files i ∪ files) i))
  | None => ret tt
  end ;;;
  modify (on_self (fun i =>
    set_build_def_files (build_def_files i ∪ build_def_files subi) i)) ;;;
  modify (on_build (fun b => build_merge b (build subi))) ;;;
  modify (on_build (fun b =>
    set_build_subprojects (<[subp_name := project_version subi]> (build_subprojects b)) b)) ;;;
  modify (on_shared (fun w =>
    set_initialized_subprojects ({[subp_name]} ∪ initialized_subprojects w) w)) ;;;
  modify (on_self (fun i => set_summary (summary subi ∪ summary i) i)) ;;;
  st <- get ;;
  match subprojects (shared st) !! subp_name with
  | Some sub => ret sub
  | None => raise OtherException "KeyError"
  end.

(** [_do_subproject_cmake(subp_name, subdir, subdir_abs, default_options,
    kwargs)] *)
Definition _do_subproject_cmake (subp_name subdir : string)
    (default_options : gmap string string) (kwargs : Kwargs)
  : Py SubprojectHolder :=
  modify (on_shared (record_call (CallCMake subp_name))) ;;;
  st <- get ;;
  bs_files <- lift_result (cmake_translate subp_name subdir kwargs (calls (shared st))) ;;
  _do_subproject_meson subp_name subdir default_options kwargs (Some bs_files) true.

(** The name checks that open [do_subproject].  (A name with a path
    separator only draws a warning.) *)
Definition check_subp_name (subp_name : string) : Py unit :=
  when (bool_decide (subp_name = EmptyString)) then_raise
    InterpreterException msg "Subproject name must not be empty." ;;;
  when (PyStr.startswith subp_name ".") then_raise
    InterpreterException msg "Subproject name must not start with a period." ;;;
  when (PyStr.contains ".." subp_name) then_raise
    InterpreterException
    msg ("Subproject name must not contain a " +:+ dquote +:+ ".." +:+ dquote
         +:+ " path segment.") ;;;
  when (os_path_isabs subp_name) then_raise
    InterpreterException msg "Subproject name must not be an absolute path.".

(** The body of the [try] statement of [do_subproject]. *)
Definition evaluation (subp_name method subdir : string)
    (opts : gmap string string) (kwargs : Kwargs) : Py SubprojectHolder :=
  if bool_decide (method = "meson") then
    _do_subproject_meson subp_name subdir opts kwargs None false
  else if bool_decide (method = "cmake") then
    _do_subproject_cmake subp_name subdir opts kwargs
  else
    raise InterpreterException
      ("The method " +:+ method +:+ " is invalid for the subproject "
       +:+ subp_name).

(** Its handlers: [except InvalidCode: raise] and
    [except Exception as e: ...]. *)
Definition boundary (subp_name : string) (required : bool) (e : Exc)
  : Py SubprojectHolder :=
  (* Invalid code is always an error *)
  if is_InvalidCode e then reraise e
  else if negb required then disabled_subproject subp_name None (Some e)
  else reraise e.

(** [do_subproject(subp_name, method, kwargs)] *)
Definition do_subproject (subp_name method : string) (kwargs : Kwargs)
  : Py SubprojectHolder :=
  st <- get ;;
  x <- lift_result (extract_required_kwarg kwargs (subproject (self st))) ;;
  let '(disabled, required, feature, kwargs) := x in
  if disabled : bool then disabled_subproject subp_name feature None
  else
    default_options <- lift_result
      (create_options_dict (default [] (kw_default_options kwargs)) subp_name) ;;
    check_subp_name subp_name ;;;
    if str_in subp_name (subproject_stack (self st)) then
      let fullstack := subproject_stack (self st) ++ [subp_name] in
      let incpath := PyStr.join " => " fullstack in
      raise InvalidCode ("Recursive include of subprojects: " +:+ incpath +:+ ".")
    else
      match subprojects (shared st) !! subp_name with
      | Some subproject =>
          if required && negb (sp_found subproject) then
            raise InterpreterException
              ("Subproject " +:+ dquote +:+ sp_subdir subproject +:+ dquote
               +:+ " required but not found.")
          else ret subproject
      | None =>
          modify (on_shared (record_call (CallWrapResolve subp_name method))) ;;;
          st <- get ;;
          match wrap_resolve subp_name method (subproject (self st)) (calls (shared st)) with
          | inl e =>
              (* except wrap.WrapException as e *)
              if bool_decide (exc_class e = WrapException) then
                if negb required then disabled_subproject subp_name None (Some e)
                else reraise e
              else reraise e
          | inr subdir =>
              modify (on_self (set_global_args_frozen true)) ;;;
              try_catch
                (evaluation subp_name method subdir default_options kwargs)
                (boundary subp_name required)
          end
      end.

(** [func_subproject(nodes, args, kwargs)] *)
Definition func_subproject (args : list string) (kwargs : Kwargs)
  : Py SubprojectHolder :=
  match args with
  | [subp_name] => do_subproject subp_name "meson" kwargs
  | _ => raise InterpreterException "Subproject takes exactly one argument"
  end.

End Subprojects.

(* ===================================================================== *)
(** ** The dependency resolver *)
(* ===================================================================== *)

(** Truth value of a keyword argument that is absent, or a list. *)
Definition truthy_list {A} (o : option (list A)) : bool :=
  match o with
  | Some (_ :: _) => true
  | _ => false
  end.

Section Dependencies.
Context `{Collaborators}.

(** [check_version(wanted, found)] *)
Definition check_version (wanted : list string) (found : string) : bool :=
  match wanted with
  | [] => true
  | _ =>
      if bool_decide (found = "undefined")
         || negb (version_compare_many found wanted)
      then false else true
  end.

(** [notfound_dependency()] *)
Definition notfound_dependency : Py DependencyHolder :=
  st <- get ;;
  ret (mkDepHolder NotFoundDependency (subproject (self st))).

(** [_find_cached_dep(name, display_name, kwargs)] *)
Definition _find_cached_dep (name display_name : string) (kwargs : Kwargs)
  : Py (string * option Dependency) :=
  for_machine <- lift_result (machine_from_native_kwarg kwargs) ;;
  let identifier := get_dep_identifier name kwargs in
  let wanted_vers := wanted_versions (kw_version kwargs) in
  st <- get ;;
  match pm_get (dependency_overrides (shared st)) for_machine !! identifier with
  | Some override =>
      let cached_dep := ov_dep override in
      if negb (dep_found cached_dep) then ret (identifier, Some cached_dep)
      else
        let found_vers := dep_get_version cached_dep in
        if negb (check_version wanted_vers found_vers) then
          ret (identifier, Some NotFoundDependency)
        else ret (identifier, Some cached_dep)
  | None =>
      match pm_get (coredata_deps (shared st)) for_machine !! identifier with
      | Some cached_dep =>
          let found_vers := dep_get_version cached_dep in
          if negb (check_version wanted_vers found_vers) then
            ret (identifier, None)
          else ret (identifier, Some cached_dep)
      | None => ret (identifier, None)
      end
  end.

(** [verify_fallback_consistency(subp_name, varname, cached_dep)] *)
Definition verify_fallback_consistency (subp_name : string)
    (varname : option string) (cached_dep : Dependency) : Py unit :=
  st <- get ;;
  match varname, get_subproject (shared st) subp_name with
  | Some varname, Some subi =>
      if bool_decide (varname = EmptyString) || negb (dep_found cached_dep)
      then ret tt
      else
        dep <- lift_result (get_variable_method subi varname) ;;
        let inconsistent :=
          raise DependencyException
            ("Inconsistency: Subproject has overridden the dependency with "
             +:+ "another variable than '" +:+ varname +:+ "'") in
        match dep with
        | VDep h =>
            if bool_decide (held_object h = cached_dep) then ret tt
            else inconsistent
        | VTarget _ => inconsistent
        | VStr _ | VBool _ =>
            raise AttributeError "object has no attribute 'held_object'"
        end
  | _, _ => ret tt
  end.

(** [get_subproject_infos(fbinfo)] *)
Definition get_subproject_infos (fbinfo : list string)
  : Py (string * option string) :=
  match fbinfo with
  | [subp_name] => ret (subp_name, None)
  | [subp_name; varname] => ret (subp_name, Some varname)
  | _ => raise InterpreterException "Fallback info must have one or two items."
  end.

(** [get_subproject_dep(name, display_name, subp_name, varname, kwargs)] *)
Definition get_subproject_dep (name display_name subp_name : string)
    (varname : option string) (kwargs : Kwargs) : Py DependencyHolder :=
  let required := get_required kwargs in
  let wanted := wanted_versions (kw_version kwargs) in
  dep0 <- notfound_dependency ;;
  st <- get ;;
  match subprojects (shared st) !! subp_name with
  | None => raise AttributeError "'NoneType' object has no attribute 'subdir'"
  | Some sub =>
      if negb (sp_found sub) then
        if required then
          raise DependencyException
            ("Subproject " +:+ sp_subdir sub
             +:+ " failed to configure for dependency " +:+ display_name)
        else ret dep0
      else
        (* the [try] block: [inl] is a [return] inside it, [inr] the value
           of [dep] when the block is left *)
        r <- try_catch
               (ic <- _find_cached_dep name display_name kwargs ;;
                match snd ic with
                | Some cached_dep =>
                    match varname with
                    | Some v =>
                        if bool_decide (v = EmptyString) then ret tt
                        else verify_fallback_consistency subp_name varname cached_dep
                    | None => ret tt
                    end ;;;
                    when (required && negb (dep_found cached_dep)) then_raise
                      DependencyException
                      msg ("Dependency '" +:+ display_name +:+ "' is not satisfied") ;;;
                    ret (inl (mkDepHolder cached_dep (subproject (self st))))
                | None =>
                    match varname with
                    | None =>
                        when required then_raise
                          DependencyException
                          msg ("Subproject " +:+ sp_subdir sub
                               +:+ " did not override dependency " +:+ display_name) ;;;
                        d <- notfound_dependency ;;
                        ret (inl d)
                    | Some v =>
                        dep <- lift_result (get_variable_method sub v) ;;
                        ret (inr dep)
                    end
                end)
               (fun e =>
                  (* except InvalidArguments: *)
                  if is_InvalidArguments e then ret (inr (VDep dep0))
                  else reraise e) ;;
        match r with
        | inl d => ret d
        | inr (VDep dep) =>
            if negb (holder_found dep) then
              if required then
                raise DependencyException
                  ("Could not find dependency " +:+ default "None" varname
                   +:+ " in subproject " +:+ subp_name)
              else ret dep
            else
              let found := dep_get_version (held_object dep) in
              if negb (check_version wanted found) then
                if required then
                  raise DependencyException
                    ("Version " +:+ found +:+ " of subproject dependency "
                     +:+ subp_name +:+ " already cached, requested incompatible"
                     +:+ " version " +:+ repr_list wanted +:+ " for dep "
                     +:+ display_name)
                else notfound_dependency
              else ret dep
        | inr _ =>
            raise InvalidCode
              ("Fetched variable '" +:+ default "None" varname
               +:+ "' in the subproject '" +:+ subp_name
               +:+ "' is not a dependency object.")
        end
  end.

(** [dependency_fallback(name, display_name, fallback, kwargs)] *)
Definition dependency_fallback (name display_name : string)
    (fallback : list string) (kwargs : Kwargs) : Py DependencyHolder :=
  sv <- get_subproject_infos fallback ;;
  let '(subp_name, varname) := sv in
  let required := get_required kwargs in
  let proceed :=
    let sp_kwargs :=
      mkKwargs (Some (PyBool required))
               (Some (default [] (kw_default_options kwargs)))
               None None None None None in
    do_subproject subp_name "meson" sp_kwargs ;;;
    get_subproject_dep name display_name subp_name varname kwargs in
  if str_in name force_fallback_for || str_in subp_name force_fallback_for
  then proceed
  else if bool_decide (wrap_mode = wm_nofallback) then
    if required then
      raise DependencyException
        ("Dependency '" +:+ display_name
         +:+ "' not found and fallback is disabled")
    else notfound_dependency
  else proceed.

(** The check of [allow_fallback] that opens [dependency_impl]. *)
Definition check_allow_fallback (fallback : option (list string))
    (allow_fallback : option PyVal) : Py unit :=
  match allow_fallback with
  | Some v =>
      when (bool_decide (is_Some fallback)) then_raise
        InvalidArguments
        msg (dquote +:+ "fallback" +:+ dquote +:+ " and " +:+ dquote
             +:+ "allow_fallback" +:+ dquote
             +:+ " arguments are mutually exclusive") ;;;
      when (match v with PyBool _ => false | _ => true end) then_raise
        InvalidArguments
        msg (dquote +:+ "allow_fallback" +:+ dquote
             +:+ " argument must be boolean")
  | None => ret tt
  end.

(** The block of [dependency_impl] that looks for an implicit fallback
    when the keyword [fallback] is absent; it yields the values of
    [fallback] and [force_fallback] after it. *)
Definition implicit_fallback (name : string) (required : bool)
    (fallback : option (list string)) (allow_fallback : option PyVal)
    (force_fallback : bool) : Py (option (list string) * bool) :=
  if negb (bool_decide (name = EmptyString))
     && bool_decide (fallback = None)
     && negb (bool_decide (allow_fallback = Some (PyBool false)))
  then
    let provider := find_dep_provider name in
    when (bool_decide (provider = None)
          && bool_decide (allow_fallback = Some (PyBool true)))
    then_raise InvalidArguments
    msg ("Fallback wrap or subproject not found for dependency '"
         +:+ name +:+ "'") ;;;
    (* subp_name = mesonlib.listify(provider)[0] *)
    let subp_name := fst <$> provider in
    let force_fallback :=
      force_fallback
      || match subp_name with
         | Some n => str_in n force_fallback_for
         | None => false
         end in
    st <- get ;;
    match provider with
    | Some (n, v) =>
        if bool_decide (allow_fallback = Some (PyBool true))
           || required
           || bool_decide (is_Some (get_subproject (shared st) n))
           || force_fallback
        then ret (Some (n :: option_list v), force_fallback)
        else ret (fallback, force_fallback)
    | None => ret (fallback, force_fallback)
    end
  else ret (fallback, force_fallback).

(** The two static checks of [dependency_impl]. *)
Definition static_checks (name : string) (required : bool)
    (fallback : option (list string)) : Py unit :=
  (* writing just "dependency('')" is an error, because it can only fail *)
  when (bool_decide (name = EmptyString) && required
        && negb (truthy_list fallback))
  then_raise InvalidArguments
  msg "Dependency is both required and not-found" ;;;
  when (PyStr.contains_char "<" name || PyStr.contains_char ">" name
        || PyStr.contains_char "=" name)
  then_raise InvalidArguments
  msg ("Characters <, > and = are forbidden in dependency names. To specify"
       +:+ "version" +:+ nl
       +:+ " requirements use the 'version' keyword argument instead.").

(** The rest of [dependency_impl], from the call of [_find_cached_dep]
    on. *)
Definition resolve (name display_name : string) (required : bool)
    (kwargs : Kwargs) (fallback : option (list string))
    (force_fallback : bool) : Py (DependencyHolder * Kwargs) :=
  ic <- _find_cached_dep name display_name kwargs ;;
  let '(identifier, cached_dep) := ic in
  match cached_dep with
  | Some cached_dep =>
      (if truthy_list fallback then
         sv <- get_subproject_infos (default [] fallback) ;;
         verify_fallback_consistency (fst sv) (snd sv) cached_dep
       else ret tt) ;;;
      when (required && negb (dep_found cached_dep)) then_raise
        DependencyException
        msg ("Dependency '" +:+ display_name
             +:+ "' was already checked and was not found") ;;;
      st <- get ;;
      ret (mkDepHolder cached_dep (subproject (self st)), kwargs)
  | None =>
      (* If the dependency has already been configured, possibly by a
         higher level project, try to use it first. *)
      z <- (if truthy_list fallback then
              sv <- get_subproject_infos (default [] fallback) ;;
              let '(subp_name, varname) := sv in
              st <- get ;;
              if bool_decide (is_Some (get_subproject (shared st) subp_name))
              then
                d <- get_subproject_dep name display_name subp_name varname kwargs ;;
                ret (inl d)
              else
                ret (inr (force_fallback || str_in subp_name force_fallback_for))
            else ret (inr force_fallback)) ;;
      match z with
      | inl d => ret (d, kwargs)
      | inr force_fallback =>
          w <- (if negb (bool_decide (name = EmptyString))
                   && (negb (truthy_list fallback) || negb force_fallback)
                then
                  let probe_kwargs :=
                    set_required kwargs (required && negb (truthy_list fallback)) in
                  modify (on_shared (record_call (CallProbe name))) ;;;
                  st <- get ;;
                  dep <- lift_result
                           (find_external_dependency name probe_kwargs
                              (calls (shared st))) ;;
                  let kwargs := set_required kwargs required in
                  (* Only store found-deps in the cache.  Never add
                     fallback deps to self.coredata.deps. *)
                  if dep_found dep then
                    for_machine <- lift_result (machine_from_native_kwarg kwargs) ;;
                    modify (on_shared (fun w =>
                      set_coredata_deps
                        (pm_set (coredata_deps w) for_machine
                           (<[identifier := dep]>
                              (pm_get (coredata_deps w) for_machine))) w)) ;;;
                    st <- get ;;
                    ret (Some (mkDepHolder dep (subproject (self st))), kwargs)
                  else ret (None, kwargs)
                else ret (None, kwargs)) ;;
          match w with
          | (Some d, kwargs) => ret (d, kwargs)
          | (None, kwargs) =>
              if truthy_list fallback then
                d <- dependency_fallback name display_name
                       (default [] fallback) kwargs ;;
                ret (d, kwargs)
              else
                d <- notfound_dependency ;; ret (d, kwargs)
          end
      end
  end.

(** [dependency_impl] after the extraction of [required], for a lookup that
    is not disabled. *)
Definition dependency_lookup (name display_name : string) (required : bool)
    (kwargs : Kwargs) (force_fallback : bool)
  : Py (DependencyHolder * Kwargs) :=
  let fallback := kw_fallback kwargs in
  let allow_fallback := kw_allow_fallback kwargs in
  check_allow_fallback fallback allow_fallback ;;;
  let force_fallback :=
    force_fallback
    || (bool_decide (wrap_mode = wm_forcefallback)
        || str_in name force_fallback_for) in
  (* If "fallback" is absent, look for an implicit fallback. *)
  y <- implicit_fallback name required fallback allow_fallback
         force_fallback ;;
  let '(fallback, force_fallback) := y in
  static_checks name required fallback ;;;
  resolve name display_name required kwargs fallback force_fallback.

(** [dependency_impl(name, display_name, kwargs, force_fallback)].  The
    second component of the result is the dictionary [kwargs] as the call
    leaves it. *)
Definition dependency_impl (name display_name : string) (kwargs : Kwargs)
    (force_fallback : bool) : Py (DependencyHolder * Kwargs) :=
  st <- get ;;
  x <- lift_result (extract_required_kwarg kwargs (subproject (self st))) ;;
  let '(disabled, required, feature, kwargs) := x in
  if disabled : bool then
    d <- notfound_dependency ;; ret (d, kwargs)
  else dependency_lookup name display_name required kwargs force_fallback.

(** [func_dependency(node, args, kwargs)] with [args = [name]].  The
    messages ([not_found_message], the display of [modules]) and the
    conversion of the include type are left out. *)
Definition func_dependency (name : string) (kwargs : Kwargs)
  : Py DependencyHolder :=
  let display_name :=
    if bool_decide (name = EmptyString) then "(anonymous)" else name in
  r <- dependency_impl name display_name kwargs false ;;
  let '(d, kwargs) := r in
  (* Override this dependency to have consistent results in subsequent
     dependency lookups. *)
  (if negb (bool_decide (name = EmptyString)) && holder_found d then
     for_machine <- lift_result (machine_from_native_kwarg kwargs) ;;
     let identifier := get_dep_identifier name kwargs in
     modify (on_shared (fun w =>
       let table := pm_get (dependency_overrides w) for_machine in
       match table !! identifier with
       | Some _ => w
       | None =>
           set_dependency_overrides
             (pm_set (dependency_overrides w) for_machine
                (<[identifier := mkOverride (held_object d) false]> table)) w
       end))
   else ret tt) ;;;
  ret d.

End Dependencies.

(* ===================================================================== *)
(** ** Calls of a build description *)
(* ===================================================================== *)

(** The entries of the function table ([build_func_dict]) that reach the
    modelled methods, with their arguments. *)
Inductive Stmt :=
| s_subproject (args : list string) (kwargs : Kwargs)
| s_dependency (name : string) (kwargs : Kwargs)
| s_build_target (targetholder : TargetKind) (args : list SourceInput)
                 (kwargs : Kwargs)
| s_alias_target (args : list Value)
| s_add_global_arguments (t : ArgsTable) (args : list string) (kwargs : Kwargs)
| s_add_project_arguments (t : ArgsTable) (args : list string) (kwargs : Kwargs).

Definition func_name_of (global : bool) (t : ArgsTable) : string :=
  match global, t with
  | true, CompileArgs => "add_global_arguments"
  | true, LinkArgs => "add_global_link_arguments"
  | false, CompileArgs => "add_project_arguments"
  | false, LinkArgs => "add_project_link_arguments"
  end.

Section Statements.
Context `{Collaborators}.

Definition exec_stmt (s : Stmt) : Py unit :=
  match s with
  | s_subproject args kwargs => func_subproject args kwargs ;;; ret tt
  | s_dependency name kwargs => func_dependency name kwargs ;;; ret tt
  | s_build_target k args kwargs => build_target args kwargs k ;;; ret tt
  | s_alias_target args => func_alias_target args ;;; ret tt
  | s_add_global_arguments t args kwargs =>
      func_add_global_arguments (func_name_of true t) t args kwargs
  | s_add_project_arguments t args kwargs =>
      func_add_project_arguments (func_name_of false t) t args kwargs
  end.

(** The calls one after the other; the first exception ends the run. *)
Fixpoint exec_stmts (l : list Stmt) : Py unit :=
  match l with
  | [] => ret tt
  | s :: l' => exec_stmt s ;;; exec_stmts l'
  end.

End Statements.

(* ===================================================================== *)
(** ** Notions used in the statements *)
(* ===================================================================== *)

(** [p] lies strictly below the directory [root]. *)
Definition below (root p : PurePath) : Prop :=
  anchored root = anchored p
  /\ exists k, k <> [] /\ parts p = parts root ++ k.

(** The two messages of the sandbox check. *)
Definition sandbox_violation (e : Exc) : Prop :=
  exc_class e = InterpreterException
  /\ PyStr.startswith (exc_msg e) "Sandbox violation: " = true.


(** The name passes the checks that open [do_subproject]. *)
Definition valid_subp_name (s : string) : Prop :=
  s <> EmptyString
  /\ PyStr.startswith s "." = false
  /\ PyStr.contains ".." s = false
  /\ os_path_isabs s = false.

Section Notions.
Context `{Collaborators}.

(** The call [do_subproject(subp_name, method, kwargs)] in the state [st] is
    not skipped by a disabled feature and its keyword arguments are
    accepted: [required] is the flag extracted, [kwargs'] the keyword
    arguments as the extraction leaves them, [opts] the default options. *)
Definition accepted_call (subp_name : string) (kwargs : Kwargs) (st : State)
    (required : bool) (kwargs' : Kwargs) (opts : gmap string string) : Prop :=
  (exists feature,
      extract_required_kwarg kwargs (subproject (self st))
      = inr (false, required, feature, kwargs'))
  /\ create_options_dict (default [] (kw_default_options kwargs')) subp_name
     = inr opts.

(** The state of [do_subproject] when it starts to evaluate the
    subproject: the call of the wrap resolver is on record and the global
    arguments are frozen. *)
Definition entry_state (subp_name method : string) (st : State) : State :=
  on_self (set_global_args_frozen true)
          (on_shared (record_call (CallWrapResolve subp_name method)) st).

(** The call gets as far as evaluating the subproject in [subdir]: it is
    accepted, the name is valid, neither on the stack nor in the cache, and
    the wrap resolver finds the sources. *)
Definition enters_subproject (subp_name method : string) (kwargs : Kwargs)
    (st : State) (required : bool) (kwargs' : Kwargs)
    (opts : gmap string string) (subdir : string) : Prop :=
  accepted_call subp_name kwargs st required kwargs' opts
  /\ valid_subp_name subp_name
  /\ (subp_name ∉ subproject_stack (self st))
  /\ subprojects (shared st) !! subp_name = None
  /\ wrap_resolve subp_name method (subproject (self st))
       (calls (shared st) ++ [CallWrapResolve subp_name method])
     = inr subdir.

(** The handle that [disabled_subproject] makes. *)
Definition disabled_holder (me : Interp) (s : string) (f : option string)
    (e : option Exc) : SubprojectHolder :=
  mkSubprojectHolder None (os_path_join (subproject_dir me) s) 0 f e.

(** The shared objects as the nested interpreter of [_do_subproject_meson]
    finds them. *)
Definition shared_at_run (subp_name : string) (w : Shared) : Shared :=
  record_call (CallRun subp_name) (set_log_warnings_counter 0 w).


(** The lookup of [name] has the fallback [subp] with the variable [var]:
    from the keyword [fallback], or, when that is absent and
    [allow_fallback] is not false, from the wrap that provides the
    dependency (the implicit fallback). *)
Definition has_fallback (name : string) (kwargs : Kwargs) (subp : string)
    (var : option string) : Prop :=
  (kw_fallback kwargs = Some (subp :: option_list var)
   /\ kw_allow_fallback kwargs = None)
  \/ (kw_fallback kwargs = None
      /\ (kw_allow_fallback kwargs = None
          \/ kw_allow_fallback kwargs = Some (PyBool true))
      /\ find_dep_provider name = Some (subp, var)).

(** The options force the fallback of the lookup of [name] to [subp];
    [force_fallback] is the argument of [dependency_impl]. *)
Definition fallback_forced (name subp : string) (force_fallback : bool)
  : bool :=
  force_fallback
  || (bool_decide (wrap_mode = wm_forcefallback)
      || str_in name force_fallback_for)
  || str_in subp force_fallback_for.

(** A property [I] of the implicit cache ([coredata.deps]) is kept from the
    state [st] to the state [st']. *)
Definition cache_kept (I : PerMachine (gmap string Dependency) -> Prop)
    (st st' : State) : Prop :=
  I (coredata_deps (shared st)) -> I (coredata_deps (shared st')).

(** The evaluation of a nested project keeps the property [I]. *)
Definition kept_by_nested (I : PerMachine (gmap string Dependency) -> Prop)
  : Prop :=
  forall tr opts subi w,
    I (coredata_deps w) ->
    I (coredata_deps (outcome_state (interp_run tr opts subi w))).

(** Storing a found answer of the external probe keeps the property [I]. *)
Definition kept_by_probe (I : PerMachine (gmap string Dependency) -> Prop)
  : Prop :=
  forall deps m id name kw hist dep,
    I deps ->
    find_external_dependency name kw hist = inr dep ->
    dep_found dep = true ->
    I (pm_set deps m (<[id := dep]> (pm_get deps m))).

(** The dependency is a found answer of the external probe. *)
Definition from_probe (d : Dependency) : Prop :=
  dep_found d = true
  /\ exists name kw hist, find_external_dependency name kw hist = inr d.

(** Every entry of the implicit cache is a found answer of the probe. *)
Definition all_from_probe (deps : PerMachine (gmap string Dependency))
  : Prop :=
  forall m id d, pm_get deps m !! id = Some d -> from_probe d.

End Notions.

(** A method keeps the relation [R] between the state it starts from and the
    state it leaves, whether it returns or raises. *)
Definition preserves {A} (R : State -> State -> Prop) (m : Py A) : Prop :=
  forall st, R st (outcome_state (m st)).

(** A frozen flag of the interpreter stays frozen. *)
Definition flags_kept (st st' : State) : Prop :=
  (project_args_frozen (self st) = true ->
   project_args_frozen (self st') = true)
  /\ (global_args_frozen (self st) = true ->
      global_args_frozen (self st') = true).

(* ===================================================================== *)
(** ** A sample world *)
(* ===================================================================== *)

(** Collaborators simple enough to run the methods on concrete projects: the
    build description of a project is a list of calls, a nested interpreter
    runs the description of its project, the wrap resolver finds exactly the
    described projects, and the probe finds exactly the listed system
    libraries.  The keyword [required] is a boolean, or the feature option
    [PyObject f], which is disabled. *)
Module Sample.

Definition extract_required (kw : Kwargs) (sp : string)
  : Exc + (bool * bool * option string * Kwargs) :=
  match kw_required kw with
  | None => inr (false, true, None, set_required kw true)
  | Some (PyBool b) => inr (false, b, None, set_required kw b)
  | Some (PyObject f) => inr (true, false, Some f, set_required kw false)
  | Some (PyStr _) =>
      inl (mkExc InterpreterException
             "required keyword argument must be boolean or a feature option")
  end.

Definition probe (system : list (string * string)) (name : string)
    (kw : Kwargs) (_ : list Call) : Exc + Dependency :=
  match List.find (fun p => String.eqb (fst p) name) system with
  | Some (n, v) => inr (ExternalDependency n v true)
  | None =>
      if get_required kw then
        inl (mkExc DependencyException ("Dependency " +:+ name +:+ " not found"))
      else inr NotFoundDependency
  end.

Definition out_of_fuel : Exc := mkExc OtherException "out of fuel".

Fixpoint world (descr : string -> option (list Stmt))
    (system : list (string * string)) (fuel : nat) : Collaborators :=
  {| extract_required_kwarg := extract_required;
     create_options_dict := fun _ _ => inr ∅;
     wrap_resolve := fun subp_name _ _ _ =>
       match descr subp_name with
       | Some _ => inr (os_path_join "subprojects" subp_name)
       | None =>
           inl (mkExc WrapException
                  ("Subproject directory not found and " +:+ subp_name
                   +:+ ".wrap file not found"))
       end;
     cmake_translate := fun _ _ _ _ =>
       inl (mkExc OtherException "cmake is not available");
     interp_run := fun _ _ subi w =>
       match fuel with
       | 0 => Raise out_of_fuel w
       | S n =>
           match @exec_stmts (world descr system n)
                   (default [] (descr (subproject subi))) (mkState subi w) with
           | Return _ st => Return (self st) (shared st)
           | Raise e st => Raise e (shared st)
           end
       end;
     build_copy := fun b => b;
     build_merge := fun _ b => b;
     find_external_dependency := probe system;
     find_dep_provider := fun name =>
       match descr name with Some _ => Some (name, None) | None => None end;
     get_dep_identifier := fun name _ => name;
     version_compare_many := fun found wanted =>
       forallb (String.eqb found) wanted;
     wrap_mode := wm_default;
     force_fallback_for := [];
     path_resolve := PathLib.lexical_resolve;
     os_path_isdir := fun _ => false;
     from_source_file := fun _ _ fname =>
       if PyStr.startswith fname "missing" then
         inl (mkExc MesonException ("File " +:+ fname +:+ " does not exist."))
       else inr tt;
     construct_target := fun k name subdir subproject _ _ =>
       inr (mkTarget name k subdir subproject EmptyString);
     FORBIDDEN_TARGET_NAMES := ["all"; "test"; "clean"; "install"];
     uuid4 := fun n => Nat.iter n (String "A"%char) "GUID" |}.

Definition empty_build : Build :=
  mkBuild ∅ (mkPerMachine ∅ ∅) (mkPerMachine ∅ ∅) (mkPerMachine ∅ ∅)
          (mkPerMachine ∅ ∅) ∅.

(** The interpreter of the main project, before its first statement. *)
Definition root_interp : Interp :=
  mkInterp "/src" EmptyString EmptyString EmptyString "subprojects"
           "undefined" EmptyString false false [] empty_build
           {["meson.build"]} ∅ ∅.

Definition empty_shared : Shared :=
  mkShared ∅ (mkPerMachine ∅ ∅) (mkPerMachine ∅ ∅) ∅ ∅ 0 0 [].

Definition initial : State := mkState root_interp empty_shared.

Definition required_kw (b : bool) : Kwargs :=
  mkKwargs (Some (PyBool b)) None None None None None None.

Definition feature_kw (f : string) : Kwargs :=
  mkKwargs (Some (PyObject f)) None None None None None None.

Definition language_kw (l : string) : Kwargs :=
  mkKwargs None None None None None None (Some [l]).

Definition required_version_kw (v : string) : Kwargs :=
  mkKwargs (Some (PyBool true)) None (Some (VersionStr v)) None None None
           None.

(** The projects of the sample run.  [A] and [B] include each other;
    [dup] declares two executables of one name; [zlib] declares a static
    library; [selfopt] includes itself under a disabled feature; [broken]
    requires a dependency that does not exist; [picky] requires [zlib] in
    a version that [zlib], which declares none, does not have. *)
Definition descr (n : string) : option (list Stmt) :=
  if String.eqb n "picky" then
    Some [s_subproject ["zlib"] (required_version_kw "1.2")]
  else if String.eqb n "A" then Some [s_subproject ["B"] (required_kw false)]
  else if String.eqb n "B" then Some [s_subproject ["A"] (required_kw false)]
  else if String.eqb n "dup" then
    Some [s_build_target Executable [SrcString "prog"] no_kwargs;
          s_build_target Executable [SrcString "prog"] no_kwargs]
  else if String.eqb n "zlib" then
    Some [s_build_target StaticLibrary [SrcString "z"] no_kwargs]
  else if String.eqb n "selfopt" then
    Some [s_subproject ["selfopt"] (feature_kw "opt")]
  else if String.eqb n "broken" then
    Some [s_dependency "nonexistent" (required_kw true)]
  else None.

(** The sample run: the system provides [glib] 2.70. *)
Definition W : Collaborators := world descr [("glib", "2.70")] 4.

(** The interpreter of the subproject [foo]. *)
Definition foo_interp : Interp :=
  mkInterp "/src" "foo" "subprojects/foo" "subprojects/foo" "subprojects"
           "undefined" EmptyString false false ["foo"] empty_build
           {["subprojects/foo/meson.build"]} ∅ ∅.


Definition exe_prog : Target :=
  mkTarget "prog" Executable EmptyString EmptyString "undefined".

Definition lib_prog : Target :=
  mkTarget "prog" StaticLibrary EmptyString EmptyString "undefined".

(** The static library that the subproject [zlib] declares. *)
Definition lib_z : Target :=
  mkTarget "z" StaticLibrary "subprojects/zlib" "zlib" "undefined".







(** The sample world with projects that define variables and wraps that
    name them: the run of a project leaves the variables [provides] lists
    for it in its interpreter, and [wraps] tells the provider of a
    dependency. *)
Definition with_variables (v : gmap string Value) (i : Interp) : Interp :=
  mkInterp (source_dir i) (subproject i) (subdir i) (root_subdir i)
           (subproject_dir i) (project_version i)
           (active_projectname i) (project_args_frozen i)
           (global_args_frozen i) (subproject_stack i) (build i)
           (build_def_files i) v (summary i).

Definition providing (provides : string -> gmap string Value)
    (wraps : string -> option (string * option string))
    (C : Collaborators) : Collaborators :=
  {| extract_required_kwarg := @extract_required_kwarg C;
     create_options_dict := @create_options_dict C;
     wrap_resolve := @wrap_resolve C;
     cmake_translate := @cmake_translate C;
     interp_run := fun tr opts subi0 w =>
       match @interp_run C tr opts subi0 w with
       | Return subi w' =>
           Return (with_variables (provides (subproject subi)) subi) w'
       | Raise e w' => Raise e w'
       end;
     build_copy := @build_copy C;
     build_merge := @build_merge C;
     find_external_dependency := @find_external_dependency C;
     find_dep_provider := wraps;
     get_dep_identifier := @get_dep_identifier C;
     version_compare_many := @version_compare_many C;
     wrap_mode := @wrap_mode C;
     force_fallback_for := @force_fallback_for C;
     path_resolve := @path_resolve C;
     os_path_isdir := @os_path_isdir C;
     from_source_file := @from_source_file C;
     construct_target := @construct_target C;
     FORBIDDEN_TARGET_NAMES := @FORBIDDEN_TARGET_NAMES C;
     uuid4 := @uuid4 C |}.

(** The dependency that the project [zlib] declares, in its variable
    [zlib_dep]. *)
Definition zlib_dep : DependencyHolder :=
  mkDepHolder (InternalDependency "1.2.11") "zlib".

Definition zlib_variables (n : string) : gmap string Value :=
  if String.eqb n "zlib" then {["zlib_dep" := VDep zlib_dep]} else ∅.

(** The wrap of [zlib] provides the dependency [zlib] in that variable. *)
Definition zlib_wrap (name : string) : option (string * option string) :=
  if String.eqb name "zlib" then Some ("zlib", Some "zlib_dep") else None.

Definition WP : Collaborators := providing zlib_variables zlib_wrap W.

Definition fallback_kw (fb : list string) : Kwargs :=
  mkKwargs None None None (Some fb) None None None.

(** The lookup of [zlib], which the system does not have, with the fallback
    to the variable [zlib_dep] of the subproject [zlib]; and the lookup
    that leaves the fallback to the wrap. *)
Definition zlib_lookup : Outcome State (DependencyHolder * Kwargs) :=
  @dependency_impl WP "zlib" "zlib" (fallback_kw ["zlib"; "zlib_dep"]) false
                   initial.





Definition dup_optional : Outcome State SubprojectHolder :=
  @do_subproject W "dup" "meson" (required_kw false) initial.

Definition alias_then_arguments : Outcome State unit :=
  @exec_stmts W
    [s_subproject ["zlib"] (required_kw true);
     s_alias_target [VStr "libs"; VTarget lib_z];
     s_add_project_arguments CompileArgs ["-DFOO"] (language_kw "c")]
    initial.


Definition prog_registered : State :=
  outcome_state (@add_target W "prog" exe_prog initial).

Definition prog_built : State :=
  outcome_state (@build_target W [SrcString "prog"] no_kwargs Executable initial).

Definition zlib_first : Outcome State SubprojectHolder :=
  @do_subproject W "zlib" "meson" (required_kw true) initial.



Definition nonexistent_error : Exc :=
  mkExc DependencyException "Dependency nonexistent not found".

(** The shared objects as the failed run of [broken] leaves them. *)
Definition broken_shared : Shared :=
  outcome_state
    (@interp_run W false ∅
       (@nested_interpreter W
          (self (@entry_state "broken" "meson" initial))
          "broken" "subprojects/broken" false)
       (shared_at_run "broken"
          (shared (@entry_state "broken" "meson" initial)))).

End Sample.

(* ===================================================================== *)
(** * The rest of the interpreter and the module [unstable_rust] *)
(* ===================================================================== *)

(** The methods below keep their own, smaller states: the attributes each of
    them reads or writes.  A Python exception of a class that [ExcClass] does
    not list is an [OtherException] whose message starts with the name of the
    class. *)

(* ===================================================================== *)
(** ** [stringifyUserArguments] and the functions [message], [warning] and
       [error] *)
(* ===================================================================== *)

(** An argument of a function of the build description, as
    [stringifyUserArguments] tells them apart.  A boolean is an [int] of
    Python; the keys of a dictionary of a build description are strings. *)
#[local] Unset Elimination Schemes.

Inductive PyArg :=
| AStr (s : string)
| AInt (n : Z)
| ABool (b : bool)
| AList (l : list PyArg)
| ADict (d : list (string * PyArg))
| AObject (tag : string).

#[local] Set Elimination Schemes.

(** [stringifyUserArguments(args, quote)] *)
Fixpoint stringifyUserArguments (args : PyArg) (quote : bool) : Exc + string :=
  match args with
  | AList l =>
      match PyLib.collect
              (List.map (fun x => stringifyUserArguments x true) l) with
      | inl e => inl e
      | inr items => inr ("[" +:+ PyStr.join ", " items +:+ "]")
      end
  | ADict d =>
      match PyLib.collect
              (List.map
                 (fun kv =>
                    match stringifyUserArguments (snd kv) true with
                    | inl e => inl e
                    | inr v => inr ("'" +:+ fst kv +:+ "'" +:+ " : " +:+ v)
                    end) d) with
      | inl e => inl e
      | inr items => inr ("{" +:+ PyStr.join ", " items +:+ "}")
      end
  | AInt n => inr (pretty n)
  | ABool b => inr (PyLib.str_bool b)
  | AStr s => inr (if quote then "'" +:+ s +:+ "'" else s)
  | AObject _ =>
      inl (mkExc InvalidArguments
             ("Function accepts only strings, integers, lists, "
              +:+ "dictionaries and lists thereof."))
  end.

(** The exception of [stringifyUserArguments]. *)
Definition unsupported_argument : Exc :=
  mkExc InvalidArguments
    ("Function accepts only strings, integers, lists, "
     +:+ "dictionaries and lists thereof.").

(** A value built from strings, integers, booleans, lists and
    dictionaries. *)
Fixpoint supported (a : PyArg) : bool :=
  match a with
  | AStr _ | AInt _ | ABool _ => true
  | AList l => forallb supported l
  | ADict d => forallb (fun kv => supported (snd kv)) d
  | AObject _ => false
  end.

(** [func_error(node, args, kwargs)]; the result is the exception raised. *)
Definition func_error (args : list PyArg) : Exc :=
  match PyLib.collect
          (List.map (fun i => stringifyUserArguments i false) args) with
  | inl e => e
  | inr args_str =>
      mkExc InterpreterException
        ("Problem encountered: " +:+ PyStr.join " " args_str)
  end.

(* ===================================================================== *)
(** ** The class [Summary] *)
(* ===================================================================== *)

(** What [mlog.log] prints: a string, a string decorated by one of the
    functions of [mlog] ([mlog.green(s)], [mlog.bold(s)], ...), or the
    printable object that [summary_value()] or [printable_value()] of a
    program, a dependency or an option returns. *)
Inductive Formatted :=
| FStr (s : string)
| FAnsi (style : string) (s : string)
| FObject (tag : string).

(** An item of a value of [summary()], after [unholder]. *)
Inductive SummaryItem :=
| SBool (b : bool)
| SInt (n : Z)
| SStr (s : string)
| SProgramOrDependency (summary_value : Formatted)
| SUserOption (printable_value : Formatted)
| SOther.

(** A call of [mlog.log]: the positional arguments, [sep] and [end]. *)
Record LogCall := mkLog {
  log_args : list Formatted;
  log_sep : string;
  log_end : string
}.

(** An entry of a section: the formatted values and [list_sep]. *)
Abbreviation SummaryEntry := (list Formatted * option string)%type.

Record Summary := mkSummary {
  sum_project_name : string;
  sum_project_version : string;
  (* a defaultdict of dictionaries, in insertion order *)
  sections : list (string * list (string * SummaryEntry));
  max_key_len : nat
}.

(** [Summary(project_name, project_version)] *)
Definition new_Summary (project_name project_version : string) : Summary :=
  mkSummary project_name project_version [] 0.

Definition set_sections (v : list (string * list (string * SummaryEntry)))
    (s : Summary) : Summary :=
  mkSummary (sum_project_name s) (sum_project_version s) v (max_key_len s).

Definition set_max_key_len (n : nat) (s : Summary) : Summary :=
  mkSummary (sum_project_name s) (sum_project_version s) (sections s) n.

(** [self.sections[section]] as an expression: a section that is missing
    is created empty. *)
Definition touch_section (section : string) (s : Summary) : Summary :=
  match PyLib.od_get (sections s) section with
  | Some _ => s
  | None => set_sections (PyLib.od_set (sections s) section []) s
  end.

(** The entry of a key in a section, if both exist. *)
Definition summary_entry (s : Summary) (section k : string)
  : option SummaryEntry :=
  match PyLib.od_get (sections s) section with
  | Some values => PyLib.od_get values k
  | None => None
  end.

(** The body of the loop [for i in listify(v)] of [add_section]: the
    formatted item, or nothing where the loop raises. *)
Definition format_item (bool_yn : bool) (i : SummaryItem) : option Formatted :=
  match i with
  | SBool b =>
      if bool_yn then Some (if b then FAnsi "green" "YES" else FAnsi "red" "NO")
      else Some (FStr (PyLib.str_bool b))
  | SStr s => Some (FStr s)
  | SInt n => Some (FStr (pretty n))
  | SProgramOrDependency f => Some f
  | SUserOption f => Some f
  | SOther => None
  end.

Fixpoint format_items (bool_yn : bool) (l : list SummaryItem)
  : option (list Formatted) :=
  match l with
  | [] => Some []
  | i :: l' =>
      match format_item bool_yn i with
      | None => None
      | Some f =>
          match format_items bool_yn l' with
          | None => None
          | Some fs => Some (f :: fs)
          end
      end
  end.

(** The loop [for k, v in values.items()] of [add_section]; a value [v] is
    given as the list [listify(v)]. *)
Fixpoint add_values (section : string) (bool_yn : bool)
    (list_sep : option string) (values : list (string * list SummaryItem))
  : M Summary unit :=
  match values with
  | [] => ret tt
  | (k, v) :: rest =>
      modify (touch_section section) ;;;
      s <- get ;;
      when (bool_decide (is_Some (summary_entry s section k))) then_raise
        InterpreterException
        msg ("Summary section " +:+ PyLib.repr section
             +:+ " already have key " +:+ PyLib.repr k) ;;;
      match format_items bool_yn v with
      | None =>
          raise InterpreterException
            ("Summary value in section " +:+ PyLib.repr section +:+ ", key "
             +:+ PyLib.repr k +:+ ", must be string, integer, boolean, "
             +:+ "dependency or external program")
      | Some formatted_values =>
          modify (fun s =>
            set_sections
              (PyLib.od_set (sections s) section
                 (PyLib.od_set (default [] (PyLib.od_get (sections s) section))
                               k (formatted_values, list_sep))) s) ;;;
          modify (fun s =>
            set_max_key_len (Nat.max (max_key_len s) (String.length k)) s) ;;;
          add_values section bool_yn list_sep rest
      end
  end.

(** [Summary.add_section(section, values, kwargs, subproject)]; the two
    keyword arguments are [kwargs.get('bool_yn')] and
    [kwargs.get('list_sep')]. *)
Definition add_section (section : string)
    (values : list (string * list SummaryItem))
    (kw_bool_yn kw_list_sep : option PyVal) : M Summary unit :=
  match default (PyBool false) kw_bool_yn with
  | PyBool bool_yn =>
      match kw_list_sep with
      | None => add_values section bool_yn None values
      | Some (PyStr list_sep) => add_values section bool_yn (Some list_sep) values
      | Some _ =>
          raise InterpreterException "list_sep keyword argument must be string"
      end
  | _ => raise InterpreterException "bool_yn keyword argument must be boolean"
  end.

(** Every key of the summary is at most [max_key_len] long. *)
Definition keys_fit (s : Summary) : Prop :=
  forall section values k e,
    (section, values) ∈ sections s -> (k, e) ∈ values ->
    String.length k <= max_key_len s.

Section SummaryDump.

(** [len(v)] of a printed value and [shutil.get_terminal_size().columns] *)
Variable len_of : Formatted -> nat.
Variable columns : nat.

(** The loop of [dump_value] and the call of [mlog.log] after it. *)
Fixpoint dump_lines (list_sep lines_sep : string) (indent : nat)
    (arr line : list Formatted) (line_len : nat) : list LogCall :=
  match arr with
  | [] => [mkLog line list_sep nl]
  | v :: arr' =>
      let v_len := len_of v + String.length list_sep in
      if negb (bool_decide (line = [])) && Nat.ltb columns (line_len + v_len)
      then mkLog line list_sep lines_sep
             :: dump_lines list_sep lines_sep indent arr' [v] (indent + v_len)
      else dump_lines list_sep lines_sep indent arr' (line ++ [v])
                      (line_len + v_len)
  end.

(** [Summary.dump_value(arr, list_sep, indent)]: the calls of [mlog.log] *)
Definition dump_value (arr : list Formatted) (list_sep : option string)
    (indent : nat) : list LogCall :=
  let lines_sep := nl +:+ PyLib.spaces indent in
  match list_sep with
  | None => [mkLog arr lines_sep nl]
  | Some list_sep =>
      dump_lines list_sep (PyStr.rstrip list_sep +:+ lines_sep) indent
                 arr [] indent
  end.

(** The body of the loop [for k, v in values.items()] of [dump]. *)
Definition dump_entry (max_key_len : nat) (kv : string * SummaryEntry)
  : list LogCall :=
  let '(k, (v, list_sep)) := kv in
  let padding := max_key_len - String.length k in
  let end_ := if bool_decide (v = []) then EmptyString else " " in
  let indent := max_key_len + 6 in
  mkLog [FStr (PyLib.spaces 3); FStr (k +:+ PyLib.spaces padding +:+ ":")]
        " " end_
  :: dump_value v list_sep indent.

(** [Summary.dump()]: the calls of [mlog.log] *)
Definition dump (s : Summary) : list LogCall :=
  mkLog [FStr (sum_project_name s); FAnsi "normal_cyan" (sum_project_version s)]
        " " nl
  :: List.flat_map
       (fun sv : string * list (string * SummaryEntry) =>
          mkLog [FStr EmptyString] " " nl
          :: (if bool_decide (fst sv = EmptyString) then []
              else [mkLog [FStr " "; FAnsi "bold" (fst sv)] " " nl])
          ++ List.flat_map (dump_entry (max_key_len s)) (snd sv))
       (sections s)
  ++ [mkLog [FStr EmptyString] " " nl].

End SummaryDump.

(** [summary_impl(section, values, kwargs)] of the interpreter [me], on the
    dictionary [self.summary]. *)
Definition summary_impl (me : Interp) (section : string)
    (values : list (string * list SummaryItem))
    (kw_bool_yn kw_list_sep : option PyVal)
  : M (list (string * Summary)) unit :=
  modify (fun d =>
    match PyLib.od_get d (subproject me) with
    | Some _ => d
    | None =>
        PyLib.od_set d (subproject me)
          (new_Summary (active_projectname me) (project_version me))
    end) ;;;
  fun d =>
    match PyLib.od_get d (subproject me) with
    | None => Raise (mkExc OtherException "KeyError") d
    | Some s =>
        match add_section section values kw_bool_yn kw_list_sep s with
        | Return a s' => Return a (PyLib.od_set d (subproject me) s')
        | Raise e s' => Raise e (PyLib.od_set d (subproject me) s')
        end
    end.

(* ===================================================================== *)
(** ** [func_range], [should_skip_sanity_check], [extract_variables] and
       the version of [func_project] *)
(* ===================================================================== *)

(** [func_range(node, args, kwargs)] with [args = (start, stop, step)], the
    last two optional; the result is the triple that [RangeHolder] gets. *)
Definition func_range (start : Z) (stop step : option Z) : Exc + (Z * Z * Z) :=
  (* Just like Python's range, we allow range(stop), range(start, stop), or
     range(start, stop, step) *)
  let '(start, stop) :=
    match stop with
    | None => (0%Z, start)
    | Some stop => (start, stop)
    end in
  let step := default 1%Z step in
  (* This is more strict than Python's range() *)
  if (start <? 0)%Z then
    inl (mkExc InterpreterException "start cannot be negative")
  else if (stop <? start)%Z then
    inl (mkExc InterpreterException "stop cannot be less than start")
  else if (step <? 1)%Z then
    inl (mkExc InterpreterException "step must be >=1")
  else inr (start, stop, step).

(** [should_skip_sanity_check(for_machine)]; [skip_sanity_check] is the
    entry of that name in the properties of the host machine, if any, and
    [is_cross_build] the answer of [self.environment.is_cross_build()]. *)
Definition should_skip_sanity_check (skip_sanity_check : option PyVal)
    (is_cross_build : bool) (for_machine : MachineChoice) : Exc + bool :=
  match default (PyBool false) skip_sanity_check with
  | PyBool should =>
      if negb (bool_decide (for_machine = HOST)) && negb should then inr false
      else if negb is_cross_build && negb should then inr false
      else inr should
  | _ =>
      inl (mkExc InterpreterException
             "Option skip_sanity_check must be a boolean.")
  end.

(** A value of the dictionary [variables]: a string, or another object,
    which is falsy or truthy. *)
Inductive VarValue :=
| VarStr (s : string)
| VarFalsy
| VarTruthy.

(** An entry of a list given as [variables]: a string, or another
    object. *)
Inductive VarItem :=
| ItemStr (s : string)
| ItemObject (tag : string).

(** The keyword argument [variables]: a dictionary, a list (a string alone
    counts as the list of it), or another object. *)
Inductive VariablesArg :=
| VarsDict (d : list (string * VarValue))
| VarsList (l : list VarItem)
| VarsObject (tag : string).

(** [mesonlib.stringlistify(item)] of a list.  mesonlib.py is not among the
    sources: the function returns the list when all its entries are strings
    and raises [MesonException] otherwise. *)
Fixpoint stringlistify (l : list VarItem) : Exc + list string :=
  match l with
  | [] => inr []
  | ItemStr s :: rest =>
      match stringlistify rest with
      | inl e => inl e
      | inr r => inr (s :: r)
      end
  | ItemObject _ :: _ =>
      inl (mkExc MesonException "List item must be one of <class 'str'>")
  end.

(** The loop [for v in varlist] of [extract_variables]. *)
Fixpoint parse_variables (varlist : list string)
    (variables : list (string * VarValue)) : Exc + list (string * VarValue) :=
  match varlist with
  | [] => inr variables
  | v :: rest =>
      match PyLib.split_once "=" v with
      | None =>
          inl (mkExc InterpreterException
                 ("Variable " +:+ PyLib.repr v
                  +:+ " must have a value separated by equals sign."))
      | Some (key, value) =>
          parse_variables rest
            (PyLib.od_set variables (PyStr.strip key)
                          (VarStr (PyStr.strip value)))
      end
  end.

(** Truth value of [not v]. *)
Definition var_is_falsy (v : VarValue) : bool :=
  match v with
  | VarStr s => bool_decide (s = EmptyString)
  | VarFalsy => true
  | VarTruthy => false
  end.

(** The loop [for k, v in variables.items()] of [extract_variables]. *)
Fixpoint check_variables (variables : list (string * VarValue)) : Exc + unit :=
  match variables with
  | [] => inr tt
  | (k, v) :: rest =>
      if bool_decide (k = EmptyString) || var_is_falsy v then
        inl (mkExc InterpreterException "Empty variable name or value")
      else if PyLib.any_space k then
        inl (mkExc InterpreterException
               ("Invalid whitespace in variable name " +:+ dquote +:+ k
                +:+ dquote))
      else if negb (match v with VarStr _ => true | _ => false end) then
        inl (mkExc InterpreterException "variables values must be strings.")
      else check_variables rest
  end.

(** [extract_variables(kwargs, argname, list_new, dict_new)]; [variables]
    is [kwargs.get(argname, {})]. *)
Definition extract_variables (variables : VariablesArg)
  : Exc + list (string * VarValue) :=
  match match variables with
        | VarsDict d => inr d
        | VarsList l =>
            match stringlistify l with
            | inl e => inl e
            | inr varlist => parse_variables varlist []
            end
        | VarsObject _ =>
            inl (mkExc MesonException
                   "Item must be a list or one of <class 'str'>")
        end with
  | inl e => inl e
  | inr variables =>
      match check_variables variables with
      | inl e => inl e
      | inr _ => inr variables
      end
  end.

(** The entry [k=v] of a list of variables. *)
Definition variable_entry (kv : string * string) : string :=
  fst kv +:+ "=" +:+ snd kv.

(** A name and a value that [extract_variables] accepts as they are. *)
Definition plain_variable (kv : string * string) : Prop :=
  fst kv <> EmptyString
  /\ PyLib.any_space (fst kv) = false
  /\ PyStr.contains_char "=" (fst kv) = false
  /\ snd kv <> EmptyString
  /\ PyStr.strip (snd kv) = snd kv.

(** The keyword argument [version] of [project()], or an item of it when it
    is a list: a string, a file (the text that [Path(ifname).read_text]
    returns, or nothing where it raises [FileNotFoundError]) or another
    object. *)
Inductive VersionItem :=
| VerStr (s : string)
| VerFile (text : option string)
| VerObject.

Inductive VersionArg :=
| VerOne (v : VersionItem)
| VerList (l : list VersionItem).

(** The version that [func_project] reads from the text of a file. *)
Definition version_from_text (text : string) : Exc + string :=
  let ver_data := PyLib.split (ascii_of_nat 10) text in
  let ver_data :=
    match ver_data with
    | [line; EmptyString] => [line]
    | _ => ver_data
    end in
  match ver_data with
  | [line] => inr line
  | _ =>
      inl (mkExc InterpreterException
             "Version file must contain exactly one line of text.")
  end.

(** The statements of [func_project] that set [self.project_version];
    [version] is [kwargs.get('version')]. *)
Definition project_version_of (version : option VersionArg) : Exc + string :=
  let version := default (VerOne (VerStr "undefined")) version in
  match match version with
        | VerList [v] => inr v
        | VerList _ =>
            inl (mkExc InvalidCode
                   "Version argument is an array with more than one entry.")
        | VerOne v => inr v
        end with
  | inl e => inl e
  | inr (VerFile None) =>
      inl (mkExc InterpreterException "Version file not found.")
  | inr (VerFile (Some text)) => version_from_text text
  | inr (VerStr s) => inr s
  | inr VerObject =>
      inl (mkExc InvalidCode
             "The version keyword argument must be a string or a file.")
  end.

(* ===================================================================== *)
(** ** [find_program] and the overrides of programs *)
(* ===================================================================== *)

(** A name given to [find_program]: a string, a [mesonlib.File], or another
    object, of which the messages show [repr]. *)
Inductive ProgArg :=
| PString (s : string)
| PFile (is_built : bool) (subdir fname : string)
| PObject (repr : string).

(** What the methods of this part call in other modules.  [Program] is what
    an [ExternalProgramHolder] holds: an [ExternalProgram], or the
    [build.Executable] of an override. *)
Class ProgramFinder := {
  Program : Type;
  (** [ExternalProgramHolder.found] and [get_name] *)
  prog_found : Program -> bool;
  prog_get_name : Program -> string;
  (** [progobj.get_version(self)] *)
  prog_get_version : Program -> Exc + string;
  (** [NonExistingExternalProgram(name)], which is not found *)
  NonExistingExternalProgram : string -> Program;
  non_existing_not_found :
    forall name, prog_found (NonExistingExternalProgram name) = false;
  (** [ExternalProgram.from_bin_list(self.environment, for_machine, p)] *)
  from_bin_list : MachineChoice -> string -> Program;
  (** [ExternalProgram(exename, search_dir=search_dir,
      extra_search_dirs=extra_search_dirs, silent=True)] *)
  search_program : string -> string -> list string -> Program;
  (** [ExternalProgram('python3', mesonlib.python_command, silent=True)] *)
  python3_program : Program;
  (** [mesonlib.version_compare_many(version, wanted)]: the triple
      [(is_found, not_found, found)] *)
  version_compare_many3 :
    string -> list string -> bool * list string * list string;
  (** [self.environment.wrap_resolver.find_program_provider(args)]; nothing
      also where there is no resolver *)
  find_program_provider : list ProgArg -> option string;
  (** [extract_search_dirs(kwargs)] of interpreterobjects.py *)
  extract_search_dirs : Kwargs -> Exc + list string;
  (** [self.environment.get_build_dir()] *)
  build_dir : string
}.

(** The interpreter with the two tables of [Build] that [find_program]
    uses. *)
Record PState `{ProgramFinder} := mkPState {
  ps_interp : State;
  find_overrides : gmap string Program;
  searched_programs : gset string
}.

Definition set_find_overrides `{ProgramFinder} (v : gmap string Program)
    (st : PState) : PState :=
  mkPState _ (ps_interp st) v (searched_programs st).

Definition set_searched_programs `{ProgramFinder} (v : gset string)
    (st : PState) : PState :=
  mkPState _ (ps_interp st) (find_overrides st) v.

(** The strings of a list of names, when all are strings. *)
Fixpoint arg_strings (args : list ProgArg) : option (list string) :=
  match args with
  | [] => Some []
  | PString s :: rest =>
      match arg_strings rest with
      | Some l => Some (s :: l)
      | None => None
      end
  | _ :: _ => None
  end.

(** [' '.join(args)]; an item that is not a string raises [TypeError]. *)
Definition join_args (args : list ProgArg) : Exc + string :=
  match arg_strings args with
  | Some l => inr (PyStr.join " " l)
  | None =>
      inl (mkExc OtherException
             "TypeError: sequence item: expected str instance")
  end.

(** [s.endswith(suffix)] *)
Fixpoint endswith (s suffix : string) : bool :=
  bool_decide (s = suffix)
  || match s with
     | EmptyString => false
     | String _ s' => endswith s' suffix
     end.

(** The strings among the names. *)
Fixpoint string_names (command_names : list ProgArg) : list string :=
  match command_names with
  | [] => []
  | PString name :: rest => name :: string_names rest
  | _ :: rest => string_names rest
  end.

(** Lift a result into a method on any state. *)
Definition lift_exc {S A} (r : Exc + A) : M S A :=
  fun st => match r with inl e => Raise e st | inr a => Return a st end.

Section Programs.
Context `{Collaborators} `{ProgramFinder}.

(** [self.do_subproject(fallback, 'meson', sp_kwargs)] on the interpreter
    and on the tables of programs, which the nested interpreter writes
    through the copy of [Build] that is merged back. *)
Variable do_subproject_and_merge :
  string -> string -> Kwargs -> M PState SubprojectHolder.

(** [program_from_file_for(for_machine, prognames)] *)
Fixpoint program_from_file_for (for_machine : MachineChoice)
    (prognames : list ProgArg) : Exc + option Program :=
  match prognames with
  | [] => inr None
  | PFile _ _ _ :: rest =>
      (* Always points to a local (i.e. self generated) file. *)
      program_from_file_for for_machine rest
  | PString p :: rest =>
      let prog := from_bin_list for_machine p in
      if prog_found prog then inr (Some prog)
      else program_from_file_for for_machine rest
  | PObject _ :: _ =>
      inl (mkExc InterpreterException "Executable name must be a string")
  end.

(** [program_from_system(args, search_dirs, extra_info)] of the
    interpreter [me] *)
Fixpoint program_from_system (me : Interp) (args : list ProgArg)
    (search_dirs : list string) : Exc + option Program :=
  match args with
  | [] => inr None
  | exename :: rest =>
      match
        match exename with
        | PFile is_built subdir fname =>
            inr (fname,
                 os_path_join (if is_built then build_dir else source_dir me)
                              subdir,
                 [])
        | PString s =>
            inr (s, os_path_join (source_dir me) (subdir me), search_dirs)
        | PObject r =>
            inl (mkExc InvalidArguments
                   ("find_program only accepts strings and files, not "
                    +:+ r))
        end
      with
      | inl e => inl e
      | inr (exename, search_dir, extra_search_dirs) =>
          let extprog := search_program exename search_dir extra_search_dirs in
          if prog_found extprog then inr (Some extprog)
          else program_from_system me rest search_dirs
      end
  end.

(** [program_from_overrides(command_names, extra_info)] *)
Fixpoint program_from_overrides (overrides : gmap string Program)
    (command_names : list ProgArg) : option Program :=
  match command_names with
  | [] => None
  | PString name :: rest =>
      match overrides !! name with
      | Some exe => Some exe
      | None => program_from_overrides overrides rest
      end
  | _ :: rest => program_from_overrides overrides rest
  end.

(** [store_name_lookups(command_names)] *)
Definition store_name_lookups (command_names : list ProgArg)
  : M PState unit :=
  modify (fun st =>
    set_searched_programs
      (list_to_set (string_names command_names) ∪ searched_programs st) st).

(** [add_find_program_override(name, exe)] *)
Definition add_find_program_override (name : string) (exe : Program)
  : M PState unit :=
  st <- get ;;
  when (bool_decide (name ∈ searched_programs st)) then_raise
    InterpreterException
    msg ("Tried to override finding of executable " +:+ dquote +:+ name
         +:+ dquote +:+ " which has already been found.") ;;;
  when (bool_decide (is_Some (find_overrides st !! name))) then_raise
    InterpreterException
    msg ("Tried to override executable " +:+ dquote +:+ name +:+ dquote
         +:+ " which has already been overridden.") ;;;
  modify (fun st => set_find_overrides (<[name := exe]> (find_overrides st)) st).

(** [notfound_program(args)] *)
Definition notfound_program (args : list ProgArg) : Exc + Program :=
  match join_args args with
  | inl e => inl e
  | inr name => inr (NonExistingExternalProgram name)
  end.

(** [find_program_fallback(fallback, args, required, extra_info)] *)
Definition find_program_fallback (fallback : string) (args : list ProgArg)
    (required : bool) : M PState (option Program) :=
  (* the log names the programs: ' '.join(args) *)
  lift_exc (join_args args) ;;;
  let sp_kwargs :=
    mkKwargs (Some (PyBool required)) None None None None None None in
  do_subproject_and_merge fallback "meson" sp_kwargs ;;;
  st <- get ;;
  ret (program_from_overrides (find_overrides st) args).

(** [args[0].endswith('python3')] *)
Definition first_endswith_python3 (args : list ProgArg) : Exc + bool :=
  match args with
  | [] => inl (mkExc IndexError "list index out of range")
  | PString s :: _ => inr (endswith s "python3")
  | PFile _ _ fname :: _ => inr (endswith fname "python3")
  | PObject _ :: _ =>
      inl (mkExc AttributeError "object has no attribute 'endswith'")
  end.

(** The value of [fallback] in [program_lookup], when it is truthy. *)
Definition provider_of (args : list ProgArg) : option string :=
  if negb (bool_decide (wrap_mode = wm_nofallback)) then
    match find_program_provider args with
    | Some fb => if bool_decide (fb = EmptyString) then None else Some fb
    | None => None
    end
  else None.

(** The searches of [program_lookup] outside the project: the binaries of
    the machine files, the system, and the interpreter of Python. *)
Definition program_from_outside (me : Interp) (args : list ProgArg)
    (for_machine : MachineChoice) (search_dirs : list string)
  : Exc + option Program :=
  match program_from_file_for for_machine args with
  | inl e => inl e
  | inr (Some p) => inr (Some p)
  | inr None =>
      match program_from_system me args search_dirs with
      | inl e => inl e
      | inr (Some p) => inr (Some p)
      | inr None =>
          match first_endswith_python3 args with
          | inl e => inl e
          | inr true =>
              inr (if prog_found python3_program then Some python3_program
                   else None)
          | inr false => inr None
          end
      end
  end.

(** [program_lookup(args, for_machine, required, search_dirs,
    extra_info)]; the list [extra_info] only feeds the log. *)
Definition program_lookup (args : list ProgArg) (for_machine : MachineChoice)
    (required : bool) (search_dirs : list string)
  : M PState (option Program) :=
  st <- get ;;
  match program_from_overrides (find_overrides st) args with
  | Some progobj => ret (Some progobj)
  | None =>
      let fallback := provider_of args in
      match fallback with
      | Some fb =>
          if bool_decide (wrap_mode = wm_forcefallback)
          then find_program_fallback fb args required
          else
            progobj <- lift_exc (program_from_outside (self (ps_interp st))
                                   args for_machine search_dirs) ;;
            match progobj with
            | None =>
                if required then find_program_fallback fb args required
                else ret None
            | Some p => ret (Some p)
            end
      | None =>
          lift_exc (program_from_outside (self (ps_interp st)) args
                      for_machine search_dirs)
      end
  end.

(** [find_program_impl(args, for_machine, required, silent, wanted,
    search_dirs, version_func)]; [wanted] is a list of constraints. *)
Definition find_program_impl (args : list ProgArg)
    (for_machine : MachineChoice) (required : bool) (wanted : list string)
    (search_dirs : list string)
    (version_func : option (Program -> Exc + string)) : M PState Program :=
  progobj <- program_lookup args for_machine required search_dirs ;;
  progobj <- match progobj with
             | Some p => ret p
             | None => lift_exc (notfound_program args)
             end ;;
  if negb (prog_found progobj) then
    if required then
      raise InterpreterException
        ("Program " +:+ PyLib.repr (prog_get_name progobj) +:+ " not found")
    else ret progobj
  else
    early <- match wanted with
             | [] => ret None
             | _ :: _ =>
                 version <- lift_exc
                              (match version_func with
                               | Some f => f progobj
                               | None => prog_get_version progobj
                               end) ;;
                 let '(is_found, not_found, _) :=
                   version_compare_many3 version wanted in
                 if negb is_found then
                   if required then
                     raise InterpreterException
                       ("Invalid version of program, need "
                        +:+ PyLib.repr (prog_get_name progobj) +:+ " "
                        +:+ repr_list not_found +:+ " found "
                        +:+ PyLib.repr version +:+ ".")
                   else
                     p <- lift_exc (notfound_program args) ;;
                     ret (Some p)
                 else ret None
             end ;;
    match early with
    | Some p => ret p
    | None =>
        (* Only store successful lookups *)
        store_name_lookups args ;;;
        ret progobj
    end.

(** [func_find_program(node, args, kwargs)], without the decorator that
    turns a program that is not found into a disabler. *)
Definition func_find_program (args : list ProgArg) (kwargs : Kwargs)
  : M PState Program :=
  match args with
  | [] => raise InterpreterException "No program name specified."
  | _ :: _ =>
      st <- get ;;
      x <- lift_exc (extract_required_kwarg kwargs
                       (subproject (self (ps_interp st)))) ;;
      let '(disabled, required, feature, kwargs) := x in
      if disabled : bool then
        lift_exc (join_args args) ;;;
        lift_exc (notfound_program args)
      else
        search_dirs <- lift_exc (extract_search_dirs kwargs) ;;
        let wanted := wanted_versions (kw_version kwargs) in
        for_machine <- lift_exc (machine_from_native_kwarg kwargs) ;;
        find_program_impl args for_machine required wanted search_dirs None
  end.

End Programs.

(* ===================================================================== *)
(** ** [import]: [import_module] and [func_import] *)
(* ===================================================================== *)

(** The Python side of a module of the build system. *)
Class ModuleLoader := {
  ModuleObject : Type;
  (** [importlib.import_module('mesonbuild.modules.' + modname)] does not
      raise [ImportError] *)
  python_module_exists : string -> bool;
  (** [module.initialize(self)] of that module *)
  initialize : string -> Exc + ModuleObject
}.

(** [self.modules], which all interpreters of a run share, and the names
    that were passed to [initialize], in order. *)
Record ModState `{ModuleLoader} := mkModState {
  modules : gmap string ModuleObject;
  initialized : list string
}.

Section ImportModule.
Context `{ModuleLoader}.

(** [import_module(modname)] *)
Definition import_module (modname : string) : M ModState unit :=
  st <- get ;;
  if bool_decide (is_Some (modules st !! modname)) then ret tt
  else if negb (python_module_exists modname) then
    raise InvalidArguments
      ("Module " +:+ dquote +:+ modname +:+ dquote +:+ " does not exist")
  else
    modify (fun st => mkModState _ (modules st) (initialized st ++ [modname])) ;;;
    ext_module <- lift_exc (initialize modname) ;;
    modify (fun st =>
      mkModState _ (<[modname := ext_module]> (modules st)) (initialized st)).

(** [func_import(node, args, kwargs)] *)
Definition func_import (args : list string) : M ModState ModuleObject :=
  match args with
  | [modname] =>
      modname <-
        (if PyStr.startswith modname "unstable-" then
           match PyLib.split_once "-" modname with
           | None => raise IndexError "list index out of range"
           | Some (_, plainname) =>
               try_catch
                 (* check if stable module exists *)
                 (import_module plainname ;;; ret plainname)
                 (fun e =>
                    if is_InvalidArguments e then ret ("unstable_" +:+ plainname)
                    else reraise e)
           end
         else ret modname) ;;
      import_module modname ;;;
      st <- get ;;
      match modules st !! modname with
      | Some m => ret m
      | None => raise OtherException "KeyError"
      end
  | _ => raise InvalidCode "Import takes one argument."
  end.

End ImportModule.

(* ===================================================================== *)
(** ** [get_variable] and [is_variable] *)
(* ===================================================================== *)

(** An argument of [get_variable]: a disabler, a string, or another
    object. *)
Inductive VarArg :=
| VADisabler
| VAString (s : string)
| VAObject (tag : string).

(** [func_get_variable(node, args, kwargs)] of the interpreter [me]: the
    value of a variable, or the argument that is returned instead. *)
Definition func_get_variable (me : Interp) (args : list VarArg)
  : Exc + (Value + VarArg) :=
  match args with
  | [] | _ :: _ :: _ :: _ =>
      inl (mkExc InvalidCode "Get_variable takes one or two arguments.")
  | varname :: rest =>
      match varname with
      | VADisabler => inr (inr varname)
      | VAObject _ =>
          inl (mkExc InterpreterException "First argument must be a string.")
      | VAString name =>
          match variables me !! name with
          | Some v => inr (inl v)
          | None =>
              match rest with
              | [fallback] => inr (inr fallback)
              | _ =>
                  inl (mkExc InterpreterException
                         ("Tried to get unknown variable " +:+ dquote
                          +:+ name +:+ dquote +:+ "."))
              end
          end
      end
  end.

(** [func_is_variable(node, args, kwargs)] *)
Definition func_is_variable (me : Interp) (args : list string) : Exc + bool :=
  match args with
  | [varname] => inr (bool_decide (is_Some (variables me !! varname)))
  | _ => inl (mkExc InvalidCode "Is_variable takes two arguments.")
  end.

(** A run of [get_variable] that yields the value of a variable. *)
Definition yields_variable (r : Exc + (Value + VarArg)) : Prop :=
  exists v, r = inr (inl v).

(* ===================================================================== *)
(** ** [subdir] *)
(* ===================================================================== *)

(** A positional argument, as [validate_arguments] tests it. *)
Inductive PosArg :=
| PosStr (s : string)
| PosObject (tag : string).

(** [validate_arguments(args, argcount, arg_types)]; a type is given by its
    test [isinstance(actual, wanted)]. *)
Definition validate_arguments (args : list PosArg) (argcount : option nat)
    (arg_types : list (option (PosArg -> bool))) : Exc + unit :=
  if match argcount with
     | Some n => negb (Nat.eqb n (length args))
     | None => false
     end
  then
    inl (mkExc InvalidArguments
           ("Expected " +:+ pretty (default 0 argcount) +:+ " arguments, got "
            +:+ pretty (length args) +:+ "."))
  else if forallb
            (fun aw : PosArg * option (PosArg -> bool) =>
               match snd aw with
               | Some wanted => wanted (fst aw)
               | None => true
               end)
            (zip args arg_types)
  then inr tt
  else inl (mkExc InvalidArguments "Incorrect argument type.").

(** [isinstance(a, str)] *)
Definition is_str (a : PosArg) : bool :=
  match a with PosStr _ => true | PosObject _ => false end.

(** An object of the keyword argument [if_found]: whether it has a method
    [found_method], and what the method answers. *)
Inductive IfFound :=
| WithFound (found : bool)
| WithoutFound.

(** The attributes of the interpreter that [func_subdir] writes, and the
    build files it has handed to the evaluation, in order. *)
Record DirState := mkDirState {
  cur_subdir : string;
  processed_buildfiles : gset string;
  def_files : list string;
  evaluated : list string
}.

Definition set_cur_subdir (v : string) (st : DirState) : DirState :=
  mkDirState v (processed_buildfiles st) (def_files st) (evaluated st).

Section Subdir.

(** [self.environment.get_source_dir()] and [self.subproject_dir] *)
Variable source_root : string.
Variable the_subproject_dir : string.
(** [os.path.realpath] and [os.path.isfile] *)
Variable realpath : string -> string.
Variable isfile : string -> bool.
(** Reading and parsing the build file and [evaluate_codeblock]: the
    result tells whether the evaluation ended with [SubdirDoneRequest]. *)
Variable evaluate_build_file : string -> M DirState bool.

(** The loop over [if_found]: whether the directory is entered. *)
Fixpoint check_if_found (l : list IfFound) : Exc + bool :=
  match l with
  | [] => inr true
  | WithoutFound :: _ =>
      inl (mkExc InterpreterException
             "Object used in if_found does not have a found method.")
  | WithFound false :: _ => inr false
  | WithFound true :: rest => check_if_found rest
  end.

(** [func_subdir(node, args, kwargs)]; [if_found] is
    [extract_as_list(kwargs, 'if_found')]. *)
Definition func_subdir (args : list PosArg) (if_found : list IfFound)
  : M DirState unit :=
  lift_exc (validate_arguments args (Some 1) [Some is_str]) ;;;
  match args with
  | PosStr dir :: _ =>
      when (PyStr.contains ".." dir) then_raise
        InvalidArguments msg "Subdir contains .." ;;;
      st <- get ;;
      when (bool_decide (cur_subdir st = EmptyString)
            && bool_decide (dir = the_subproject_dir)) then_raise
        InvalidArguments
        msg ("Must not go into subprojects dir with subdir(), "
             +:+ "use subproject() instead.") ;;;
      when (bool_decide (cur_subdir st = EmptyString)
            && PyStr.startswith dir "meson-") then_raise
        InvalidArguments
        msg ("The " +:+ dquote +:+ "meson-" +:+ dquote
             +:+ " prefix is reserved and cannot be used for top-level subdir().") ;;;
      enter <- lift_exc (check_if_found if_found) ;;
      if negb enter then ret tt
      else
        let prev_subdir := cur_subdir st in
        let subdir := os_path_join prev_subdir dir in
        when (os_path_isabs subdir) then_raise
          InvalidArguments msg "Subdir argument must be a relative path." ;;;
        let absdir := os_path_join source_root subdir in
        let symlinkless_dir := realpath absdir in
        let build_file := os_path_join symlinkless_dir "meson.build" in
        when (bool_decide (build_file ∈ processed_buildfiles st)) then_raise
          InvalidArguments
          msg ("Tried to enter directory " +:+ dquote +:+ subdir +:+ dquote
               +:+ ", which has already been visited.") ;;;
        let buildfilename := os_path_join subdir "meson.build" in
        modify (fun st =>
          mkDirState subdir ({[build_file]} ∪ processed_buildfiles st)
                     (def_files st ++ [buildfilename]) (evaluated st)) ;;;
        let absname := os_path_join source_root buildfilename in
        if negb (isfile absname) then
          modify (set_cur_subdir prev_subdir) ;;;
          raise InterpreterException
            ("Non-existent build file '" +:+ buildfilename +:+ "'")
        else
          modify (fun st =>
            mkDirState (cur_subdir st) (processed_buildfiles st)
                       (def_files st) (evaluated st ++ [build_file])) ;;;
          evaluate_build_file absname ;;;
          modify (set_cur_subdir prev_subdir)
  | _ => raise OtherException "TypeError"
  end.

(** The build file of the directory [dir], entered from the state [st]. *)
Definition build_file_of (st : DirState) (dir : string) : string :=
  os_path_join (realpath (os_path_join source_root
                            (os_path_join (cur_subdir st) dir)))
               "meson.build".

(** The call gets as far as looking the directory up in the set of the
    build files processed. *)
Definition reaches_directory (st : DirState) (dir : string)
    (if_found : list IfFound) : Prop :=
  PyStr.contains ".." dir = false
  /\ (cur_subdir st = EmptyString ->
      dir <> the_subproject_dir /\ PyStr.startswith dir "meson-" = false)
  /\ check_if_found if_found = inr true
  /\ os_path_isabs (os_path_join (cur_subdir st) dir) = false.

End Subdir.

(** The record of the evaluations is sound: no build file was handed to the
    evaluation twice, and each one that was is marked as processed. *)
Definition evaluated_once (st : DirState) : Prop :=
  NoDup (evaluated st)
  /\ forall f, f ∈ evaluated st -> f ∈ processed_buildfiles st.

(** A method keeps the record sound. *)
Definition keeps_evaluated_once {A} (m : M DirState A) : Prop :=
  forall st, evaluated_once st -> evaluated_once (outcome_state (m st)).

(** A directory tree for the sample runs: the build file of a directory,
    found under its real path, lists the directories it enters with
    [subdir()]. *)
Fixpoint evaluate_tree (source_root the_subproject_dir : string)
    (realpath : string -> string)
    (tree : string -> option (list string)) (fuel : nat) (absname : string)
  : M DirState bool :=
  match fuel with
  | 0 => raise OtherException "out of fuel"
  | S n =>
      (fix run (dirs : list string) : M DirState bool :=
         match dirs with
         | [] => ret false
         | d :: rest =>
             func_subdir source_root the_subproject_dir realpath
               (fun f => bool_decide (is_Some (tree (realpath f))))
               (evaluate_tree source_root the_subproject_dir realpath tree n)
               [PosStr d] [] ;;;
             run rest
         end) (default [] (tree (realpath absname)))
  end.

(* ===================================================================== *)
(** ** Tests, benchmarks and test setups *)
(* ===================================================================== *)

(** Run a method of a part of the state on the whole state. *)
Definition zoom {S T A} (part : T -> S) (put : S -> T -> T) (m : M S A)
  : M T A :=
  fun t => match m (part t) with
           | Return a s => Return a (put s t)
           | Raise e s => Raise e (put s t)
           end.

(** A method keeps the relation [R] between the state it starts from and the
    state it leaves, whether it returns or raises. *)
Definition keeps {S A} (R : S -> S -> Prop) (m : M S A) : Prop :=
  forall st, R st (outcome_state (m st)).

(** A keyword argument whose type [make_test] or [func_add_test_setup]
    checks.  A boolean is an [int] of Python; a list or a dictionary cannot
    be looked up in a set. *)
Inductive KwVal :=
| KBool (b : bool)
| KInt (n : Z)
| KStr (s : string)
| KObject (tag : string)
| KUnhashable (tag : string).

(** [isinstance(v, int)], with the number *)
Definition as_int (v : KwVal) : option Z :=
  match v with
  | KBool b => Some (if b then 1 else 0)%Z
  | KInt n => Some n
  | _ => None
  end.

(** An item of the keyword argument [args] of a test. *)
Inductive CmdArg :=
| CmdStr (s : string)
| CmdFile (subdir fname : string)
| CmdTarget (t : Target)
| CmdObject (tag : string).

(** The initial values given to [EnvironmentVariablesHolder]: a dictionary,
    or a string or list of strings. *)
Inductive EnvInit :=
| EnvDict (d : list (string * string))
| EnvList (l : list string).

(** What these methods call in interpreterobjects.py. *)
Class TestCollaborators := {
  EnvironmentVariables : Type;
  (** [EnvironmentVariablesHolder(initial_values).held_object]; without
      initial values it is the call without argument. *)
  new_environment : option EnvInit -> Exc + EnvironmentVariables
}.

(** [re.fullmatch('[_a-zA-Z][_0-9a-zA-Z]*', s) is not None] *)
Definition is_ident_start (c : ascii) : bool :=
  let n := nat_of_ascii c in
  Ascii.eqb c "_"%char
  || (Nat.leb 97 n && Nat.leb n 122) || (Nat.leb 65 n && Nat.leb n 90).

Definition is_ident_char (c : ascii) : bool :=
  let n := nat_of_ascii c in
  is_ident_start c || (Nat.leb 48 n && Nat.leb n 57).

Fixpoint all_ident_chars (s : string) : bool :=
  match s with
  | EmptyString => true
  | String c s' => is_ident_char c && all_ident_chars s'
  end.

Definition is_identifier (s : string) : bool :=
  match s with
  | EmptyString => false
  | String c s' => is_ident_start c && all_ident_chars s'
  end.

(** [re.fullmatch('([_a-zA-Z][_0-9a-zA-Z]*:)?[_a-zA-Z][_0-9a-zA-Z]*', s)
    is not None]: no identifier holds a colon, so that a colon of [s] ends
    the optional group. *)
Definition setup_name_matches (s : string) : bool :=
  is_identifier s
  || match PyLib.split_once ":" s with
     | Some (a, b) => is_identifier a && is_identifier b
     | None => false
     end.

Section Tests.
Context `{Collaborators} `{ProgramFinder} `{TestCollaborators}.

Variable do_subproject_and_merge :
  string -> string -> Kwargs -> M PState SubprojectHolder.

(** What a holder of an executable holds: the second argument of a test
    that is an [ExecutableHolder], a [JarHolder] or an
    [ExternalProgramHolder]. *)
Inductive HeldExe :=
| HeldTarget (t : Target)
| HeldProgram (p : Program).

(** A positional argument of [test] and [benchmark]. *)
Inductive TestArg :=
| TAStr (s : string)
| TAExe (e : HeldExe)
| TAFile (is_built : bool) (subdir fname : string)
| TAObject (tag : string).

(** The keyword arguments of [test] and [benchmark].  [tk_args] and
    [tk_depends] hold the value after [extract_as_list] and [unholder];
    [tk_suite] the one after [stringlistify]. *)
Record TestKwargs := mkTestKwargs {
  tk_is_parallel : option KwVal;
  tk_args : list CmdArg;
  tk_env : option (EnvironmentVariables + EnvInit);
  tk_should_fail : option KwVal;
  tk_timeout : option KwVal;
  tk_workdir : option KwVal;
  tk_protocol : option KwVal;
  tk_suite : option (list string);
  tk_depends : list Value;
  tk_priority : option KwVal
}.

Definition set_tk_is_parallel (v : option KwVal) (k : TestKwargs)
  : TestKwargs :=
  mkTestKwargs v (tk_args k) (tk_env k) (tk_should_fail k) (tk_timeout k)
               (tk_workdir k) (tk_protocol k) (tk_suite k) (tk_depends k)
               (tk_priority k).

(** [build.Test] *)
Record Test := mkTest {
  test_name : string;
  test_project : string;
  test_suite : list string;
  test_exe : HeldExe;
  test_depends : list Value;
  test_is_parallel : bool;
  test_cmd_args : list CmdArg;
  test_env : EnvironmentVariables;
  test_should_fail : bool;
  test_timeout : Z;
  test_workdir : option string;
  test_protocol : string;
  test_priority : Z
}.

(** [build.TestSetup] *)
Record TestSetup := mkTestSetup {
  exe_wrapper : list string;
  gdb : bool;
  timeout_multiplier : Z;
  setup_env : EnvironmentVariables;
  exclude_suites : list string
}.

(** The interpreter with the attributes of [Build] that the tests use. *)
Record TState := mkTState {
  ts_programs : PState;
  project_name : string;
  tests : list Test;
  benchmarks : list Test;
  test_setup_default_name : option string;
  test_setups : gmap string TestSetup
}.

Definition set_ts_programs (p : PState) (st : TState) : TState :=
  mkTState p (project_name st) (tests st) (benchmarks st)
           (test_setup_default_name st) (test_setups st).

Definition set_tests (v : list Test) (st : TState) : TState :=
  mkTState (ts_programs st) (project_name st) v (benchmarks st)
           (test_setup_default_name st) (test_setups st).

Definition set_benchmarks (v : list Test) (st : TState) : TState :=
  mkTState (ts_programs st) (project_name st) (tests st) v
           (test_setup_default_name st) (test_setups st).

Definition set_test_setup_default_name (v : option string) (st : TState)
  : TState :=
  mkTState (ts_programs st) (project_name st) (tests st) (benchmarks st)
           v (test_setups st).

Definition set_test_setups (v : gmap string TestSetup) (st : TState)
  : TState :=
  mkTState (ts_programs st) (project_name st) (tests st) (benchmarks st)
           (test_setup_default_name st) v.

(** The tables of the tests and the name of the project are the same in both
    states. *)
Definition tables_kept (st st' : TState) : Prop :=
  project_name st' = project_name st
  /\ tests st' = tests st
  /\ benchmarks st' = benchmarks st
  /\ test_setup_default_name st' = test_setup_default_name st
  /\ test_setups st' = test_setups st.

(** A default test setup that is set stays the default one. *)
Definition default_kept (st st' : TState) : Prop :=
  forall d, test_setup_default_name st = Some d ->
            test_setup_default_name st' = Some d.

(** The interpreter object of a state. *)
Definition interp_of (st : TState) : Interp := self (ps_interp (ts_programs st)).

(** [unpack_env_kwarg(kwargs)]: the default of [kwargs.get] is built before
    the key is looked up. *)
Definition unpack_env_kwarg (env : option (EnvironmentVariables + EnvInit))
  : Exc + EnvironmentVariables :=
  match new_environment None with
  | inl e => inl e
  | inr fresh =>
      match env with
      | None => inr fresh
      | Some (inl held) => inr held
      | Some (inr init) => new_environment (Some init)
      end
  end.

(** [kwargs.get(key, default)] that must be a [bool] *)
Definition bool_kwarg {S} (v : option KwVal) (dflt : bool) (text : string)
  : M S bool :=
  match v with
  | None => ret dflt
  | Some (KBool b) => ret b
  | Some _ => raise InterpreterException text
  end.

(** [kwargs.get(key, default)] that must be an [int] *)
Definition int_kwarg {S} (v : option KwVal) (dflt : Z) (text : string)
  : M S Z :=
  match v with
  | None => ret dflt
  | Some v =>
      match as_int v with
      | Some n => ret n
      | None => raise InterpreterException text
      end
  end.

(** [isinstance(i, (str, mesonlib.File, build.Target))] *)
Definition is_cmd_arg (i : CmdArg) : bool :=
  match i with
  | CmdObject _ => false
  | _ => true
  end.

(** The names of the protocols of a test. *)
Definition protocols : list string := ["exitcode"; "tap"; "gtest"; "rust"].

(** The name of a suite of the project [prj] *)
Definition suite_name (prj s : string) : string :=
  PyLib.replace ":" "_" (PyLib.replace " " "_" prj)
  +:+ (if Nat.ltb 0 (String.length s) then ":" +:+ s else s).

(** [make_test(node, args, kwargs)] *)
Definition make_test (args : list TestArg) (kwargs : TestKwargs)
  : M TState Test :=
  match args with
  | [name; exe] =>
      match name with
      | TAStr name =>
          let name := if PyStr.contains_char ":" name
                      then PyLib.replace ":" "_" name else name in
          exe <- match exe with
                 | TAExe e => ret e
                 | TAFile is_built subdir fname =>
                     p <- zoom ts_programs set_ts_programs
                            (func_find_program do_subproject_and_merge
                               [PFile is_built subdir fname] no_kwargs) ;;
                     ret (HeldProgram p)
                 | _ =>
                     raise InterpreterException
                       "Second argument must be executable."
                 end ;;
          par <- bool_kwarg (tk_is_parallel kwargs) true
                   "Keyword argument is_parallel must be a boolean." ;;
          let cmd_args := tk_args kwargs in
          when (negb (forallb is_cmd_arg cmd_args)) then_raise
            InterpreterException
            msg "Command line arguments must be strings, files or targets." ;;;
          env <- lift_exc (unpack_env_kwarg (tk_env kwargs)) ;;
          should_fail <- bool_kwarg (tk_should_fail kwargs) false
                           "Keyword argument should_fail must be a boolean." ;;
          timeout <- int_kwarg (tk_timeout kwargs) 30
                       "Timeout must be an integer." ;;
          workdir <- match tk_workdir kwargs with
                     | Some (KStr workdir) =>
                         if negb (os_path_isabs workdir) then
                           raise InterpreterException
                             "Workdir keyword argument must be an absolute path."
                         else ret (Some workdir)
                     | Some _ =>
                         raise InterpreterException
                           "Workdir keyword argument must be a string."
                     | None => ret None
                     end ;;
          protocol <- match tk_protocol kwargs with
                      | None => ret "exitcode"
                      | Some (KStr p) =>
                          if bool_decide (p ∈ protocols) then ret p
                          else
                            raise InterpreterException
                              ("Protocol must be one of " +:+ dquote
                               +:+ "exitcode" +:+ dquote +:+ ", " +:+ dquote
                               +:+ "tap" +:+ dquote +:+ ", " +:+ dquote
                               +:+ "gtest" +:+ dquote +:+ ", or " +:+ dquote
                               +:+ "rust" +:+ dquote +:+ ".")
                      | Some (KUnhashable _) =>
                          raise OtherException "TypeError: unhashable type"
                      | Some _ =>
                          raise InterpreterException
                            ("Protocol must be one of " +:+ dquote
                             +:+ "exitcode" +:+ dquote +:+ ", " +:+ dquote
                             +:+ "tap" +:+ dquote +:+ ", " +:+ dquote
                             +:+ "gtest" +:+ dquote +:+ ", or " +:+ dquote
                             +:+ "rust" +:+ dquote +:+ ".")
                      end ;;
          st <- get ;;
          let prj := if is_subproject (interp_of st)
                     then subproject (interp_of st) else project_name st in
          let suite := suite_name prj <$> default [EmptyString] (tk_suite kwargs) in
          let depends := tk_depends kwargs in
          when (negb (forallb is_build_or_custom_target depends)) then_raise
            InterpreterException msg "Depends items must be build targets." ;;;
          priority <- int_kwarg (tk_priority kwargs) 0
                        "Keyword argument priority must be an integer." ;;
          ret (mkTest name prj suite exe depends par cmd_args env should_fail
                      timeout workdir protocol priority)
      | _ => raise InterpreterException "First argument of test must be a string."
      end
  | _ =>
      raise InterpreterException
        ("test expects 2 arguments, " +:+ pretty (length args) +:+ " given")
  end.

(** [add_test(node, args, kwargs, is_base_test)] *)
Definition add_test (args : list TestArg) (kwargs : TestKwargs)
    (is_base_test : bool) : M TState unit :=
  t <- make_test args kwargs ;;
  if is_base_test then modify (fun st => set_tests (tests st ++ [t]) st)
  else modify (fun st => set_benchmarks (benchmarks st ++ [t]) st).

(** [func_benchmark(node, args, kwargs)] *)
Definition func_benchmark (args : list TestArg) (kwargs : TestKwargs)
  : M TState unit :=
  (* is_parallel isn't valid here, so make sure it isn't passed *)
  let kwargs := set_tk_is_parallel None kwargs in
  add_test args kwargs false.

(** [func_test(node, args, kwargs)]; the protocol gtest is only logged as a
    new feature. *)
Definition func_test (args : list TestArg) (kwargs : TestKwargs)
  : M TState unit :=
  add_test args kwargs true.

(** An item of the keyword argument [exe_wrapper]. *)
Inductive WrapperArg :=
| WStr (s : string)
| WProgram (p : Program)
| WObject (tag : string).

(** The keyword arguments of [add_test_setup]; [sk_exe_wrapper] holds the
    value after [extract_as_list] and [unholder], [sk_exclude_suites] the one
    after [stringlistify]. *)
Record SetupKwargs := mkSetupKwargs {
  sk_exe_wrapper : list WrapperArg;
  sk_gdb : option KwVal;
  sk_timeout_multiplier : option KwVal;
  sk_env : option (EnvironmentVariables + EnvInit);
  sk_is_default : option KwVal;
  sk_exclude_suites : list string
}.

(** The loop of [func_add_test_setup] over the wrapper. *)
Fixpoint wrapper_command (get_command : Program -> list string)
    (inp : list WrapperArg) : Exc + list string :=
  match inp with
  | [] => inr []
  | i :: rest =>
      match
        match i with
        | WStr s => inr [s]
        | WProgram p =>
            if negb (prog_found p) then
              inl (mkExc InterpreterException
                     "Tried to use non-found executable.")
            else inr (get_command p)
        | WObject _ =>
            inl (mkExc InterpreterException
                   "Exe wrapper can only contain strings or external binaries.")
        end
      with
      | inl e => inl e
      | inr words =>
          match wrapper_command get_command rest with
          | inl e => inl e
          | inr l => inr (words ++ l)
          end
      end
  end.

(** The name under which [func_add_test_setup] stores a setup. *)
Definition qualified_setup_name (me : Interp) (project_name setup_name : string)
  : string :=
  if PyStr.contains_char ":" setup_name then setup_name
  else (if bool_decide (subproject me = EmptyString) then project_name
        else subproject me) +:+ ":" +:+ setup_name.

(** [func_add_test_setup(node, args, kwargs)]; [get_command] is
    [ExternalProgram.get_command]. *)
Definition func_add_test_setup (get_command : Program -> list string)
    (args : list string) (kwargs : SetupKwargs) : M TState unit :=
  match args with
  | [setup_name] =>
      when (negb (setup_name_matches setup_name)) then_raise
        InterpreterException
        msg "Setup name may only contain alphanumeric characters." ;;;
      st <- get ;;
      let setup_name :=
        qualified_setup_name (interp_of st) (project_name st) setup_name in
      exe_wrapper <- lift_exc (wrapper_command get_command
                                 (sk_exe_wrapper kwargs)) ;;
      gdb <- bool_kwarg (sk_gdb kwargs) false "Gdb option must be a boolean" ;;
      timeout_multiplier <- int_kwarg (sk_timeout_multiplier kwargs) 1
                              "Timeout multiplier must be a number." ;;
      is_default <- bool_kwarg (sk_is_default kwargs) false
                      "is_default option must be a boolean" ;;
      (if is_default : bool then
         st <- get ;;
         match test_setup_default_name st with
         | Some other =>
             raise InterpreterException
               ("'" +:+ other +:+ "' is already set as default. "
                +:+ "is_default can be set to true only once")
         | None => modify (set_test_setup_default_name (Some setup_name))
         end
       else ret tt) ;;;
      let exclude_suites := sk_exclude_suites kwargs in
      env <- lift_exc (unpack_env_kwarg (sk_env kwargs)) ;;
      modify (fun st =>
        set_test_setups
          (<[setup_name := mkTestSetup exe_wrapper gdb timeout_multiplier env
                                       exclude_suites]> (test_setups st)) st)
  | _ =>
      raise InterpreterException
        "Add_test_setup needs one argument for the setup name."
  end.

(* ===================================================================== *)
(** ** The module [unstable_rust] *)
(* ===================================================================== *)

(** [l.remove(x)]: without the first item equal to [x]; Python raises
    [ValueError] when there is none, which the callers exclude. *)
Fixpoint list_remove (x : string) (l : list string) : list string :=
  match l with
  | [] => []
  | y :: l' => if bool_decide (y = x) then l' else y :: list_remove x l'
  end.

(** [l.index(x)] when [x] is in [l] *)
Fixpoint list_index (x : string) (l : list string) : option nat :=
  match l with
  | [] => None
  | y :: l' =>
      if bool_decide (y = x) then Some 0
      else S <$> list_index x l'
  end.

(** The loop of [test] that deletes the first item that starts with
    [--format=]. *)
Fixpoint drop_format_option (l : list string) : list string :=
  match l with
  | [] => []
  | a :: l' =>
      if PyStr.startswith a "--format=" then l'
      else a :: drop_format_option l'
  end.

(** [r] is [l] without the first of its items that satisfies [P]; [l]
    itself when no item does. *)
Definition without_first (P : string -> Prop) (l r : list string) : Prop :=
  (Forall (fun a => ~ P a) l /\ r = l)
  \/ exists pre x post,
       l = pre ++ x :: post
       /\ Forall (fun a => ~ P a) pre /\ P x /\ r = pre ++ post.

(** The arguments of [test] without those the module passes itself. *)
Definition clean_test_args (extra_args : list string) : Exc + list string :=
  let extra_args :=
    if bool_decide ("--test" ∈ extra_args) then list_remove "--test" extra_args
    else extra_args in
  match list_index "--format" extra_args with
  | Some i =>
      (* Also delete the argument to --format *)
      if bool_decide (i + 1 < length extra_args) then
        inr (drop_format_option (delete i (delete (i + 1) extra_args)))
      else inl (mkExc IndexError "list assignment index out of range")
  | None => inr (drop_format_option extra_args)
  end.

(** A dependency given to [test]: a [Dependency] or [ExternalLibrary], or
    another object. *)
Inductive DepObject :=
| DepDependency (tag : string)
| DepOther (tag : string).


(** The [BuildTarget] given to [test], with the keyword arguments it was
    built with that [test] reads. *)
Record BuildTarget := mkBuildTarget {
  bt_target : Target;
  uses_rust : bool;
  bt_for_machine : MachineChoice;
  bt_rust_args : option (list string);
  bt_install : option PyVal;
  bt_dependencies : option (list DepObject)
}.


(** The module object: the interpreter and the program it remembers. *)
Record RustModule := mkRustModule {
  interpreter : TState;
  bindgen_bin : option Program
}.

Definition set_interpreter (i : TState) (m : RustModule) : RustModule :=
  mkRustModule i (bindgen_bin m).

Definition set_bindgen_bin (p : option Program) (m : RustModule) : RustModule :=
  mkRustModule (interpreter m) p.


(** What [source_strings_to_files] makes of an item it accepts, in the
    directory [subdir]: the file of that directory for a string, the object
    itself for an object. *)
Definition source_output (subdir : string) (s : SourceInput)
  : option SourceOutput :=
  match s with
  | SrcString str => Some (OutFile subdir str)
  | SrcObject tag => Some (OutObject tag)
  | SrcInvalid _ => None
  end.

(** The keyword arguments of [bindgen]; [bg_include_directories] holds, for
    each [IncludeDirs] object, its [to_string_list] for the source
    directory, and [bg_c_args] and [bg_args] the lists after
    [stringlistify]. *)
Record BindgenKwargs := mkBindgenKwargs {
  bg_input : option (list SourceInput);
  bg_output : option PyVal;
  bg_include_directories : list (list string);
  bg_c_args : list string;
  bg_args : list string
}.

(** The arguments [bindgen] gives to [CustomTarget]. *)
Record CustomTargetArgs := mkCustomTargetArgs {
  ct_name : string;
  ct_subdir : string;
  ct_subproject : string;
  ct_input : SourceOutput;
  ct_output : string;
  ct_command : list string;
  ct_depfile : string;
  ct_depends : list SourceOutput;
  ct_depend_files : list SourceOutput
}.

(** [isinstance(d, File)]; [file_fname] gives the [fname] of the object with
    a tag when it is a [mesonlib.File]. *)
Definition is_file (file_fname : string -> option string) (d : SourceOutput)
  : bool :=
  match d with
  | OutFile _ _ => true
  | OutObject tag => bool_decide (is_Some (file_fname tag))
  end.

(** [RustModule.bindgen(state, args, kwargs)]; [get_command] is
    [ExternalProgram.get_command] and [get_outputs] the method of the object
    with that tag. *)
Definition bindgen (get_command : Program -> list string)
    (file_fname : string -> option string)
    (get_outputs : string -> list string) (kwargs : BindgenKwargs)
  : M RustModule CustomTargetArgs :=
  match bg_input kwargs with
  | None =>
      raise InvalidArguments
        "rustmod.bindgen() `input` argument must have at least one element."
  | Some input =>
      files <- zoom interpreter set_interpreter
                 (zoom ts_programs set_ts_programs
                    (zoom ps_interp
                       (fun i p => mkPState _ i (find_overrides p)
                                            (searched_programs p))
                       (source_strings_to_files input))) ;;
      match files with
      | [] =>
          raise OtherException
            "ValueError: not enough values to unpack (expected at least 1, got 0)"
      | header :: _deps =>
          match bg_output kwargs with
          | None =>
              raise InvalidArguments
                "rustmod.bindgen() `output` must be provided"
          | Some (PyStr output) =>
              let c_args := bg_c_args kwargs in
              let bind_args := bg_args kwargs in
              (* Split File and Target dependencies to add pass to
                 CustomTarget *)
              let depends :=
                filter (fun d => is_file file_fname d = false) _deps in
              let depend_files :=
                filter (fun d => is_file file_fname d = true) _deps in
              (* bindgen always uses clang, so it's safe to hardcode -I
                 here *)
              let inc_strs :=
                mjoin (fmap (String.append "-I")
                         <$> bg_include_directories kwargs) in
              me <- get ;;
              bin <- match bindgen_bin me with
                     | None =>
                         p <- zoom interpreter set_interpreter
                                (zoom ts_programs set_ts_programs
                                   (find_program_impl do_subproject_and_merge
                                      [PString "bindgen"] HOST true [] []
                                      None)) ;;
                         modify (set_bindgen_bin (Some p)) ;;;
                         ret p
                     | Some p => ret p
                     end ;;
              name <- match header with
                      | OutFile _ fname => ret fname
                      | OutObject tag =>
                          match file_fname tag with
                          | Some fname => ret fname
                          | None =>
                              match get_outputs tag with
                              | [] =>
                                  raise IndexError "list index out of range"
                              | o :: _ => ret o
                              end
                          end
                      end ;;
              me <- get ;;
              ret (mkCustomTargetArgs
                     (PyLib.replace "/" "_" ("rustmod-bindgen-" +:+ name))
                     (subdir (interp_of (interpreter me)))
                     (subproject (interp_of (interpreter me)))
                     header
                     output
                     (get_command bin
                      ++ ["@INPUT@"; "--output";
                          os_path_join build_dir "@OUTPUT@"]
                      ++ bind_args ++ ["--"] ++ c_args ++ inc_strs
                      ++ ["-MD"; "-MQ"; "@INPUT@"; "-MF"; "@DEPFILE@"])
                     "@PLAINNAME@.d"
                     depends
                     depend_files)
          | Some _ =>
              raise InvalidArguments
                "rustmod.bindgen() `output` argument must be a string."
          end
      end
  end.

End Tests.

(* ===================================================================== *)
(** ** A second sample run: programs, modules, directories and tests *)
(* ===================================================================== *)

Module Demo.

(** The programs of the system. *)
Definition installed : list string := ["bindgen"; "sh"].

(** A program is its name and whether it was found; the machine files name
    no binaries and no wrap provides a program. *)
Definition finder : ProgramFinder :=
  {| Program := string * bool;
     prog_found := snd;
     prog_get_name := fst;
     prog_get_version := fun _ => inr "1.0";
     NonExistingExternalProgram := fun name => (name, false);
     non_existing_not_found := fun _ => eq_refl;
     from_bin_list := fun _ p => (p, false);
     search_program := fun exename _ _ =>
       (exename, bool_decide (exename ∈ installed));
     python3_program := ("python3", true);
     version_compare_many3 := fun version wanted =>
       (forallb (String.eqb version) wanted,
        List.filter (fun w => negb (String.eqb version w)) wanted,
        List.filter (String.eqb version) wanted);
     find_program_provider := fun _ => None;
     extract_search_dirs := fun _ => inr [];
     build_dir := "/build" |}.

(** [ExternalProgram.get_command] *)
Definition get_command (p : string * bool) : list string :=
  ["/usr/bin/" +:+ fst p].

(** A subproject configured from a lookup of a program: the one of the first
    sample run. *)
Definition merge_subproject (subp_name method : string) (kwargs : Kwargs)
  : M (@PState finder) SubprojectHolder :=
  zoom ps_interp
       (fun i p => @mkPState finder i (find_overrides p) (searched_programs p))
       (@do_subproject Sample.W subp_name method kwargs).

Definition programs : @PState finder := @mkPState finder Sample.initial ∅ ∅.

(** The state after an override of [sh] by a script of the project. *)
Definition sh_overridden : @PState finder :=
  @mkPState finder Sample.initial {["sh" := ("scripts/sh.py", true)]} ∅.

(** An environment is the list of its assignments. *)
Fixpoint parse_assignments (l : list string)
  : Exc + list (string * string) :=
  match l with
  | [] => inr []
  | a :: rest =>
      match PyLib.split_once "=" a, parse_assignments rest with
      | Some kv, inr r => inr (kv :: r)
      | None, _ =>
          inl (mkExc InterpreterException
                 "Env var definition must be of type key=val.")
      | _, inl e => inl e
      end
  end.

Definition environments : TestCollaborators :=
  {| EnvironmentVariables := list (string * string);
     new_environment := fun init =>
       match init with
       | None => inr []
       | Some (EnvDict d) => inr d
       | Some (EnvList l) => parse_assignments l
       end |}.

(** The modules of the sample: [fs] is stable, [rust] is not. *)
Definition loader : ModuleLoader :=
  {| ModuleObject := string;
     python_module_exists := fun modname =>
       bool_decide (modname ∈ ["fs"; "unstable_rust"]);
     initialize := fun modname => inr ("module " +:+ modname) |}.

Definition no_modules : @ModState loader := @mkModState loader ∅ [].

(** The build files of the sample project, each with the directories it
    enters: the one of [src] enters [core]. *)
Definition tree (absname : string) : option (list string) :=
  if String.eqb absname "/src/meson.build" then Some ["src"; "tests"]
  else if String.eqb absname "/src/src/meson.build" then Some ["core"]
  else if String.eqb absname "/src/src/core/meson.build" then Some []
  else if String.eqb absname "/src/tests/meson.build" then Some []
  else None.

(** [os.path.realpath] in the sample project, which has no links: the path
    without its components [.]. *)
Fixpoint realpath (p : string) : string :=
  match p with
  | EmptyString => EmptyString
  | String c rest =>
      if Ascii.eqb c "/" then
        match rest with
        | String d rest' =>
            if Ascii.eqb d "." then
              match rest' with
              | EmptyString => EmptyString
              | String e _ =>
                  if Ascii.eqb e "/" then realpath rest'
                  else String c (realpath rest)
              end
            else String c (realpath rest)
        | EmptyString => String c EmptyString
        end
      else String c (realpath rest)
  end.

(** [os.path.isfile] in the sample project. *)
Definition isfile (f : string) : bool :=
  bool_decide (is_Some (tree (realpath f))).

Definition evaluate (absname : string) : M DirState bool :=
  evaluate_tree "/src" "subprojects" realpath tree 4 absname.

Definition subdir_call (dir : string) : M DirState unit :=
  func_subdir "/src" "subprojects" realpath isfile evaluate [PosStr dir] [].

Definition top_dir : DirState := mkDirState EmptyString ∅ [] [].

(** The tests of the sample project. *)
Definition test_state : @TState finder environments :=
  @mkTState finder environments programs "demo project" [] [] None ∅.

Definition parser_kwargs : @TestKwargs environments :=
  @mkTestKwargs environments None [CmdStr "--fast"] None None
    (Some (KInt 60)) (Some (KStr "/tmp")) None (Some ["unit"; EmptyString])
    [] None.

Definition no_test_kwargs : @TestKwargs environments :=
  @mkTestKwargs environments None [] None None None None None None [] None.

Definition default_setup : SetupKwargs :=
  @mkSetupKwargs finder environments [WStr "valgrind"] None None None
    (Some (KBool true)) [].

(** The module [unstable_rust] and a static library written in rust. *)
Definition rust_module : @RustModule finder environments :=
  @mkRustModule finder environments test_state None.

Definition rust_lib : BuildTarget :=
  mkBuildTarget (mkTarget "rs" StaticLibrary "lib" EmptyString "undefined")
                true HOST (Some ["-O"]) None None.

Definition header_kwargs : BindgenKwargs :=
  mkBindgenKwargs
    (Some [SrcString "include/api.h"; SrcString "include/types.h";
           SrcObject "generated"])
    (Some (PyStr "api.rs")) [["inc"]] ["-DAPI"] ["--no-layout-tests"].

(** Calls of the second sample run. *)
Definition find_sh : Outcome (@PState finder) (string * bool) :=
  @find_program_impl Sample.W finder merge_subproject [PString "sh"] HOST
                     true [] [] None programs.

Definition nosuch : list ProgArg := [PFile false "scripts" "nosuch"].

Definition import_rust : Outcome (@ModState loader) string :=
  @func_import loader ["unstable-rust"] no_modules.

Definition src_entered : DirState := outcome_state (subdir_call "src" top_dir).

Definition parser_test : Outcome (@TState finder environments) Test :=
  @make_test Sample.W finder environments merge_subproject
             [TAStr "unit: parser"; TAExe (HeldTarget Sample.exe_prog)]
             parser_kwargs test_state.

Definition valgrind_setup : Outcome (@TState finder environments) unit :=
  @func_add_test_setup finder environments get_command ["valgrind"]
                       default_setup test_state.

Definition bindgen_call (kwargs : BindgenKwargs)
  : M (@RustModule finder environments) CustomTargetArgs :=
  @bindgen Sample.W finder environments merge_subproject get_command
           (fun _ => None) (fun _ => ["gen.h"]) kwargs.

Definition no_input : BindgenKwargs :=
  mkBindgenKwargs None (Some (PyStr "api.rs")) [] [] [].

Definition test_arguments : list string :=
  ["--test"; "-q"; "--format"; "json"; "--format=terse"; "x"].

End Demo.

(* ===================================================================== *)
(** * Properties *)
(* ===================================================================== *)

(** ** Python strings *)

Lemma lstrip_all_space (s : string) :
  PyStr.lstrip s = EmptyString <-> PyStr.all_space s = true.
Proof.
  induction s as [|c s IH]; simpl; [done|].
  destruct (PyStr.isspace c); simpl; [exact IH|].
  split; discriminate.
Qed.

Lemma rstrip_all_space (s : string) :
  PyStr.rstrip s = EmptyString <-> PyStr.all_space s = true.
Proof.
  induction s as [|c s IH]; simpl; [done|].
  destruct (PyStr.rstrip s) eqn:Hr.
  - destruct (PyStr.isspace c); simpl.
    + split; [intros _; by apply IH | done].
    + split; discriminate.
  - split; [discriminate|].
    intros [_ Hs]%andb_prop. apply IH in Hs. discriminate.
Qed.

Lemma all_space_lstrip (s : string) :
  PyStr.all_space (PyStr.lstrip s) = true <-> PyStr.all_space s = true.
Proof.
  induction s as [|c s IH]; simpl; [done|].
  destruct (PyStr.isspace c) eqn:Hc; simpl; [exact IH|].
  by rewrite Hc.
Qed.

(** [s.strip() == ''] exactly when every character of [s] is white space. *)
Lemma strip_empty_iff (s : string) :
  PyStr.strip s = EmptyString <-> PyStr.all_space s = true.
Proof.
  unfold PyStr.strip. rewrite rstrip_all_space. apply all_space_lstrip.
Qed.

Lemma append_suffix_inj (s t1 t2 : string) : s +:+ t1 = s +:+ t2 -> t1 = t2.
Proof. apply String.app_inj. Qed.

(** ** The target registry *)

Section RegistryFacts.
Context `{Collaborators}.

Ltac run_add_target :=
  unfold add_target, bind, ret, raise, get, modify; simpl.

Lemma add_target_empty_name tobj st :
  exists e, add_target EmptyString tobj st = Raise e st.
Proof. eexists. reflexivity. Qed.

Lemma add_target_whitespace name tobj st :
  PyStr.all_space name = true -> exists e, add_target name tobj st = Raise e st.
Proof.
  intros Hs%strip_empty_iff. run_add_target.
  case_bool_decide; [by eexists|]. simpl.
  rewrite bool_decide_eq_true_2 by done. by eexists.
Qed.

Lemma add_target_reserved name tobj st :
  PyStr.startswith name "meson-" = true ->
  exists e, add_target name tobj st = Raise e st.
Proof.
  intros Hp. run_add_target.
  case_bool_decide; [by eexists|]. simpl.
  case_bool_decide; [by eexists|]. simpl.
  rewrite Hp. by eexists.
Qed.

Lemma add_target_collision name tobj st :
  is_Some (targets (build (self st)) !! get_id tobj) ->
  exists e, add_target name tobj st = Raise e st.
Proof.
  intros Hin. run_add_target.
  repeat (match goal with
          | |- context [if ?b then _ else _] => destruct b eqn:?; simpl
          end; try by eexists).
  by rewrite bool_decide_eq_true_2 in * by done.
Qed.

(** What a successful registration did. *)
Lemma add_target_success name tobj st st1 :
  add_target name tobj st = Return tt st1 ->
  name <> EmptyString
  /\ PyStr.strip name <> EmptyString
  /\ PyStr.startswith name "meson-" = false
  /\ str_in name FORBIDDEN_TARGET_NAMES = false
  /\ targets (build (self st)) !! get_id tobj = None
  /\ targets (build (self st1)) = <[get_id tobj := tobj]> (targets (build (self st)))
  /\ project_args_frozen (self st1) = project_args_frozen (self st)
  /\ global_args_frozen (self st1) = global_args_frozen (self st).
Proof.
  run_add_target.
  case_bool_decide as H1; [discriminate|]. simpl.
  case_bool_decide as H2; [discriminate|]. simpl.
  destruct (PyStr.startswith name "meson-") eqn:H3; [discriminate|]. simpl.
  destruct (str_in name FORBIDDEN_TARGET_NAMES) eqn:H4; [discriminate|]. simpl.
  case_bool_decide as H5; [discriminate|]. simpl.
  intros [= <-]. simpl.
  repeat split; try done.
  by apply eq_None_not_Some.
Qed.

(** A registration succeeds when the name passes the checks and the
    identifier is free. *)
Lemma add_target_free name tobj st :
  name <> EmptyString ->
  PyStr.strip name <> EmptyString ->
  PyStr.startswith name "meson-" = false ->
  str_in name FORBIDDEN_TARGET_NAMES = false ->
  targets (build (self st)) !! get_id tobj = None ->
  exists st1, add_target name tobj st = Return tt st1.
Proof.
  intros H1 H2 H3 H4 H5. run_add_target.
  rewrite !bool_decide_eq_false_2 by done. simpl.
  rewrite H3, H4. simpl.
  rewrite bool_decide_eq_false_2 by (rewrite H5; by intros [? ?]).
  simpl. by eexists.
Qed.

(** C9.  [add_target] rejects, with the state as it was, an empty name, a
    name made of white space only, a name with the reserved prefix
    [meson-], and a target whose identifier is already in the registry.
    A second target with the identifier of a registered one is rejected, and
    one with another identifier is registered beside it.  The identifier is
    the name followed by a tag of the kind: a second target of the same name
    and kind is rejected, while an executable and a static library of one
    name are both registered and both retrievable under their
    identifiers. *)
Theorem add_target_registry :
  (forall name tobj st,
      name = EmptyString \/ PyStr.all_space name = true
      \/ PyStr.startswith name "meson-" = true
      \/ is_Some (targets (build (self st)) !! get_id tobj) ->
      exists e, add_target name tobj st = Raise e st)
  /\ (forall n1 n2 t1 t2 st st1,
         add_target n1 t1 st = Return tt st1 ->
         get_id t2 = get_id t1 ->
         exists e, add_target n2 t2 st1 = Raise e st1)
  /\ (forall n t1 t2 st st1,
         add_target n t1 st = Return tt st1 ->
         get_id t2 <> get_id t1 ->
         targets (build (self st)) !! get_id t2 = None ->
         exists st2,
           add_target n t2 st1 = Return tt st2
           /\ targets (build (self st2)) !! get_id t1 = Some t1
           /\ targets (build (self st2)) !! get_id t2 = Some t2)
  /\ (forall n t1 t2 st st1,
         tgt_name t1 = n -> tgt_name t2 = n -> tgt_kind t1 = tgt_kind t2 ->
         add_target n t1 st = Return tt st1 ->
         exists e, add_target n t2 st1 = Raise e st1
                   /\ exc_class e = InvalidCode)
  /\ (forall n exe lib st st1,
         tgt_name exe = n -> tgt_name lib = n ->
         tgt_kind exe = Executable -> tgt_kind lib = StaticLibrary ->
         targets (build (self st)) !! get_id lib = None ->
         add_target n exe st = Return tt st1 ->
         exists st2,
           add_target n lib st1 = Return tt st2
           /\ targets (build (self st2)) !! get_id exe = Some exe
           /\ targets (build (self st2)) !! get_id lib = Some lib).
Proof.
  assert (Hboth : forall n t1 t2 st st1,
             add_target n t1 st = Return tt st1 ->
             get_id t2 <> get_id t1 ->
             targets (build (self st)) !! get_id t2 = None ->
             exists st2,
               add_target n t2 st1 = Return tt st2
               /\ targets (build (self st2)) !! get_id t1 = Some t1
               /\ targets (build (self st2)) !! get_id t2 = Some t2).
  { intros n t1 t2 st st1 Hadd Hne Hfree.
    apply add_target_success in Hadd
      as (H1 & H2 & H3 & H4 & _ & Ht & _).
    destruct (add_target_free n t2 st1) as [st2 Hst2]; try done.
    { rewrite Ht. by rewrite lookup_insert_ne. }
    exists st2. split; [done|].
    apply add_target_success in Hst2 as (_ & _ & _ & _ & _ & Ht2 & _).
    rewrite Ht2, Ht. split.
    - rewrite lookup_insert_ne by done. apply lookup_insert_eq.
    - apply lookup_insert_eq. }
  split_and!.
  - intros name tobj st [-> | [Hs | [Hp | Hc]]].
    + apply add_target_empty_name.
    + by apply add_target_whitespace.
    + by apply add_target_reserved.
    + by apply add_target_collision.
  - intros n1 n2 t1 t2 st st1 Hadd Hid.
    apply add_target_collision.
    apply add_target_success in Hadd as (_ & _ & _ & _ & _ & Ht & _).
    rewrite Ht, Hid, lookup_insert_eq. by eexists.
  - exact Hboth.
  - intros n t1 t2 st st1 Hn1 Hn2 Hk Hadd.
    apply add_target_success in Hadd
      as (H1 & H2 & H3 & H4 & _ & Ht & _).
    assert (Hid : get_id t2 = get_id t1)
      by (unfold get_id; congruence).
    run_add_target.
    rewrite !bool_decide_eq_false_2 by done. simpl.
    rewrite H3, H4. simpl.
    rewrite bool_decide_eq_true_2.
    + eexists. split; reflexivity.
    + rewrite Ht, Hid, lookup_insert_eq. by eexists.
  - intros n exe lib st st1 Hn1 Hn2 Hk1 Hk2 Hfree Hadd.
    apply (Hboth n exe lib st st1); try done.
    unfold get_id. rewrite Hn1, Hn2, Hk1, Hk2.
    intros Heq%append_suffix_inj. discriminate.
Qed.

End RegistryFacts.

(** ** The sandbox check *)

Lemma elem_of_proper_prefixes (l p : list string) :
  p ∈ PathLib.proper_prefixes l <-> exists k, k <> [] /\ l = p ++ k.
Proof.
  revert p. induction l as [|x l IH]; intros p; simpl.
  - split; [by intros ?%elem_of_nil|].
    intros (k & Hk & Heq). symmetry in Heq.
    apply app_eq_nil in Heq as [_ ->]. done.
  - rewrite elem_of_app, list_elem_of_singleton. split.
    + intros [Hin | ->].
      * apply list_elem_of_fmap in Hin as (q & -> & Hq).
        apply IH in Hq as (k & Hk & ->). by exists k.
      * by exists (x :: l).
    + intros (k & Hk & Heq). destruct p as [|y q]; [by right|].
      left. simpl in Heq. injection Heq as <- ->.
      apply list_elem_of_fmap. exists q. split; [done|].
      apply IH. by exists k.
Qed.

(** [root in p.parents] exactly when [p] lies strictly below [root]. *)
Lemma in_parents_below (root p : PurePath) :
  PathLib.in_parents root p = true <-> below root p.
Proof.
  unfold PathLib.in_parents, PathLib.parents, below.
  rewrite bool_decide_eq_true. split.
  - intros (q & -> & Hq)%list_elem_of_fmap. simpl.
    by apply elem_of_proper_prefixes in Hq.
  - intros [Ha Hk]. apply list_elem_of_fmap. exists (parts root). split.
    + destruct root; simpl in *; by subst.
    + by apply elem_of_proper_prefixes.
Qed.

Lemma in_parents_not_below (root p : PurePath) :
  PathLib.in_parents root p = false <-> ~ below root p.
Proof.
  rewrite <- in_parents_below. destruct (PathLib.in_parents root p); split;
    try done; intros Hn; by exfalso.
Qed.

Lemma of_string_anchored (s : string) :
  anchored (PathLib.of_string s) = os_path_isabs s.
Proof. reflexivity. Qed.

Lemma join_relative (a b : PurePath) :
  anchored b = false ->
  PathLib.join a b = mkPath (anchored a) (parts a ++ parts b).
Proof. unfold PathLib.join. by intros ->. Qed.

Lemma below_trans_prefix (a : PurePath) (k : list string) (p : PurePath) :
  below (mkPath (anchored a) (parts a ++ k)) p -> below a p.
Proof.
  intros [Ha (k' & Hk' & Hp)]. simpl in *. split; [done|].
  exists (k ++ k'). split.
  - destruct k; [done|discriminate].
  - by rewrite Hp, <- app_assoc.
Qed.

Lemma below_irrefl_prefix (a : PurePath) (k : list string) :
  ~ below (mkPath (anchored a) (parts a ++ k)) a.
Proof.
  intros [_ (k' & Hk' & Hp)]. simpl in *.
  rewrite <- app_assoc in Hp.
  apply (f_equal length) in Hp. rewrite !length_app in Hp.
  destruct k'; [done|]. simpl in Hp. lia.
Qed.

Section SandboxFacts.
Context `{Collaborators}.

(** C6.  With [norm] the resolved path: a path that does not lie below the
    source root is accepted; a path below the source root that is neither
    the root of the current (sub)project nor below it is a sandbox
    violation; and so is a path below the directory of nested subprojects
    of the current project.  ([root_subdir] and [subproject_dir] are
    relative paths, as [func_project] and the wrap resolver leave them.) *)
Theorem validate_within_subproject_sandbox
    (self : Interp) (subdir fname : string) :
  os_path_isabs (root_subdir self) = false ->
  os_path_isabs (subproject_dir self) = false ->
  let srcdir := PathLib.of_string (source_dir self) in
  let norm := norm_of self subdir fname in
  let root := project_root self in
  let nested := PathLib.join root (PathLib.of_string (subproject_dir self)) in
  (~ below srcdir norm ->
     validate_within_subproject self subdir fname = inr tt)
  /\ (below srcdir norm -> norm <> root -> ~ below root norm ->
      exists e, validate_within_subproject self subdir fname = inl e
                /\ sandbox_violation e)
  /\ (below nested norm ->
      exists e, validate_within_subproject self subdir fname = inl e
                /\ sandbox_violation e).
Proof.
  intros Hrs Hsd srcdir norm root nested.
  unfold validate_within_subproject.
  fold srcdir. fold norm. fold root. fold nested.
  split; [|split].
  - intros Hout%in_parents_not_below. by rewrite Hout.
  - intros Hin%in_parents_below Hne Hnr%in_parents_not_below.
    rewrite Hin. simpl.
    rewrite bool_decide_eq_false_2 by done.
    rewrite Hnr. simpl.
    eexists. split; [reflexivity|]. split; reflexivity.
  - intros Hnest.
    assert (Hroot : root = mkPath (anchored srcdir)
                             (parts srcdir ++ parts (PathLib.of_string (root_subdir self)))).
    { unfold root, project_root. by apply join_relative. }
    assert (Hnested : nested = mkPath (anchored root)
                                 (parts root ++ parts (PathLib.of_string (subproject_dir self)))).
    { unfold nested. by apply join_relative. }
    assert (Hbr : below root norm).
    { rewrite Hnested in Hnest. by apply below_trans_prefix in Hnest. }
    assert (Hbs : below srcdir norm).
    { rewrite Hroot in Hbr. by apply below_trans_prefix in Hbr. }
    assert (Hne : norm <> root).
    { intros Heq. rewrite Hnested, Heq in Hnest.
      by apply below_irrefl_prefix in Hnest. }
    apply in_parents_below in Hbs, Hbr, Hnest.
    rewrite Hbs. simpl.
    rewrite bool_decide_eq_false_2 by done.
    rewrite Hbr. simpl. rewrite Hnest.
    eexists. split; [reflexivity|]. split; reflexivity.
Qed.

End SandboxFacts.

(** ** Relations kept by the methods *)

Section Preservation.
Context {R : State -> State -> Prop} `{!Reflexive R} `{!Transitive R}.

Lemma preserves_ret {A} (a : A) : preserves R (ret a).
Proof. intros st. simpl. reflexivity. Qed.

Lemma preserves_raise {A} c s : preserves R (@raise State A c s).
Proof. intros st. simpl. reflexivity. Qed.

Lemma preserves_reraise {A} e : preserves R (@reraise State A e).
Proof. intros st. simpl. reflexivity. Qed.

Lemma preserves_get : preserves R get.
Proof. intros st. simpl. reflexivity. Qed.

Lemma preserves_lift_result {A} (r : Exc + A) : preserves R (lift_result r).
Proof. intros st. destruct r; simpl; reflexivity. Qed.

Lemma preserves_modify (f : State -> State) :
  (forall st, R st (f st)) -> preserves R (modify f).
Proof. intros Hf st. simpl. apply Hf. Qed.

Lemma preserves_bind {A B} (m : Py A) (k : A -> Py B) :
  preserves R m -> (forall a, preserves R (k a)) -> preserves R (bind m k).
Proof.
  intros Hm Hk st. unfold bind. specialize (Hm st).
  destruct (m st) as [a st'|e st']; simpl in *; [|done].
  etrans; [exact Hm|]. apply Hk.
Qed.

Lemma preserves_bind_lift {A B} (r : Exc + A) (k : A -> Py B) :
  (forall a, r = inr a -> preserves R (k a)) ->
  preserves R (bind (lift_result r) k).
Proof.
  intros Hk st. unfold bind, lift_result.
  destruct r as [e|a]; simpl; [reflexivity|]. by apply Hk.
Qed.

Lemma preserves_try_catch {A} (m : Py A) (h : Exc -> Py A) :
  preserves R m -> (forall e, preserves R (h e)) ->
  preserves R (try_catch m h).
Proof.
  intros Hm Hh st. unfold try_catch. specialize (Hm st).
  destruct (m st) as [a st'|e st']; simpl in *; [done|].
  etrans; [exact Hm|]. apply Hh.
Qed.

End Preservation.

(** ** Outcomes of sequences *)

Lemma bind_Return_inv {S A B} (m : M S A) (k : A -> M S B) st b st' :
  bind m k st = Return b st' ->
  exists a st1, m st = Return a st1 /\ k a st1 = Return b st'.
Proof.
  unfold bind. destruct (m st) as [a st1|]; [|discriminate]. eauto.
Qed.

Lemma bind_Return {S A B} (m : M S A) (k : A -> M S B) st a st1 :
  m st = Return a st1 -> bind m k st = k a st1.
Proof. unfold bind. by intros ->. Qed.


(** One step of a proof that a method keeps a relation: follow the syntax of
    the method. *)
Ltac preserves_step :=
  lazymatch goal with
  | |- preserves _ (bind (lift_result _) _) =>
      apply preserves_bind_lift; intros
  | |- preserves _ (bind _ _) => apply preserves_bind; [|intros]
  | |- preserves _ (ret _) => apply preserves_ret
  | |- preserves _ (raise _ _) => apply preserves_raise
  | |- preserves _ (reraise _) => apply preserves_reraise
  | |- preserves _ get => apply preserves_get
  | |- preserves _ (lift_result _) => apply preserves_lift_result
  | |- preserves _ (try_catch _ _) => apply preserves_try_catch; [|intros]
  | |- preserves _ (modify _) => apply preserves_modify; intros
  | |- preserves _ (if ?b then _ else _) => destruct b eqn:?
  | |- preserves _ (match ?x with _ => _ end) => destruct x eqn:?
  | |- preserves _ (let _ := _ in _) => cbv zeta
  end.

Global Instance flags_kept_refl : Reflexive flags_kept.
Proof. by intros st. Qed.

Global Instance flags_kept_trans : Transitive flags_kept.
Proof. intros a b c [H1 H2] [H3 H4]. split; auto. Qed.

(** ** Frozen arguments *)

(** The steps, and the obligations of the assignments, for [flags_kept]. *)
Ltac flags := repeat preserves_step; try (split; simpl; by auto).

Section FrozenFacts.
Context `{Collaborators}.

Lemma add_target_flags name tobj : preserves flags_kept (add_target name tobj).
Proof. unfold add_target. flags. Qed.

Lemma add_global_arguments_flags fn t m a kw :
  preserves flags_kept (add_global_arguments fn t m a kw).
Proof. unfold add_global_arguments. flags. Qed.

Lemma add_project_arguments_flags fn t m a kw :
  preserves flags_kept (add_project_arguments fn t m a kw).
Proof. unfold add_project_arguments. flags. Qed.

Lemma source_strings_to_files_flags l :
  preserves flags_kept (source_strings_to_files l).
Proof. induction l as [|x l IH]; simpl; flags; apply IH. Qed.

Lemma build_target_flags args kw k :
  preserves flags_kept (build_target args kw k).
Proof.
  unfold build_target. flags;
    try apply source_strings_to_files_flags; try apply add_target_flags.
Qed.

Lemma func_alias_target_flags args :
  preserves flags_kept (func_alias_target args).
Proof. unfold func_alias_target. flags; apply add_target_flags. Qed.

Lemma disabled_subproject_flags s f e :
  preserves flags_kept (disabled_subproject s f e).
Proof. unfold disabled_subproject. flags. Qed.

Lemma run_nested_flags tr opts subi0 :
  preserves flags_kept (run_nested tr opts subi0).
Proof.
  intros st. unfold run_nested.
  destruct (interp_run tr opts subi0 (shared st)); by split.
Qed.

Lemma _do_subproject_meson_flags s subdir opts kw bs tr :
  preserves flags_kept (_do_subproject_meson s subdir opts kw bs tr).
Proof. unfold _do_subproject_meson. flags; apply run_nested_flags. Qed.

Lemma _do_subproject_cmake_flags s subdir opts kw :
  preserves flags_kept (_do_subproject_cmake s subdir opts kw).
Proof.
  unfold _do_subproject_cmake. flags. apply _do_subproject_meson_flags.
Qed.

Lemma check_subp_name_flags s : preserves flags_kept (check_subp_name s).
Proof. unfold check_subp_name. flags. Qed.

Lemma do_subproject_flags s method kw :
  preserves flags_kept (do_subproject s method kw).
Proof.
  unfold do_subproject, evaluation, boundary. flags;
    first [ apply disabled_subproject_flags
          | apply check_subp_name_flags
          | apply _do_subproject_meson_flags
          | apply _do_subproject_cmake_flags ].
Qed.

End FrozenFacts.

Section FrozenStatements.
Context `{Collaborators}.

Lemma notfound_dependency_flags : preserves flags_kept notfound_dependency.
Proof. unfold notfound_dependency. flags. Qed.

Lemma _find_cached_dep_flags n dn kw :
  preserves flags_kept (_find_cached_dep n dn kw).
Proof. unfold _find_cached_dep. flags. Qed.

Lemma verify_fallback_consistency_flags s v d :
  preserves flags_kept (verify_fallback_consistency s v d).
Proof. unfold verify_fallback_consistency. flags. Qed.

Lemma get_subproject_infos_flags l :
  preserves flags_kept (get_subproject_infos l).
Proof. unfold get_subproject_infos. flags. Qed.

Lemma get_subproject_dep_flags n dn s v kw :
  preserves flags_kept (get_subproject_dep n dn s v kw).
Proof.
  unfold get_subproject_dep. flags;
    first [ apply notfound_dependency_flags
          | apply _find_cached_dep_flags
          | apply verify_fallback_consistency_flags ].
Qed.

Lemma dependency_fallback_flags n dn fb kw :
  preserves flags_kept (dependency_fallback n dn fb kw).
Proof.
  unfold dependency_fallback. flags;
    first [ apply get_subproject_infos_flags
          | apply do_subproject_flags
          | apply get_subproject_dep_flags
          | apply notfound_dependency_flags ].
Qed.

Lemma dependency_impl_flags n dn kw ff :
  preserves flags_kept (dependency_impl n dn kw ff).
Proof.
  unfold dependency_impl, dependency_lookup, resolve, static_checks,
    check_allow_fallback, implicit_fallback. flags;
    first [ apply notfound_dependency_flags
          | apply _find_cached_dep_flags
          | apply get_subproject_infos_flags
          | apply verify_fallback_consistency_flags
          | apply get_subproject_dep_flags
          | apply dependency_fallback_flags ].
Qed.

Lemma func_dependency_flags n kw :
  preserves flags_kept (func_dependency n kw).
Proof. unfold func_dependency. flags; apply dependency_impl_flags. Qed.

Lemma exec_stmt_flags s : preserves flags_kept (exec_stmt s).
Proof.
  destruct s; simpl; unfold func_subproject, func_add_global_arguments,
    func_add_project_arguments; flags;
    first [ apply do_subproject_flags
          | apply func_dependency_flags
          | apply build_target_flags
          | apply func_alias_target_flags
          | apply add_global_arguments_flags
          | apply add_project_arguments_flags ].
Qed.

Lemma exec_stmts_flags l : preserves flags_kept (exec_stmts l).
Proof.
  induction l as [|s l IH]; simpl; flags; [apply exec_stmt_flags | apply IH].
Qed.

End FrozenStatements.

(** ** Entering a subproject *)

Section EntryFacts.
Context `{Collaborators}.

Lemma check_subp_name_valid s st :
  valid_subp_name s -> check_subp_name s st = Return tt st.
Proof.
  intros (H1 & H2 & H3 & H4). unfold check_subp_name, bind, ret, raise.
  rewrite bool_decide_eq_false_2 by done. by rewrite H2, H3, H4.
Qed.


Lemma str_in_false (x : string) (l : list string) :
  x ∉ l -> str_in x l = false.
Proof. intros Hn. unfold str_in. by apply bool_decide_eq_false_2. Qed.


(** A call that enters the subproject is the [try] statement run from the
    entry state. *)
Lemma do_subproject_entry s method kw st required kw' opts subdir :
  enters_subproject s method kw st required kw' opts subdir ->
  do_subproject s method kw st
  = try_catch (evaluation s method subdir opts kw') (boundary s required)
              (entry_state s method st).
Proof.
  intros ([[feature Hex] Hopts] & Hvalid & Hstack & Hcache & Hwrap).
  unfold do_subproject, bind at 1. simpl.
  unfold bind at 1. unfold lift_result at 1. rewrite Hex.
  unfold bind at 1. unfold lift_result at 1. rewrite Hopts.
  unfold bind at 1. rewrite (check_subp_name_valid s st Hvalid).
  rewrite (str_in_false _ _ Hstack), Hcache.
  unfold bind at 1. simpl. unfold bind at 1. simpl.
  rewrite Hwrap.
  unfold bind at 1. simpl. reflexivity.
Qed.

Lemma evaluation_flags s method subdir opts kw :
  preserves flags_kept (evaluation s method subdir opts kw).
Proof.
  unfold evaluation. repeat preserves_step;
    first [ apply _do_subproject_meson_flags
          | apply _do_subproject_cmake_flags ].
Qed.

Lemma boundary_flags s required e :
  preserves flags_kept (boundary s required e).
Proof.
  unfold boundary. repeat preserves_step. apply disabled_subproject_flags.
Qed.

(** Entering a subproject leaves the global arguments frozen, however the
    evaluation ends. *)
Lemma do_subproject_freezes s method kw st required kw' opts subdir :
  enters_subproject s method kw st required kw' opts subdir ->
  global_args_frozen (self (outcome_state (do_subproject s method kw st)))
  = true.
Proof.
  intros Hen. rewrite (do_subproject_entry _ _ _ _ _ _ _ _ Hen).
  pose proof (preserves_try_catch (R := flags_kept)
                (evaluation s method subdir opts kw') (boundary s required)
                (evaluation_flags _ _ _ _ _)
                (boundary_flags s required) (entry_state s method st))
    as [_ Hg].
  by apply Hg.
Qed.

Lemma build_target_freezes args kw k st tgt st1 :
  build_target args kw k st = Return tgt st1 ->
  project_args_frozen (self st1) = true
  /\ is_Some (targets (build (self st1)) !! get_id tgt).
Proof.
  unfold build_target.
  destruct args as [|[name| |] sources]; try discriminate.
  intros (m & st0 & _ & Hrun)%bind_Return_inv.
  apply bind_Return_inv in Hrun as (outs & st2 & _ & Hrun).
  destruct k; try discriminate;
    apply bind_Return_inv in Hrun as (st2' & ? & [= <- <-] & Hrun);
    apply bind_Return_inv in Hrun as (target & st3 & _ & Hrun);
    apply bind_Return_inv in Hrun as ([] & st4 & Hadd & Hrun);
    apply bind_Return_inv in Hrun as ([] & st5 & [= <-] & [= <- <-]);
    apply add_target_success in Hadd as (_ & _ & _ & _ & _ & Ht & _);
    simpl; (split; [done|]); rewrite Ht; simpl;
    rewrite lookup_insert_eq; by eexists.
Qed.

Lemma add_arguments_frozen fn d a kw :
  exists e, add_arguments fn d true a kw = inl e /\ exc_class e = InvalidCode.
Proof. eexists. split; reflexivity. Qed.

Lemma add_project_arguments_frozen fn t m a kw st :
  project_args_frozen (self st) = true ->
  exists e st', add_project_arguments fn t m a kw st = Raise e st'
                /\ exc_class e = InvalidCode.
Proof.
  intros Hf. unfold add_project_arguments, bind, get, modify. simpl.
  destruct (pm_get _ _ !! _); destruct t; simpl;
    rewrite ?Hf; simpl; do 2 eexists; split; reflexivity.
Qed.

Lemma add_global_arguments_frozen fn t m a kw st :
  project_args_frozen (self st) = true \/ global_args_frozen (self st) = true ->
  exists e st', add_global_arguments fn t m a kw st = Raise e st'
                /\ exc_class e = InvalidCode.
Proof.
  intros Hf. unfold add_global_arguments, bind, get. simpl.
  destruct (is_subproject (self st)).
  - do 2 eexists. split; reflexivity.
  - replace (project_args_frozen (self st) || global_args_frozen (self st))
      with true by (destruct Hf as [-> | ->]; by rewrite ?orb_true_r).
    simpl. do 2 eexists. split; reflexivity.
Qed.

(** C8, as the code has it.  Once a build target has been declared with
    [build_target] (an executable, a library, a module, a jar), every later
    call of [add_project_arguments] or [add_global_arguments] of this
    interpreter raises [InvalidCode]; once [do_subproject] has entered a
    subproject, every later call of [add_global_arguments] raises
    [InvalidCode]; and [add_arguments] tests the flag before it writes. *)
Theorem arguments_frozen :
  (forall args kwargs k st tgt st1 later st2 fn t m a kw,
      build_target args kwargs k st = Return tgt st1 ->
      exec_stmts later st1 = Return tt st2 ->
      (exists e st3, add_project_arguments fn t m a kw st2 = Raise e st3
                     /\ exc_class e = InvalidCode)
      /\ (exists e st3, add_global_arguments fn t m a kw st2 = Raise e st3
                        /\ exc_class e = InvalidCode))
  /\ (forall s method kwargs st required kwargs' opts subdir later st2
             fn t m a kw,
         enters_subproject s method kwargs st required kwargs' opts subdir ->
         exec_stmts later (outcome_state (do_subproject s method kwargs st))
         = Return tt st2 ->
         exists e st3, add_global_arguments fn t m a kw st2 = Raise e st3
                       /\ exc_class e = InvalidCode)
  /\ (forall fn d a kw,
         exists e, add_arguments fn d true a kw = inl e
                   /\ exc_class e = InvalidCode).
Proof.
  split; [|split].
  - intros args kwargs k st tgt st1 later st2 fn t m a kw Hbt Hlater.
    apply build_target_freezes in Hbt as [Hfrozen _].
    pose proof (exec_stmts_flags later st1) as [Hp _].
    rewrite Hlater in Hp. simpl in Hp. specialize (Hp Hfrozen).
    split.
    + by apply add_project_arguments_frozen.
    + apply add_global_arguments_frozen. by left.
  - intros s method kwargs st required kwargs' opts subdir later st2
           fn t m a kw Hen Hlater.
    pose proof (do_subproject_freezes _ _ _ _ _ _ _ _ Hen) as Hfrozen.
    pose proof (exec_stmts_flags later
                  (outcome_state (do_subproject s method kwargs st)))
      as [_ Hg].
    rewrite Hlater in Hg. simpl in Hg. specialize (Hg Hfrozen).
    apply add_global_arguments_frozen. by right.
  - apply add_arguments_frozen.
Qed.

End EntryFacts.

(** ** The subproject cache *)

Section SubprojectFacts.
Context `{Collaborators}.


Lemma disabled_subproject_run s f e st :
  disabled_subproject s f e st
  = Return (disabled_holder (self st) s f e)
      (on_shared (fun w =>
         set_initialized_subprojects ({[s]} ∪ initialized_subprojects w)
           (set_subprojects
              (<[s := disabled_holder (self st) s f e]> (subprojects w)) w))
         st).
Proof. reflexivity. Qed.









End SubprojectFacts.

(** ** Cycles and failures of a nested evaluation *)

Section BoundaryFacts.
Context `{Collaborators}.

(** The nested interpreter fails: [_do_subproject_meson] fails with it. *)
Lemma _do_subproject_meson_raises s subdir opts kw bs tr st e w' :
  interp_run tr opts (nested_interpreter (self st) s subdir tr)
             (shared_at_run s (shared st)) = Raise e w' ->
  _do_subproject_meson s subdir opts kw bs tr st
  = Raise e (mkState (self st) w').
Proof.
  intros Hrun. unfold _do_subproject_meson, bind at 1. simpl.
  unfold bind at 1. simpl. unfold bind at 1. simpl.
  unfold bind at 1. unfold run_nested at 1. simpl.
  unfold shared_at_run in Hrun. by rewrite Hrun.
Qed.

(** An [InvalidCode] error of the evaluation passes the boundary, whether
    the subproject is required or not. *)
Lemma InvalidCode_passes s method kw st required kw' opts subdir e st' :
  enters_subproject s method kw st required kw' opts subdir ->
  evaluation s method subdir opts kw' (entry_state s method st) = Raise e st' ->
  exc_class e = InvalidCode ->
  do_subproject s method kw st = Raise e st'.
Proof.
  intros Hen Hev Hc. rewrite (do_subproject_entry _ _ _ _ _ _ _ _ Hen).
  unfold try_catch. rewrite Hev. unfold boundary, is_InvalidCode.
  by rewrite bool_decide_eq_true_2.
Qed.

(** Any other error is fatal for a required subproject and disables an
    optional one. *)
Lemma other_error_at_boundary s method kw st required kw' opts subdir e st' :
  enters_subproject s method kw st required kw' opts subdir ->
  evaluation s method subdir opts kw' (entry_state s method st) = Raise e st' ->
  exc_class e <> InvalidCode ->
  do_subproject s method kw st
  = if required then Raise e st'
    else disabled_subproject s None (Some e) st'.
Proof.
  intros Hen Hev Hc. rewrite (do_subproject_entry _ _ _ _ _ _ _ _ Hen).
  unfold try_catch. rewrite Hev. unfold boundary, is_InvalidCode.
  rewrite bool_decide_eq_false_2 by done. by destruct required.
Qed.

(** C5, as the code has it.  When the nested interpreter of a subproject
    that [do_subproject] has entered raises an error [e]: if [e] is of the
    class [InvalidCode] (the cycle error is one of them), it propagates,
    required or not; otherwise it propagates when the subproject is
    required, and when it is not, [do_subproject] returns a handle that is
    not found, records [e], and is in the cache. *)
Theorem nested_failure_at_boundary s kwargs st required kw' opts subdir e w' :
  enters_subproject s "meson" kwargs st required kw' opts subdir ->
  let entry := entry_state s "meson" st in
  interp_run false opts (nested_interpreter (self entry) s subdir false)
             (shared_at_run s (shared entry)) = Raise e w' ->
  let st' := mkState (self entry) w' in
  (exc_class e = InvalidCode ->
     do_subproject s "meson" kwargs st = Raise e st')
  /\ (exc_class e <> InvalidCode -> required = true ->
      do_subproject s "meson" kwargs st = Raise e st')
  /\ (exc_class e <> InvalidCode -> required = false ->
      exists h st'',
        do_subproject s "meson" kwargs st = Return h st''
        /\ sp_found h = false
        /\ sp_exception h = Some e
        /\ subprojects (shared st'') !! s = Some h).
Proof.
  intros Hen entry Hrun st'.
  assert (Hev : evaluation s "meson" subdir opts kw' entry = Raise e st').
  { unfold evaluation. rewrite bool_decide_eq_true_2 by done.
    by apply _do_subproject_meson_raises. }
  split; [|split].
  - intros Hc. by apply InvalidCode_passes with required kw' opts subdir.
  - intros Hc ->.
    by rewrite (other_error_at_boundary _ _ _ _ _ _ _ _ _ _ Hen Hev Hc).
  - intros Hc ->.
    rewrite (other_error_at_boundary _ _ _ _ _ _ _ _ _ _ Hen Hev Hc).
    rewrite disabled_subproject_run. do 2 eexists. split; [reflexivity|].
    simpl. by rewrite lookup_insert_eq.
Qed.



End BoundaryFacts.

(** ** Static errors of a dependency lookup *)

Section StaticErrors.
Context `{Collaborators}.











End StaticErrors.

(** ** Methods that only read *)

Section ReadOnly.
Context `{Collaborators}.

Ltac reads := repeat preserves_step.

Lemma notfound_dependency_reads : preserves eq notfound_dependency.
Proof. unfold notfound_dependency. reads. Qed.

Lemma _find_cached_dep_reads n dn kw : preserves eq (_find_cached_dep n dn kw).
Proof. unfold _find_cached_dep. reads. Qed.

Lemma verify_fallback_consistency_reads s v d :
  preserves eq (verify_fallback_consistency s v d).
Proof. unfold verify_fallback_consistency. reads. Qed.

Lemma get_subproject_infos_reads l : preserves eq (get_subproject_infos l).
Proof. unfold get_subproject_infos. reads. Qed.

Lemma check_allow_fallback_reads fb af :
  preserves eq (check_allow_fallback fb af).
Proof. unfold check_allow_fallback. reads. Qed.

Lemma implicit_fallback_reads n r fb af ff :
  preserves eq (implicit_fallback n r fb af ff).
Proof. unfold implicit_fallback. reads. Qed.

Lemma static_checks_reads n r fb : preserves eq (static_checks n r fb).
Proof. unfold static_checks. reads. Qed.

(** The variable-extraction path writes nothing. *)
Lemma get_subproject_dep_reads n dn s v kw :
  preserves eq (get_subproject_dep n dn s v kw).
Proof.
  unfold get_subproject_dep. reads;
    first [ apply notfound_dependency_reads
          | apply _find_cached_dep_reads
          | apply verify_fallback_consistency_reads ].
Qed.


End ReadOnly.

(** ** Overrides *)

Section OverrideFacts.
Context `{Collaborators}.









End OverrideFacts.

(** ** The implicit cache *)

(** The steps, and the obligations of the assignments that leave the cache
    alone, for [cache_kept]. *)
Ltac cache := repeat preserves_step; try (by intros ?).

Section CacheFacts.
Context `{Collaborators}.
Variable I : PerMachine (gmap string Dependency) -> Prop.

Global Instance cache_kept_refl : Reflexive (cache_kept I).
Proof. intros st HI. exact HI. Qed.

Global Instance cache_kept_trans : Transitive (cache_kept I).
Proof. intros a b c H1 H2 Ha. by apply H2, H1. Qed.

Lemma reads_cache_kept {A} (m : Py A) :
  preserves eq m -> preserves (cache_kept I) m.
Proof. intros Hm st. rewrite <- (Hm st). reflexivity. Qed.

Lemma disabled_subproject_cache s f e :
  preserves (cache_kept I) (disabled_subproject s f e).
Proof. unfold disabled_subproject. cache. Qed.

Lemma check_subp_name_cache s : preserves (cache_kept I) (check_subp_name s).
Proof. unfold check_subp_name. cache. Qed.

Hypothesis Hnested : kept_by_nested I.

Lemma run_nested_cache tr opts subi0 :
  preserves (cache_kept I) (run_nested tr opts subi0).
Proof.
  intros st HI. unfold run_nested.
  specialize (Hnested tr opts subi0 (shared st) HI).
  by destruct (interp_run tr opts subi0 (shared st)).
Qed.

Lemma _do_subproject_meson_cache s subdir opts kw bs tr :
  preserves (cache_kept I) (_do_subproject_meson s subdir opts kw bs tr).
Proof. unfold _do_subproject_meson. cache. apply run_nested_cache. Qed.

Lemma do_subproject_cache s method kw :
  preserves (cache_kept I) (do_subproject s method kw).
Proof.
  unfold do_subproject, evaluation, boundary, _do_subproject_cmake. cache;
    first [ apply disabled_subproject_cache
          | apply check_subp_name_cache
          | apply _do_subproject_meson_cache ].
Qed.

(** The fallback path stores nothing of its own in the implicit cache. *)
Lemma dependency_fallback_cache n dn fb kw :
  preserves (cache_kept I) (dependency_fallback n dn fb kw).
Proof.
  unfold dependency_fallback. cache;
    first [ apply reads_cache_kept, get_subproject_infos_reads
          | apply do_subproject_cache
          | apply reads_cache_kept, get_subproject_dep_reads
          | apply reads_cache_kept, notfound_dependency_reads ].
Qed.

Hypothesis Hprobe : kept_by_probe I.

Lemma resolve_cache n dn r kw fb ff :
  preserves (cache_kept I) (resolve n dn r kw fb ff).
Proof.
  unfold resolve. cache;
    first [ apply reads_cache_kept, _find_cached_dep_reads
          | apply reads_cache_kept, get_subproject_infos_reads
          | apply reads_cache_kept, verify_fallback_consistency_reads
          | apply reads_cache_kept, get_subproject_dep_reads
          | apply reads_cache_kept, notfound_dependency_reads
          | apply dependency_fallback_cache
          | idtac ].
  intros HI. simpl. by eapply Hprobe.
Qed.

Lemma dependency_impl_cache n dn kw ff :
  preserves (cache_kept I) (dependency_impl n dn kw ff).
Proof.
  unfold dependency_impl, dependency_lookup. cache;
    first [ apply reads_cache_kept, notfound_dependency_reads
          | apply reads_cache_kept, check_allow_fallback_reads
          | apply reads_cache_kept, implicit_fallback_reads
          | apply reads_cache_kept, static_checks_reads
          | apply resolve_cache ].
Qed.

Lemma func_dependency_cache n kw :
  preserves (cache_kept I) (func_dependency n kw).
Proof.
  unfold func_dependency. cache;
    first [ apply dependency_impl_cache
          | unfold cache_kept, on_shared; simpl; by destruct (_ !! _) ].
Qed.

End CacheFacts.

Section CacheTheorem.
Context `{Collaborators}.

Lemma pm_get_set_eq {A} (pm : PerMachine A) m a :
  pm_get (pm_set pm m a) m = a.
Proof. by destruct m. Qed.

Lemma pm_get_set_ne {A} (pm : PerMachine A) m m' a :
  m <> m' -> pm_get (pm_set pm m a) m' = pm_get pm m'.
Proof. by destruct m, m'. Qed.

Lemma all_from_probe_kept_by_probe : kept_by_probe all_from_probe.
Proof.
  intros deps m id name kw hist dep Hall Hfind Hfound m' id' d Hlook.
  destruct (decide (m = m')) as [<-|Hm].
  - rewrite pm_get_set_eq in Hlook.
    destruct (decide (id = id')) as [<-|Hne].
    + rewrite lookup_insert_eq in Hlook. injection Hlook as <-.
      split; [done|]. by eauto.
    + rewrite lookup_insert_ne in Hlook by done. by eapply Hall.
  - rewrite pm_get_set_ne in Hlook by done. by eapply Hall.
Qed.

Lemma get_subproject_infos_fallback subp var st :
  get_subproject_infos (subp :: option_list var) st = Return (subp, var) st.
Proof. by destruct var. Qed.

(** A lookup with a fallback, up to the call of [_find_cached_dep]. *)
Lemma dependency_lookup_fallback name dn required kwargs ff st subp var :
  has_fallback name kwargs subp var ->
  name <> EmptyString ->
  PyStr.contains_char "<" name || PyStr.contains_char ">" name
  || PyStr.contains_char "=" name = false ->
  (kw_fallback kwargs = None ->
   bool_decide (kw_allow_fallback kwargs = Some (PyBool true)) || required
   || bool_decide (is_Some (get_subproject (shared st) subp))
   || fallback_forced name subp ff = true) ->
  exists force,
    force || str_in subp force_fallback_for = fallback_forced name subp ff
    /\ dependency_lookup name dn required kwargs ff st
       = resolve name dn required kwargs (Some (subp :: option_list var))
                 force st.
Proof.
  intros [[Hfb Haf]|(Hfb & Haf & Hprov)] Hne Hchars Huse.
  - eexists. split; [reflexivity|].
    unfold dependency_lookup. rewrite Haf, Hfb.
    unfold check_allow_fallback. unfold bind at 1, ret at 1.
    unfold implicit_fallback.
    rewrite (bool_decide_eq_false_2 (Some _ = None)) by done.
    rewrite andb_false_r. simpl.
    unfold bind at 1, ret at 1.
    unfold static_checks. rewrite bool_decide_eq_false_2 by done. simpl.
    rewrite Hchars. unfold bind at 1. unfold bind at 1, ret at 1. by simpl.
  - exists (ff || (bool_decide (wrap_mode = wm_forcefallback)
                   || str_in name force_fallback_for)
            || str_in subp force_fallback_for).
    split.
    { unfold fallback_forced. by rewrite <- orb_assoc, orb_diag. }
    specialize (Huse Hfb). unfold fallback_forced in Huse.
    unfold dependency_lookup. rewrite Hfb.
    assert (Hcheck : check_allow_fallback None (kw_allow_fallback kwargs) st
                     = Return tt st)
      by by destruct Haf as [-> | ->].
    rewrite (bind_Return _ _ _ _ _ Hcheck).
    assert (Himplicit :
      implicit_fallback name required None (kw_allow_fallback kwargs)
        (ff || (bool_decide (wrap_mode = wm_forcefallback)
                || str_in name force_fallback_for)) st
      = Return (Some (subp :: option_list var),
                ff || (bool_decide (wrap_mode = wm_forcefallback)
                       || str_in name force_fallback_for)
                || str_in subp force_fallback_for) st).
    { unfold implicit_fallback.
      rewrite (bool_decide_eq_false_2 (name = EmptyString)) by done.
      rewrite (bool_decide_eq_true_2 (None = None)) by done.
      rewrite (bool_decide_eq_false_2
                 (kw_allow_fallback kwargs = Some (PyBool false)))
        by (by destruct Haf as [-> | ->]).
      rewrite Hprov. simpl.
      unfold bind at 1. unfold ret at 1.
      unfold bind at 1. unfold get at 1.
      by rewrite Huse. }
    rewrite (bind_Return _ _ _ _ _ Himplicit).
    unfold static_checks. rewrite bool_decide_eq_false_2 by done. simpl.
    rewrite Hchars. unfold bind at 1. unfold bind at 1, ret at 1. by simpl.
Qed.

(** With the lookup missing both tables and the subproject of the fallback
    already configured, the rest of the lookup is the variable-extraction
    path. *)
Lemma resolve_configured name dn required kwargs force st subp var id h :
  _find_cached_dep name dn kwargs st = Return (id, None) st ->
  get_subproject (shared st) subp = Some h ->
  resolve name dn required kwargs (Some (subp :: option_list var)) force st
  = bind (get_subproject_dep name dn subp var kwargs)
         (fun d => ret (d, kwargs)) st.
Proof.
  intros Hfind Hsub.
  unfold resolve. rewrite (bind_Return _ _ _ _ _ Hfind). cbv beta iota.
  change (truthy_list (Some (subp :: option_list var))) with true.
  change (default [] (Some (subp :: option_list var)))
    with (subp :: option_list var).
  cbv beta iota.
  unfold bind at 1. unfold bind at 1.
  rewrite get_subproject_infos_fallback.
  unfold bind at 1, get at 1. rewrite Hsub.
  rewrite bool_decide_eq_true_2 by by eexists.
  pose proof (get_subproject_dep_reads name dn subp var kwargs st) as Hst.
  unfold bind.
  destruct (get_subproject_dep name dn subp var kwargs st) as [d st'|e st'];
    simpl in Hst; by subst.
Qed.

(** With the subproject of the fallback not yet configured: a forced
    fallback is taken at once; otherwise the system is probed first, and
    the fallback is taken when the probe finds nothing. *)
Lemma resolve_unconfigured name dn required kwargs force st subp var id :
  name <> EmptyString ->
  _find_cached_dep name dn kwargs st = Return (id, None) st ->
  get_subproject (shared st) subp = None ->
  let fb := subp :: option_list var in
  (force || str_in subp force_fallback_for = true ->
   resolve name dn required kwargs (Some fb) force st
   = bind (dependency_fallback name dn fb kwargs)
          (fun d => ret (d, kwargs)) st)
  /\ (force || str_in subp force_fallback_for = false ->
      forall dep,
        let st1 := on_shared (record_call (CallProbe name)) st in
        find_external_dependency name (set_required kwargs false)
                                 (calls (shared st1)) = inr dep ->
        dep_found dep = false ->
        let kwargs' := set_required kwargs required in
        resolve name dn required kwargs (Some fb) force st
        = bind (dependency_fallback name dn fb kwargs')
               (fun d => ret (d, kwargs')) st1).
Proof.
  intros Hne Hfind Hsub fb.
  assert (Hstart :
    forall k : DependencyHolder + bool -> Py (DependencyHolder * Kwargs),
    bind (if truthy_list (Some fb) then
            sv <- get_subproject_infos (default [] (Some fb)) ;;
            let '(subp_name, varname) := sv in
            st <- get ;;
            if bool_decide (is_Some (get_subproject (shared st) subp_name))
            then
              d <- get_subproject_dep name dn subp_name varname kwargs ;;
              ret (inl d)
            else
              ret (inr (force || str_in subp_name force_fallback_for))
          else ret (inr force)) k st
    = k (inr (force || str_in subp force_fallback_for)) st).
  { intros k.
    change (truthy_list (Some fb)) with true.
    change (default [] (Some fb)) with (subp :: option_list var).
    cbv beta iota.
    unfold bind at 1. unfold bind at 1.
    rewrite get_subproject_infos_fallback.
    unfold bind at 1, get at 1. rewrite Hsub.
    by rewrite bool_decide_eq_false_2 by by intros [? ?]. }
  unfold resolve. rewrite (bind_Return _ _ _ _ _ Hfind).
  cbv beta iota. rewrite Hstart. clear Hstart.
  rewrite (bool_decide_eq_false_2 (name = EmptyString)) by done.
  split.
  - intros ->.
    change (truthy_list (Some fb)) with true.
    change (negb false && (negb true || negb true)) with false.
    cbv beta iota. unfold bind at 1, ret at 1. reflexivity.
  - intros -> dep Hprobe Hnf.
    change (truthy_list (Some fb)) with true.
    change (negb false && (negb true || negb false)) with true.
    change (negb true) with false. rewrite andb_false_r.
    cbv beta iota.
    unfold bind at 1. unfold bind at 1. unfold bind at 1.
    unfold modify at 1. unfold bind at 1. unfold get at 1.
    unfold bind at 1. unfold lift_result at 1.
    rewrite Hprobe, Hnf. unfold ret at 1. reflexivity.
Qed.

(** C4.  For every property [I] of the implicit cache that the evaluation
    of a nested project keeps: the variable-extraction path changes no
    state at all, and the fallback path ([dependency_fallback], which
    enters the subproject) keeps [I]: neither stores anything of its own
    in the cache.  The only write is the one of [dependency_impl], of a
    found answer of the external probe: if [I] is kept by such writes, every
    lookup keeps it, in particular the property that every cache entry is a
    found answer of the probe.  And a lookup with a fallback, given by
    keyword or implicit, that misses the override table and the cache goes
    through the subproject: with the subproject already configured it is
    the variable-extraction path run again; with the subproject not yet
    configured it is the fallback path, at once when the fallback is
    forced, and otherwise after a probe of the system that finds nothing. *)
Theorem fallback_never_cached
    (I : PerMachine (gmap string Dependency) -> Prop) :
  kept_by_nested I ->
  (forall name dn subp var kw st,
      outcome_state (get_subproject_dep name dn subp var kw st) = st)
  /\ (forall name dn fb kw,
         preserves (cache_kept I) (dependency_fallback name dn fb kw))
  /\ (kept_by_probe I ->
      forall name dn kw ff,
        preserves (cache_kept I) (dependency_impl name dn kw ff)
        /\ preserves (cache_kept I) (func_dependency name kw))
  /\ (kept_by_nested all_from_probe ->
      forall name kw,
        preserves (cache_kept all_from_probe) (func_dependency name kw))
  /\ (forall name dn required kwargs ff st subp var id h,
         has_fallback name kwargs subp var ->
         name <> EmptyString ->
         PyStr.contains_char "<" name || PyStr.contains_char ">" name
         || PyStr.contains_char "=" name = false ->
         _find_cached_dep name dn kwargs st = Return (id, None) st ->
         get_subproject (shared st) subp = Some h ->
         dependency_lookup name dn required kwargs ff st
         = bind (get_subproject_dep name dn subp var kwargs)
                (fun d => ret (d, kwargs)) st)
  /\ (forall name dn required kwargs ff st subp var id,
         has_fallback name kwargs subp var ->
         name <> EmptyString ->
         PyStr.contains_char "<" name || PyStr.contains_char ">" name
         || PyStr.contains_char "=" name = false ->
         _find_cached_dep name dn kwargs st = Return (id, None) st ->
         get_subproject (shared st) subp = None ->
         let fb := subp :: option_list var in
         (fallback_forced name subp ff = true ->
          dependency_lookup name dn required kwargs ff st
          = bind (dependency_fallback name dn fb kwargs)
                 (fun d => ret (d, kwargs)) st)
         /\ (fallback_forced name subp ff = false ->
             (kw_fallback kwargs = None ->
              kw_allow_fallback kwargs = Some (PyBool true)
              \/ required = true) ->
             forall dep,
               let st1 := on_shared (record_call (CallProbe name)) st in
               find_external_dependency name (set_required kwargs false)
                                        (calls (shared st1)) = inr dep ->
               dep_found dep = false ->
               let kwargs' := set_required kwargs required in
               dependency_lookup name dn required kwargs ff st
               = bind (dependency_fallback name dn fb kwargs')
                      (fun d => ret (d, kwargs')) st1)).
Proof.
  intros Hnested. split_and!.
  - intros. symmetry. apply get_subproject_dep_reads.
  - intros. by apply dependency_fallback_cache.
  - intros Hprobe name dn kw ff. split.
    + by apply dependency_impl_cache.
    + by apply func_dependency_cache.
  - intros Hn name kw. apply func_dependency_cache; [done|].
    apply all_from_probe_kept_by_probe.
  - intros name dn required kwargs ff st subp var id h Hfb Hne Hchars Hfind
      Hsub.
    destruct (dependency_lookup_fallback name dn required kwargs ff st subp
                var Hfb Hne Hchars) as (force & _ & ->).
    { intros _. rewrite Hsub.
      rewrite (bool_decide_eq_true_2 (is_Some (Some h))) by by eexists.
      by rewrite orb_true_r. }
    by apply resolve_configured with id h.
  - intros name dn required kwargs ff st subp var id Hfb Hne Hchars Hfind
      Hsub fb.
    split.
    + intros Hforced.
      destruct (dependency_lookup_fallback name dn required kwargs ff st subp
                  var Hfb Hne Hchars) as (force & Hforce & ->).
      { intros _. rewrite Hforced. by rewrite orb_true_r. }
      destruct (resolve_unconfigured name dn required kwargs force st subp
                  var id Hne Hfind Hsub) as [Hres _].
      apply Hres. by rewrite Hforce.
    + intros Hforced Huse dep st1 Hprobe Hnf kwargs'.
      destruct (dependency_lookup_fallback name dn required kwargs ff st subp
                  var Hfb Hne Hchars) as (force & Hforce & ->).
      { intros Hnone. destruct (Huse Hnone) as [-> | ->].
        - by rewrite bool_decide_eq_true_2.
        - by rewrite orb_true_r. }
      destruct (resolve_unconfigured name dn required kwargs force st subp
                  var id Hne Hfind Hsub) as [_ Hres].
      exact (Hres (eq_trans Hforce Hforced) dep Hprobe Hnf).
Qed.

End CacheTheorem.

(** ** The implicit cache along a run *)

Section CacheStatements.
Context `{Collaborators}.
Variable I : PerMachine (gmap string Dependency) -> Prop.
Hypothesis Hnested : kept_by_nested I.
Hypothesis Hprobe : kept_by_probe I.

Lemma add_target_cache name tobj :
  preserves (cache_kept I) (add_target name tobj).
Proof.
  unfold add_target. cache.
  unfold cache_kept, on_shared. simpl. by case_bool_decide.
Qed.

Lemma source_strings_to_files_cache l :
  preserves (cache_kept I) (source_strings_to_files l).
Proof. induction l as [|x l IH]; simpl; cache; apply IH. Qed.

Lemma exec_stmt_cache s : preserves (cache_kept I) (exec_stmt s).
Proof.
  destruct s; simpl;
    unfold func_subproject, func_add_global_arguments,
      func_add_project_arguments, build_target, func_alias_target,
      add_global_arguments, add_project_arguments;
    cache;
    first [ by apply do_subproject_cache
          | by apply func_dependency_cache
          | apply source_strings_to_files_cache
          | apply add_target_cache ].
Qed.

Lemma exec_stmts_cache l : preserves (cache_kept I) (exec_stmts l).
Proof.
  induction l as [|s l IH]; simpl; cache;
    first [ apply exec_stmt_cache | apply IH ].
Qed.

End CacheStatements.

(** In the sample world, whatever the projects and the system are, the
    evaluation of a nested project keeps every entry of the implicit cache a
    found answer of the probe. *)
Lemma sample_world_cache descr system fuel :
  @kept_by_nested (Sample.world descr system fuel)
    (@all_from_probe (Sample.world descr system fuel)).
Proof.
  assert (Hsame : forall n,
    @all_from_probe (Sample.world descr system n)
    = @all_from_probe (Sample.world descr system 0)).
  { intros n. by destruct n. }
  induction fuel as [|n IH].
  - intros tr opts subi w HI. exact HI.
  - intros tr opts subi w HI. rewrite Hsame in HI |- *. simpl.
    pose proof (@exec_stmts_cache (Sample.world descr system n)
                  (@all_from_probe (Sample.world descr system n)) IH
                  (@all_from_probe_kept_by_probe (Sample.world descr system n))
                  (default [] (descr (subproject subi))) (mkState subi w))
      as Hrun.
    unfold cache_kept in Hrun. rewrite Hsame in Hrun. simpl in Hrun.
    specialize (Hrun HI).
    by destruct (exec_stmts _ _).
Qed.

(** Variables that the projects define change nothing of this. *)
Lemma providing_cache provides wraps C I :
  @kept_by_nested C I ->
  @kept_by_nested (Sample.providing provides wraps C) I.
Proof.
  intros Hn tr opts subi w HI. specialize (Hn tr opts subi w HI). simpl.
  by destruct (interp_run tr opts subi w).
Qed.

(* ===================================================================== *)
(** * The sample run *)
(* ===================================================================== *)

Section SampleRun.
Import Sample.




(** C5, counterexample.  The evaluation of [dup] raises because a target
    name is taken twice; this is not a cycle error, the call is optional,
    and [do_subproject] raises. *)
Lemma optional_subproject_with_invalid_code_raises :
  returned dup_optional = None
  /\ raised dup_optional
     = Some (mkExc InvalidCode
               ("Tried to create target " +:+ dquote +:+ "prog" +:+ dquote
                +:+ ", but a target of that name already exists.")).
Proof. vm_compute. repeat split. Qed.

(** C8, counterexample.  The main project enters [zlib], declares the alias
    target [libs] and then calls [add_project_arguments]: the call
    succeeds, with the static library and the alias in the registry. *)
Lemma project_arguments_after_alias_target :
  alias_then_arguments = Return tt (outcome_state alias_then_arguments)
  /\ is_Some (targets (build (self (outcome_state alias_then_arguments)))
                !! "libs@alias")
  /\ is_Some (targets (build (self (outcome_state alias_then_arguments)))
                !! "z@sta")
  /\ project_args_frozen (self (outcome_state alias_then_arguments)) = false
  /\ (pm_host (projects_args
                 (build (self (outcome_state alias_then_arguments))))
        !! EmptyString) ≫= (fun args => args !! "c")
     = Some ["-DFOO"].
Proof. vm_compute. repeat split; by eexists. Qed.


(** The hypotheses of the theorems above, at the sample run. *)

Lemma add_target_registry_witness :
  (exists e, @add_target W "  " exe_prog initial = Raise e initial)
  /\ (exists e, @add_target W "prog" exe_prog prog_registered
                = Raise e prog_registered
                /\ exc_class e = InvalidCode)
  /\ (exists st2,
         @add_target W "prog" lib_prog prog_registered = Return tt st2
         /\ targets (build (self st2)) !! get_id exe_prog = Some exe_prog
         /\ targets (build (self st2)) !! get_id lib_prog = Some lib_prog).
Proof.
  destruct (@add_target_registry W) as (H1 & _ & _ & H2 & H3). split_and!.
  - apply H1. right. left. reflexivity.
  - apply (H2 "prog" exe_prog exe_prog initial); reflexivity.
  - apply (H3 "prog" exe_prog lib_prog initial); reflexivity.
Defined.

Lemma validate_within_subproject_sandbox_witness :
  os_path_isabs (root_subdir foo_interp) = false
  /\ os_path_isabs (subproject_dir foo_interp) = false
  /\ @validate_within_subproject W foo_interp "subprojects/foo"
       "../../../opt/sdk/file.c" = inr tt
  /\ (exists e,
         @validate_within_subproject W foo_interp "subprojects/foo"
           "../bar/file.c" = inl e
         /\ sandbox_violation e)
  /\ (exists e,
         @validate_within_subproject W foo_interp "subprojects/foo"
           "subprojects/x/b.c" = inl e
         /\ sandbox_violation e).
Proof.
  split; [reflexivity|]. split; [reflexivity|]. split_and!.
  - destruct (@validate_within_subproject_sandbox W foo_interp
                "subprojects/foo" "../../../opt/sdk/file.c"
                eq_refl eq_refl) as (Hout & _ & _).
    apply Hout. intros [_ (k & _ & Heq)]. vm_compute in Heq. discriminate.
  - destruct (@validate_within_subproject_sandbox W foo_interp
                "subprojects/foo" "../bar/file.c"
                eq_refl eq_refl) as (_ & Hin & _).
    apply Hin.
    + split; [reflexivity|].
      exists ["subprojects"; "bar"; "file.c"]. split; [discriminate|reflexivity].
    + intros Heq. vm_compute in Heq. discriminate.
    + intros [_ (k & _ & Heq)]. vm_compute in Heq. discriminate.
  - destruct (@validate_within_subproject_sandbox W foo_interp
                "subprojects/foo" "subprojects/x/b.c"
                eq_refl eq_refl) as (_ & _ & Hnested).
    apply Hnested. split; [reflexivity|].
    exists ["x"; "b.c"]. split; [discriminate|reflexivity].
Defined.

Lemma zlib_enters :
  @enters_subproject W "zlib" "meson" (required_kw true) initial true
    (required_kw true) ∅ "subprojects/zlib".
Proof.
  split_and!; try reflexivity; try done.
  - split; [by exists None | reflexivity].
  - apply not_elem_of_nil.
Defined.

Lemma arguments_frozen_witness :
  (exists e st3,
      add_project_arguments "add_project_arguments" CompileArgs HOST
        ["-DFOO"] (language_kw "c") prog_built = Raise e st3
      /\ exc_class e = InvalidCode)
  /\ (exists e st3,
         add_global_arguments "add_global_arguments" CompileArgs HOST
           ["-DFOO"] (language_kw "c") (outcome_state zlib_first)
         = Raise e st3
         /\ exc_class e = InvalidCode).
Proof.
  destruct (@arguments_frozen W) as (H1 & H2 & _). split.
  - refine (proj1 (H1 [SrcString "prog"] no_kwargs Executable initial
                      exe_prog prog_built [] prog_built _ _ _ _ _
                      eq_refl eq_refl)).
  - exact (H2 "zlib" "meson" (required_kw true) initial true
              (required_kw true) ∅ "subprojects/zlib" []
              (outcome_state zlib_first) _ _ _ _ _ zlib_enters eq_refl).
Defined.


Lemma broken_enters :
  @enters_subproject W "broken" "meson" (required_kw false) initial false
    (required_kw false) ∅ "subprojects/broken".
Proof.
  split_and!; try reflexivity; try done.
  - split; [by exists None | reflexivity].
  - apply not_elem_of_nil.
Defined.

Lemma nested_failure_at_boundary_witness :
  exists h st'',
    @do_subproject W "broken" "meson" (required_kw false) initial
    = Return h st''
    /\ sp_found h = false
    /\ sp_exception h = Some nonexistent_error
    /\ subprojects (shared st'') !! "broken" = Some h.
Proof.
  pose proof (@nested_failure_at_boundary W "broken" (required_kw false)
                initial false (required_kw false) ∅ "subprojects/broken"
                nonexistent_error broken_shared broken_enters) as Hthm.
  cbv zeta in Hthm.
  destruct (Hthm eq_refl) as (_ & _ & Hopt).
  apply Hopt; [discriminate|reflexivity].
Defined.





Lemma fallback_never_cached_witness :
  @kept_by_nested WP (@all_from_probe WP)
  /\ (fst <$> returned zlib_lookup) = Some zlib_dep
  /\ calls (shared (outcome_state zlib_lookup))
     = [CallProbe "zlib"; CallWrapResolve "zlib" "meson"; CallRun "zlib"]
  /\ coredata_deps (shared (outcome_state zlib_lookup)) = mkPerMachine ∅ ∅
  /\ @all_from_probe WP (coredata_deps (shared (outcome_state zlib_lookup)))
  /\ @dependency_lookup WP "zlib" "zlib" true (set_required no_kwargs true)
                        false (outcome_state zlib_lookup)
     = Return (zlib_dep, set_required no_kwargs true)
              (outcome_state zlib_lookup).
Proof.
  assert (Hn : @kept_by_nested WP (@all_from_probe WP))
    by apply providing_cache, sample_world_cache.
  destruct (@fallback_never_cached WP (@all_from_probe WP) Hn)
    as (_ & _ & Himpl & _ & Hagain & _).
  split_and!; [exact Hn|reflexivity|reflexivity|reflexivity| |].
  - destruct (Himpl (@all_from_probe_kept_by_probe WP) "zlib" "zlib"
                (fallback_kw ["zlib"; "zlib_dep"]) false) as [Hkept _].
    apply (Hkept initial).
    intros m id d Hl. destruct m; vm_compute in Hl; discriminate.
  - destruct (get_subproject (shared (outcome_state zlib_lookup)) "zlib")
      as [h|] eqn:Hh; [|vm_compute in Hh; discriminate].
    rewrite (Hagain "zlib" "zlib" true (set_required no_kwargs true) false
               (outcome_state zlib_lookup) "zlib" (Some "zlib_dep") "zlib" h).
    + vm_compute. reflexivity.
    + right. split_and!; [reflexivity|by left|reflexivity].
    + discriminate.
    + reflexivity.
    + vm_compute. reflexivity.
    + exact Hh.
Defined.

End SampleRun.

(* ===================================================================== *)
(** * Properties of the rest of the interpreter *)
(* ===================================================================== *)

(** ** Python helpers *)

Lemma str_length_app (a b : string) :
  String.length (a +:+ b) = String.length a + String.length b.
Proof. induction a as [|c a IH]; simpl; [done|]. by rewrite IH. Qed.

Lemma spaces_length n : String.length (PyLib.spaces n) = n.
Proof. induction n as [|n IH]; simpl; [done|]. by rewrite IH. Qed.

Lemma od_get_set_eq {V} (d : list (string * V)) k v :
  PyLib.od_get (PyLib.od_set d k v) k = Some v.
Proof.
  induction d as [|[k' v'] d IH]; simpl.
  - by rewrite bool_decide_eq_true_2.
  - case_bool_decide; simpl.
    + by rewrite bool_decide_eq_true_2.
    + by rewrite bool_decide_eq_false_2.
Qed.

Lemma od_get_set_ne {V} (d : list (string * V)) k k' v :
  k <> k' -> PyLib.od_get (PyLib.od_set d k v) k' = PyLib.od_get d k'.
Proof.
  intros Hne. induction d as [|[k1 v1] d IH]; simpl.
  - by rewrite bool_decide_eq_false_2.
  - case_bool_decide; simpl; subst.
    + by rewrite !bool_decide_eq_false_2.
    + by rewrite IH.
Qed.

Lemma od_set_elem_of {V} (d : list (string * V)) k v p :
  p ∈ PyLib.od_set d k v -> p = (k, v) \/ p ∈ d.
Proof.
  induction d as [|[k1 v1] d IH]; simpl.
  - intros ->%list_elem_of_singleton. by left.
  - case_bool_decide.
    + intros [->|Hin]%elem_of_cons; [by left|]. right. by right.
    + intros [->|Hin]%elem_of_cons; [right; by left|].
      destruct (IH Hin) as [->|Hd]; [by left|]. right. by right.
Qed.

Lemma od_get_elem_of {V} (d : list (string * V)) k v :
  PyLib.od_get d k = Some v -> (k, v) ∈ d.
Proof.
  induction d as [|[k1 v1] d IH]; simpl; [done|].
  case_bool_decide; subst.
  - intros [= ->]. by left.
  - intros Hg. right. by apply IH.
Qed.

Lemma collect_inr {A} (l : list (Exc + A)) r :
  PyLib.collect l = inr r <-> l = inr <$> r.
Proof.
  revert r. induction l as [|[e|a] l IH]; intros r; simpl.
  - split; [intros [= <-]; done|]. by destruct r.
  - split; [done|]. by destruct r.
  - destruct (PyLib.collect l) as [e|r'] eqn:Hc.
    + split; [done|]. destruct r as [|a' r]; [done|].
      intros [= -> Hl]. by apply IH in Hl.
    + split.
      * intros [= <-]. simpl. f_equal. by apply IH.
      * destruct r as [|a' r]; [done|]. intros [= -> Hl].
        apply IH in Hl. by simplify_eq.
Qed.

Lemma collect_inl {A} (l : list (Exc + A)) e :
  PyLib.collect l = inl e -> inl e ∈ l.
Proof.
  induction l as [|[e'|a] l IH]; simpl; [done|..].
  - intros [= ->]. by left.
  - destruct (PyLib.collect l); [|done]. intros [= ->]. right. by apply IH.
Qed.

(** ** [stringifyUserArguments] *)

Lemma PyArg_nested_ind (P : PyArg -> Prop) :
  (forall s, P (AStr s)) ->
  (forall n, P (AInt n)) ->
  (forall b, P (ABool b)) ->
  (forall l, Forall P l -> P (AList l)) ->
  (forall d, Forall (fun kv => P (snd kv)) d -> P (ADict d)) ->
  (forall tag, P (AObject tag)) ->
  forall a, P a.
Proof.
  intros HS HI HB HL HD HO. fix IH 1.
  intros [s|n|b|l|d|tag];
    [apply HS|apply HI|apply HB|apply HL|apply HD|apply HO].
  - induction l as [|a l IHl]; constructor; [apply IH|exact IHl].
  - induction d as [|[k a] d IHd]; constructor; [apply IH|exact IHd].
Qed.

Lemma stringify_outcome a :
  forall quote,
    if supported a then exists s, stringifyUserArguments a quote = inr s
    else stringifyUserArguments a quote = inl unsupported_argument.
Proof.
  induction a as [s|n|b|l IH|d IH|tag] using PyArg_nested_ind;
    intros quote; simpl; try by eexists.
  - induction IH as [|a l Ha _ IHl]; simpl; [by eexists|].
    specialize (Ha true). destruct (supported a); simpl.
    + destruct Ha as [s ->]. simpl.
      destruct (forallb supported l).
      * destruct IHl as [s' Hs'].
        destruct (PyLib.collect _) as [|items]; [done|]. by eexists.
      * by destruct (PyLib.collect _).
    + by rewrite Ha.
  - induction IH as [|[k a] d Ha _ IHd]; simpl; [by eexists|].
    simpl in Ha. specialize (Ha true). destruct (supported a); simpl.
    + destruct Ha as [s ->]. simpl.
      destruct (forallb _ d).
      * destruct IHd as [s' Hs'].
        destruct (PyLib.collect _) as [|items]; [done|]. by eexists.
      * by destruct (PyLib.collect _).
    + by rewrite Ha.
Qed.

(** X1.  [stringifyUserArguments] accepts exactly the values built from
    strings, integers, booleans, lists and dictionaries, and raises
    [InvalidArguments] on every other one; the flag [quote] only matters
    for a string at the top, which is returned as it is without the flag. *)
Theorem stringifyUserArguments_accepts :
  (forall a quote,
      (exists s, stringifyUserArguments a quote = inr s) <-> supported a = true)
  /\ (forall a quote e,
         stringifyUserArguments a quote = inl e ->
         exc_class e = InvalidArguments)
  /\ (forall a,
         (forall s, a <> AStr s) ->
         stringifyUserArguments a true = stringifyUserArguments a false)
  /\ (forall s, stringifyUserArguments (AStr s) false = inr s).
Proof.
  split_and!.
  - intros a quote. pose proof (stringify_outcome a quote) as Ho.
    destruct (supported a); [done|]. rewrite Ho. split; [by intros [? ?]|done].
  - intros a quote e He. pose proof (stringify_outcome a quote) as Ho.
    destruct (supported a); [destruct Ho as [s Hs]; congruence|].
    rewrite Ho in He. by simplify_eq.
  - intros [s|n|b|l|d|tag] Hne; try done. by destruct (Hne s).
  - done.
Qed.

(** X2.  [error()] raises [InterpreterException] with the message
    [Problem encountered: ] followed by the texts of its arguments joined by
    spaces, the text of an argument being what [stringifyUserArguments]
    makes of it without quotes around a string: every argument that the
    function supports has such a text, and a string is its own.  With an
    argument that it does not support, [error()] raises the
    [InvalidArguments] of that function instead. *)
Theorem func_error_message :
  (forall args texts,
      Forall2 (fun a t => stringifyUserArguments a false = inr t) args texts ->
      func_error args
      = mkExc InterpreterException
          ("Problem encountered: " +:+ PyStr.join " " texts))
  /\ (forall args,
         forallb supported args = true ->
         exists texts,
           Forall2 (fun a t => stringifyUserArguments a false = inr t)
                   args texts)
  /\ (forall strs,
         Forall2 (fun a t => stringifyUserArguments a false = inr t)
                 (AStr <$> strs) strs)
  /\ (forall args,
         forallb supported args = false ->
         func_error args = unsupported_argument).
Proof.
  split_and!.
  - intros args texts Ht. unfold func_error.
    replace (PyLib.collect _) with (inr (A := Exc) texts); [done|].
    symmetry. apply collect_inr.
    induction Ht as [|a t args texts Ha _ IH]; simpl; [done|].
    by rewrite Ha, IH.
  - intros args Hs.
    induction args as [|a args IH]; simpl; [by exists []|].
    apply andb_prop in Hs as [Ha Hs].
    pose proof (stringify_outcome a false) as Ho. rewrite Ha in Ho.
    destruct Ho as [t Ht]. destruct (IH Hs) as [texts Htexts].
    exists (t :: texts). by constructor.
  - intros strs. induction strs as [|v strs IH]; csimpl; by constructor.
  - intros args Hs. unfold func_error.
    induction args as [|a args IH]; simpl; [done|]. simpl in Hs.
    pose proof (stringify_outcome a false) as Ho.
    destruct (supported a); simpl in Hs.
    + destruct Ho as [t ->]. specialize (IH Hs).
      by destruct (PyLib.collect _).
    + by rewrite Ho.
Qed.

(** ** The class [Summary] *)

Lemma summary_entry_touch s section sec k :
  summary_entry (touch_section section s) sec k = summary_entry s sec k.
Proof.
  unfold touch_section, summary_entry.
  destruct (PyLib.od_get (sections s) section) eqn:Hs; [done|]. simpl.
  destruct (decide (section = sec)) as [->|Hne].
  - by rewrite od_get_set_eq, Hs.
  - by rewrite od_get_set_ne.
Qed.

(** Storing the entry of a key that has none. *)
Lemma summary_entry_store s section k e sec k' :
  summary_entry
    (set_sections
       (PyLib.od_set (sections s) section
          (PyLib.od_set (default [] (PyLib.od_get (sections s) section)) k e))
       s) sec k'
  = if bool_decide (sec = section /\ k' = k) then Some e
    else summary_entry s sec k'.
Proof.
  unfold summary_entry. simpl.
  destruct (decide (section = sec)) as [->|Hne].
  - rewrite od_get_set_eq.
    destruct (decide (k = k')) as [->|Hk].
    + rewrite od_get_set_eq. by rewrite bool_decide_eq_true_2.
    + rewrite od_get_set_ne by done.
      rewrite bool_decide_eq_false_2 by (intros [_ ?]; congruence).
      by destruct (PyLib.od_get (sections s) sec).
  - rewrite od_get_set_ne by done.
    by rewrite bool_decide_eq_false_2 by (intros [? _]; congruence).
Qed.

(** One round of the loop of [add_section]. *)
Lemma add_values_cons section bool_yn list_sep k v values s :
  add_values section bool_yn list_sep ((k, v) :: values) s
  = let s1 := touch_section section s in
    if bool_decide (is_Some (summary_entry s section k)) then
      Raise (mkExc InterpreterException
               ("Summary section " +:+ PyLib.repr section
                +:+ " already have key " +:+ PyLib.repr k)) s1
    else
      match format_items bool_yn v with
      | None =>
          Raise (mkExc InterpreterException
                   ("Summary value in section " +:+ PyLib.repr section
                    +:+ ", key " +:+ PyLib.repr k
                    +:+ ", must be string, integer, boolean, "
                    +:+ "dependency or external program")) s1
      | Some fs =>
          add_values section bool_yn list_sep values
            (set_max_key_len (Nat.max (max_key_len s1) (String.length k))
               (set_sections
                  (PyLib.od_set (sections s1) section
                     (PyLib.od_set
                        (default [] (PyLib.od_get (sections s1) section))
                        k (fs, list_sep))) s1))
      end.
Proof.
  simpl. unfold bind, modify, get, raise, ret.
  rewrite summary_entry_touch.
  case_bool_decide; [done|]. by destruct (format_items bool_yn v).
Qed.

Lemma add_values_spec section bool_yn list_sep values s :
  let o := add_values section bool_yn list_sep values s in
  (forall sec k e,
      summary_entry s sec k = Some e ->
      summary_entry (outcome_state o) sec k = Some e)
  /\ (forall e, raised o = Some e -> exc_class e = InterpreterException)
  /\ (raised o = None ->
      forall k v,
        (k, v) ∈ values ->
        summary_entry s section k = None
        /\ exists fs,
             format_items bool_yn v = Some fs
             /\ summary_entry (outcome_state o) section k = Some (fs, list_sep)).
Proof.
  revert s. induction values as [|[k v] values IH]; intros s.
  { simpl. split_and!; [done|done|].
    intros _ k v Hin. by apply elem_of_nil in Hin. }
  rewrite add_values_cons. cbv zeta.
  case_bool_decide as Hk.
  { simpl. split_and!; [|by intros e [= <-]|done].
    intros sec k' e He. by rewrite summary_entry_touch. }
  destruct (format_items bool_yn v) as [fs|] eqn:Hf.
  2: { simpl. split_and!; [|by intros e [= <-]|done].
       intros sec k' e He. by rewrite summary_entry_touch. }
  match goal with
  | |- context [add_values _ _ _ values ?s1] =>
      specialize (IH s1); set (s2 := s1) in *
  end.
  assert (Hs2 : forall sec k',
             summary_entry s2 sec k'
             = if bool_decide (sec = section /\ k' = k) then Some (fs, list_sep)
               else summary_entry s sec k').
  { intros sec k'. unfold s2.
    change (summary_entry (set_max_key_len ?n ?x) sec k')
      with (summary_entry x sec k').
    rewrite summary_entry_store. by rewrite summary_entry_touch. }
  assert (Hnone : summary_entry s section k = None).
  { destruct (summary_entry s section k); [|done]. destruct Hk. by eexists. }
  destruct IH as (IH1 & IH2 & IH3). split_and!.
  - intros sec k' e He. apply IH1. rewrite Hs2.
    case_bool_decide as Hc; [|done]. destruct Hc as [-> ->]. congruence.
  - done.
  - intros Hr k' v' [[= -> ->]|Hin]%elem_of_cons.
    + split; [done|]. exists fs. split; [done|].
      apply IH1. rewrite Hs2. by rewrite bool_decide_eq_true_2.
    + destruct (IH3 Hr k' v' Hin) as (Hnone' & fs' & Hfs' & He').
      split; [|by eauto].
      rewrite Hs2 in Hnone'. by case_bool_decide.
Qed.

Lemma add_section_cases section values by_ ls s :
  (exists b l, add_section section values by_ ls s = add_values section b l values s
               /\ (ls = None /\ l = None \/ ls = Some (PyStr (default EmptyString l)) /\ is_Some l))
  \/ (exists e, add_section section values by_ ls s = Raise e s
                /\ exc_class e = InterpreterException).
Proof.
  unfold add_section.
  destruct (default (PyBool false) by_) as [b| |]; [|right; by eexists..].
  destruct ls as [[b'|l|tag]|]; [right; by eexists| |right; by eexists|].
  - left. exists b, (Some l). split; [done|]. right. split; [done|by eexists].
  - left. exists b, None. split; [done|]. by left.
Qed.

(** X3.  [Summary.add_section] never overwrites: an entry that is stored
    stays as it is, whether the call returns or raises; a call that names a
    key its section already holds raises [InterpreterException]; and when
    the call returns, every key it was given was new and now holds its
    formatted values. *)
Theorem add_section_write_once section values by_ ls s :
  let o := add_section section values by_ ls s in
  (forall sec k e,
      summary_entry s sec k = Some e ->
      summary_entry (outcome_state o) sec k = Some e)
  /\ ((exists k v, (k, v) ∈ values /\ is_Some (summary_entry s section k)) ->
      exists e, raised o = Some e /\ exc_class e = InterpreterException)
  /\ (raised o = None ->
      forall k v,
        (k, v) ∈ values ->
        summary_entry s section k = None
        /\ exists fs, summary_entry (outcome_state o) section k = Some fs).
Proof.
  intros o. unfold o.
  destruct (add_section_cases section values by_ ls s)
    as [(b & l & -> & _) | (e & -> & He)].
  - destruct (add_values_spec section b l values s) as (H1 & H2 & H3).
    split_and!; [done| |].
    + intros (k & v & Hin & Hsome).
      destruct (raised (add_values section b l values s)) as [e|] eqn:Hr.
      * exists e. split; [done|]. by apply H2.
      * destruct (H3 eq_refl k v Hin) as [Hnone _].
        rewrite Hnone in Hsome. by destruct Hsome.
    + intros Hr k v Hin. destruct (H3 Hr k v Hin) as (Hnone & fs & _ & He).
      split; [done|]. by eexists.
  - simpl. split_and!; [done| |done].
    intros _. by exists e.
Qed.

Lemma keys_fit_touch section s : keys_fit s -> keys_fit (touch_section section s).
Proof.
  unfold touch_section. destruct (PyLib.od_get (sections s) section); [done|].
  intros Hfit sec values k e Hin Hk. simpl in Hin.
  apply od_set_elem_of in Hin as [[= -> ->]|Hin]; [by apply elem_of_nil in Hk|].
  by apply (Hfit sec values k e).
Qed.

Lemma keys_fit_store section k e s :
  keys_fit s ->
  keys_fit
    (set_max_key_len (Nat.max (max_key_len s) (String.length k))
       (set_sections
          (PyLib.od_set (sections s) section
             (PyLib.od_set (default [] (PyLib.od_get (sections s) section))
                           k e)) s)).
Proof.
  intros Hfit sec values k' e' Hin Hk. simpl in *.
  apply od_set_elem_of in Hin as [[= -> ->]|Hin].
  - apply od_set_elem_of in Hk as [[= -> ->]|Hk]; [lia|].
    destruct (PyLib.od_get (sections s) section) as [vals|] eqn:Hs;
      simpl in Hk; [|by apply elem_of_nil in Hk].
    apply od_get_elem_of in Hs.
    pose proof (Hfit _ _ _ _ Hs Hk). lia.
  - pose proof (Hfit _ _ _ _ Hin Hk). lia.
Qed.

Lemma add_values_keys_fit section bool_yn list_sep values s :
  keys_fit s ->
  keys_fit (outcome_state (add_values section bool_yn list_sep values s)).
Proof.
  revert s. induction values as [|[k v] values IH]; intros s Hfit; [done|].
  rewrite add_values_cons. cbv zeta.
  case_bool_decide; [by apply keys_fit_touch|].
  destruct (format_items bool_yn v); [|by apply keys_fit_touch].
  apply IH. by apply keys_fit_store, keys_fit_touch.
Qed.

(** X4.  The key column of a summary is aligned: every key that
    [add_section] stores is at most [max_key_len] long, whether the calls
    return or raise, and then the label that [dump] prints for a key, the
    key padded and followed by a colon, is [max_key_len + 1] long for every
    key. *)
Theorem summary_keys_aligned :
  (forall name version, keys_fit (new_Summary name version))
  /\ (forall section values by_ ls s,
         keys_fit s ->
         keys_fit (outcome_state (add_section section values by_ ls s)))
  /\ (forall len_of columns s section values k e,
         keys_fit s ->
         (section, values) ∈ sections s -> (k, e) ∈ values ->
         exists label end_ rest,
           dump_entry len_of columns (max_key_len s) (k, e)
           = mkLog [FStr (PyLib.spaces 3); FStr label] " " end_ :: rest
           /\ String.length label = max_key_len s + 1).
Proof.
  split_and!.
  - intros name version sec values k e Hin. by apply elem_of_nil in Hin.
  - intros section values by_ ls s Hfit.
    destruct (add_section_cases section values by_ ls s)
      as [(b & l & -> & _) | (e & -> & He)]; [|done].
    by apply add_values_keys_fit.
  - intros len_of columns s section values k [v list_sep] Hfit Hin Hk.
    pose proof (Hfit _ _ _ _ Hin Hk) as Hlen.
    unfold dump_entry. do 3 eexists. split; [reflexivity|].
    rewrite !str_length_app, spaces_length. simpl. lia.
Qed.

Lemma sum_list_snoc (l : list nat) n : sum_list (l ++ [n]) = sum_list l + n.
Proof. induction l as [|m l IH]; simpl; lia. Qed.

Lemma dump_lines_spec len_of columns list_sep lines_sep indent arr :
  forall line line_len,
    line_len
    = indent + sum_list ((fun v => len_of v + String.length list_sep) <$> line) ->
    (2 <= length line -> line_len <= columns) ->
    (arr = [] -> line <> []) ->
    let out := dump_lines len_of columns list_sep lines_sep indent arr line
                          line_len in
    mjoin (log_args <$> out) = line ++ arr
    /\ Forall (fun c =>
                 log_args c <> []
                 /\ log_sep c = list_sep
                 /\ (2 <= length (log_args c) ->
                     indent
                     + sum_list ((fun v => len_of v + String.length list_sep)
                                   <$> log_args c)
                     <= columns)) out.
Proof.
  induction arr as [|v arr IH]; intros line line_len Hlen Hfit Hne; cbv zeta.
  { csimpl. rewrite !app_nil_r. split; [done|]. constructor; [|done]. simpl.
    split_and!; [by apply Hne|done|]. intros H2. rewrite <- Hlen. by apply Hfit. }
  change (dump_lines len_of columns list_sep lines_sep indent (v :: arr) line
                     line_len)
    with (if negb (bool_decide (line = []))
             && Nat.ltb columns
                  (line_len + (len_of v + String.length list_sep))
          then mkLog line list_sep lines_sep
                 :: dump_lines len_of columns list_sep lines_sep indent arr [v]
                      (indent + (len_of v + String.length list_sep))
          else dump_lines len_of columns list_sep lines_sep indent arr
                 (line ++ [v])
                 (line_len + (len_of v + String.length list_sep))).
  destruct (negb (bool_decide (line = []))
            && Nat.ltb columns
                 (line_len + (len_of v + String.length list_sep))) eqn:Hc.
  - apply andb_prop in Hc as [Hl Hw].
    apply negb_true_iff, bool_decide_eq_false in Hl.
    destruct (IH [v] (indent + (len_of v + String.length list_sep)))
      as [IH1 IH2].
    { simpl. lia. }
    { simpl. lia. }
    { done. }
    split.
    + csimpl. by rewrite IH1.
    + constructor; [|done]. simpl. split_and!; [done..|].
      intros H2. rewrite <- Hlen. by apply Hfit.
  - destruct (IH (line ++ [v]) (line_len + (len_of v + String.length list_sep)))
      as [IH1 IH2].
    { rewrite fmap_app. simpl. rewrite sum_list_snoc. lia. }
    { rewrite length_app. simpl. intros H2.
      apply andb_false_iff in Hc as [Hl|Hw].
      - apply negb_false_iff, bool_decide_eq_true in Hl. subst line.
        simpl in H2. lia.
      - apply Nat.ltb_ge in Hw. lia. }
    { intros _. by destruct line. }
    split; [|done]. rewrite IH1. by rewrite <- app_assoc.
Qed.

(** X5.  [Summary.dump_value] with a separator prints every value once and
    in order, puts a value on each line it prints, and breaks the lines at
    the width of the terminal: a line that holds more than one value is,
    with its indentation and a separator after each value, at most
    [columns] wide.  Without a separator the values go into one call of
    [mlog.log]. *)
Theorem dump_value_wraps len_of columns arr indent :
  (forall list_sep,
      let out := dump_value len_of columns arr (Some list_sep) indent in
      mjoin (log_args <$> out) = arr
      /\ (arr <> [] -> Forall (fun c => log_args c <> []) out)
      /\ Forall (fun c =>
                   log_sep c = list_sep
                   /\ (2 <= length (log_args c) ->
                       indent
                       + sum_list ((fun v => len_of v + String.length list_sep)
                                     <$> log_args c)
                       <= columns)) out)
  /\ dump_value len_of columns arr None indent
     = [mkLog arr (nl +:+ PyLib.spaces indent) nl].
Proof.
  split; [|done]. intros list_sep. unfold dump_value.
  destruct arr as [|v arr].
  { simpl. split_and!; [done|done|]. constructor; [|done]. simpl.
    split; [done|lia]. }
  cbv zeta.
  change (dump_lines len_of columns list_sep
            (PyStr.rstrip list_sep +:+ nl +:+ PyLib.spaces indent) indent
            (v :: arr) [] indent)
    with (dump_lines len_of columns list_sep
            (PyStr.rstrip list_sep +:+ nl +:+ PyLib.spaces indent) indent
            arr [v] (indent + (len_of v + String.length list_sep))).
  destruct (dump_lines_spec len_of columns list_sep
              (PyStr.rstrip list_sep +:+ nl +:+ PyLib.spaces indent)
              indent arr [v] (indent + (len_of v + String.length list_sep)))
    as [H1 H2].
  { simpl. lia. }
  { simpl. lia. }
  { done. }
  split_and!; [done| |].
  - intros _. eapply Forall_impl; [exact H2|]. by intros c (? & _).
  - eapply Forall_impl; [exact H2|]. by intros c (_ & ? & ?).
Qed.

(** ** [func_range] and [should_skip_sanity_check] *)

(** X6.  [range()] returns exactly when, with [range(stop)] read as
    [range(0, stop)] and the step 1 by default, the start is not negative,
    the stop is not below the start and the step is at least 1; it then
    holds these three numbers, and every other call raises
    [InterpreterException]. *)
Theorem func_range_accepts start stop step :
  let a := match stop with None => 0%Z | Some _ => start end in
  let b := default start stop in
  let c := default 1%Z step in
  ((0 <= a <= b)%Z /\ (1 <= c)%Z -> func_range start stop step = inr (a, b, c))
  /\ (~ ((0 <= a <= b)%Z /\ (1 <= c)%Z) ->
      exists e, func_range start stop step = inl e
                /\ exc_class e = InterpreterException).
Proof.
  unfold func_range. destruct stop as [stop|]; simpl.
  - repeat case_match; try (rewrite ?Z.ltb_lt, ?Z.ltb_ge in *);
      (split; [intros; try lia; done|intros; try lia; by eexists]).
  - repeat case_match; try (rewrite ?Z.ltb_lt, ?Z.ltb_ge in *);
      (split; [intros; try lia; done|intros; try lia; by eexists]).
Qed.

(** X7.  [should_skip_sanity_check] returns the property
    [skip_sanity_check] of the cross file as it is, for the build and the
    host machine alike and whether or not the build is a cross build; it is
    false when the property is absent, and a value that is not a boolean
    raises. *)
Theorem should_skip_sanity_check_is_the_property :
  (forall should cross m,
      should_skip_sanity_check (Some (PyBool should)) cross m = inr should)
  /\ (forall cross m, should_skip_sanity_check None cross m = inr false)
  /\ (forall v cross m,
         (forall b, v <> PyBool b) ->
         exists e, should_skip_sanity_check (Some v) cross m = inl e
                   /\ exc_class e = InterpreterException).
Proof.
  split_and!.
  - intros [] [] []; reflexivity.
  - intros [] []; reflexivity.
  - intros [b| |] cross m Hv; [by destruct (Hv b)|by eexists..].
Qed.

(** ** [extract_variables] *)

Lemma split_once_entry c k v :
  PyStr.contains_char c k = false ->
  PyLib.split_once c (k +:+ String c v) = Some (k, v).
Proof.
  induction k as [|d k IH]; simpl.
  - intros _. by rewrite Ascii.eqb_refl.
  - rewrite (Ascii.eqb_sym d c).
    destruct (Ascii.eqb c d); [done|]. intros Hk. by rewrite IH.
Qed.

Lemma split_once_None c s :
  PyStr.contains_char c s = false -> PyLib.split_once c s = None.
Proof.
  induction s as [|d s IH]; simpl; [done|].
  rewrite (Ascii.eqb_sym d c).
  destruct (Ascii.eqb c d); [done|]. intros Hs. by rewrite IH.
Qed.

Lemma lstrip_no_space s : PyLib.any_space s = false -> PyStr.lstrip s = s.
Proof.
  destruct s as [|c s]; simpl; [done|].
  by intros [-> _]%orb_false_elim.
Qed.

Lemma rstrip_no_space s : PyLib.any_space s = false -> PyStr.rstrip s = s.
Proof.
  induction s as [|c s IH]; simpl; [done|].
  intros [Hc Hs]%orb_false_elim. rewrite IH by done.
  destruct s; [by rewrite Hc|done].
Qed.

Lemma strip_no_space s : PyLib.any_space s = false -> PyStr.strip s = s.
Proof.
  intros Hs. unfold PyStr.strip. by rewrite lstrip_no_space, rstrip_no_space.
Qed.

Lemma od_set_new {V} (d : list (string * V)) k v :
  k ∉ d.*1 -> PyLib.od_set d k v = d ++ [(k, v)].
Proof.
  induction d as [|[k1 v1] d IH]; simpl; [done|].
  intros Hk. apply not_elem_of_cons in Hk as [Hne Hk].
  rewrite bool_decide_eq_false_2 by done. by rewrite IH.
Qed.

Lemma parse_variables_plain kvs :
  forall acc,
    NoDup (acc.*1 ++ kvs.*1) ->
    Forall plain_variable kvs ->
    parse_variables (variable_entry <$> kvs) acc
    = inr (acc ++ ((fun kv => (fst kv, VarStr (snd kv))) <$> kvs)).
Proof.
  induction kvs as [|[k v] kvs IH]; intros acc Hnd Hplain; simpl.
  { by rewrite app_nil_r. }
  apply Forall_cons in Hplain as [(Hk & Hsp & Heq & Hv & Hstrip) Hplain].
  simpl in *. unfold variable_entry at 1. simpl.
  change (k +:+ "=" +:+ v) with (k +:+ String "="%char v).
  rewrite split_once_entry by done.
  rewrite strip_no_space, Hstrip by done.
  rewrite od_set_new.
  2: { apply NoDup_app in Hnd as (_ & Hdisj & _). intros Hin.
       apply (Hdisj _ Hin). by left. }
  rewrite IH; [by rewrite <- app_assoc|..|done].
  rewrite fmap_app. simpl. rewrite <- app_assoc. exact Hnd.
Qed.

Lemma check_variables_spec variables :
  match check_variables variables with
  | inr _ =>
      Forall (fun kv =>
                fst kv <> EmptyString
                /\ PyLib.any_space (fst kv) = false
                /\ exists s, snd kv = VarStr s /\ s <> EmptyString) variables
  | inl e => exc_class e = InterpreterException
  end.
Proof.
  induction variables as [|[k v] variables IH]; simpl; [done|].
  case_bool_decide as Hk; simpl; [done|].
  destruct (var_is_falsy v) eqn:Hv; [done|].
  destruct (PyLib.any_space k) eqn:Hsp; [done|].
  destruct v as [s| |]; simpl; try done.
  destruct (check_variables variables); [done|].
  constructor; [|done]. simpl. split_and!; [done..|].
  exists s. split; [done|]. simpl in Hv. by case_bool_decide.
Qed.

Lemma check_variables_plain kvs :
  Forall plain_variable kvs ->
  check_variables ((fun kv => (fst kv, VarStr (snd kv))) <$> kvs) = inr tt.
Proof.
  induction 1 as [|[k v] kvs (Hk & Hsp & _ & Hv & _) _ IH]; simpl in *; [done|].
  rewrite !bool_decide_eq_false_2 by done. simpl. by rewrite Hsp.
Qed.

Lemma parse_variables_raises varlist :
  forall acc e,
    parse_variables varlist acc = inl e -> exc_class e = InterpreterException.
Proof.
  induction varlist as [|v varlist IH]; intros acc e; simpl; [done|].
  destruct (PyLib.split_once "=" v) as [[key value]|]; [apply IH|].
  by intros [= <-].
Qed.

Lemma parse_variables_no_equals varlist :
  forall acc,
    (exists v, v ∈ varlist /\ PyStr.contains_char "=" v = false) ->
    exists e, parse_variables varlist acc = inl e.
Proof.
  induction varlist as [|v varlist IH]; intros acc (v' & Hin & Hv').
  { by apply elem_of_nil in Hin. }
  simpl. destruct (PyLib.split_once "=" v) as [[key value]|] eqn:Hs;
    [|by eexists].
  apply elem_of_cons in Hin as [->|Hin].
  - by rewrite split_once_None in Hs.
  - apply IH. by exists v'.
Qed.

Lemma stringlistify_strings l : stringlistify (ItemStr <$> l) = inr l.
Proof. induction l as [|v l IH]; csimpl; [done|]. by rewrite IH. Qed.

Lemma stringlistify_cases l :
  match stringlistify l with
  | inr varlist => l = ItemStr <$> varlist
  | inl e => exc_class e = MesonException /\ exists tag, ItemObject tag ∈ l
  end.
Proof.
  induction l as [|[v|tag] l IH]; simpl; [done| |].
  - destruct (stringlistify l) as [e|r].
    + destruct IH as [He [tag Hin]]. split; [done|]. exists tag. by right.
    + csimpl. by rewrite IH.
  - split; [done|]. exists tag. by left.
Qed.

(** X8.  The variables that [extract_variables] returns are well formed:
    every name is not empty and free of white space, and every value is a
    string that is not empty.  A failure is the [MesonException] of
    [stringlistify], exactly when the argument is neither a dictionary nor a
    list of strings, or an [InterpreterException]; a list of strings with an
    entry that holds no equals sign fails. *)
Theorem extract_variables_wellformed variables :
  (forall result,
      extract_variables variables = inr result ->
      Forall (fun kv =>
                fst kv <> EmptyString
                /\ PyLib.any_space (fst kv) = false
                /\ exists s, snd kv = VarStr s /\ s <> EmptyString) result)
  /\ (forall e,
         extract_variables variables = inl e ->
         exc_class e = InterpreterException
         \/ exc_class e = MesonException)
  /\ ((exists e, extract_variables variables = inl e
                 /\ exc_class e = MesonException)
      <-> (exists tag, variables = VarsObject tag)
          \/ exists l tag, variables = VarsList l /\ ItemObject tag ∈ l)
  /\ (forall varlist v,
         variables = VarsList (ItemStr <$> varlist) ->
         v ∈ varlist -> PyStr.contains_char "=" v = false ->
         exists e, extract_variables variables = inl e
                   /\ exc_class e = InterpreterException).
Proof.
  assert (Hcheck : forall vars e,
             match check_variables vars with
             | inl e => inl e
             | inr _ => inr vars
             end = inl e -> exc_class e = InterpreterException).
  { intros vars e. pose proof (check_variables_spec vars) as Hc.
    destruct (check_variables vars); [|done]. by intros [= <-]. }
  unfold extract_variables. split_and!.
  - intros result.
    destruct (match variables with
              | VarsDict d => inr d
              | VarsList l =>
                  match stringlistify l with
                  | inl e => inl e
                  | inr varlist => parse_variables varlist []
                  end
              | VarsObject _ => _
              end) as [e|vars]; [done|].
    pose proof (check_variables_spec vars) as Hc.
    destruct (check_variables vars); [done|]. by intros [= <-].
  - intros e. destruct variables as [d|l|tag].
    + intros He. left. by apply Hcheck in He.
    + pose proof (stringlistify_cases l) as Hl.
      destruct (stringlistify l) as [e'|varlist].
      * intros [= <-]. right. by destruct Hl.
      * destruct (parse_variables varlist []) as [e'|vars] eqn:Hp.
        -- intros [= <-]. left. by apply parse_variables_raises in Hp.
        -- intros He. left. by apply Hcheck in He.
    + intros [= <-]. by right.
  - split.
    + intros (e & He & Hclass). destruct variables as [d|l|tag].
      * apply Hcheck in He. congruence.
      * right. pose proof (stringlistify_cases l) as Hl.
        destruct (stringlistify l) as [e'|varlist].
        -- destruct Hl as [_ [tag Hin]]. by exists l, tag.
        -- destruct (parse_variables varlist []) as [e'|vars] eqn:Hp.
           ++ injection He as <-. apply parse_variables_raises in Hp.
              congruence.
           ++ apply Hcheck in He. congruence.
      * left. by exists tag.
    + intros [[tag ->]|(l & tag & -> & Hin)]; [by eexists|].
      pose proof (stringlistify_cases l) as Hl.
      destruct (stringlistify l) as [e'|varlist].
      * exists e'. by destruct Hl.
      * subst l. apply list_elem_of_fmap in Hin as (v & Hv & _). done.
  - intros varlist v -> Hin Hv. rewrite stringlistify_strings.
    destruct (parse_variables varlist []) as [e|vars] eqn:Hp.
    + exists e. split; [done|]. by apply parse_variables_raises in Hp.
    + destruct (parse_variables_no_equals varlist [])
        as [e He]; [by exists v|]. congruence.
Qed.

(** X9.  A list of entries [name=value] comes back as the dictionary of
    these names and values, in the order of the list, when the names are
    distinct, not empty and hold neither white space nor an equals sign,
    and the values are not empty and have no white space around them: an
    entry is split at its first equals sign, so that a value may hold
    more of them. *)
Theorem extract_variables_round_trip kvs :
  NoDup kvs.*1 ->
  Forall plain_variable kvs ->
  extract_variables (VarsList (ItemStr <$> (variable_entry <$> kvs)))
  = inr ((fun kv => (fst kv, VarStr (snd kv))) <$> kvs).
Proof.
  intros Hnd Hplain. unfold extract_variables.
  rewrite stringlistify_strings.
  rewrite (parse_variables_plain kvs []) by done. simpl.
  by rewrite check_variables_plain.
Qed.

(** ** The version of a project *)

Lemma split_nonempty c s : PyLib.split c s <> [].
Proof.
  destruct s as [|d s]; simpl; [done|].
  destruct (Ascii.eqb d c); [done|]. by destruct (PyLib.split c s).
Qed.

Lemma split_no_sep c s :
  PyStr.contains_char c s = false -> PyLib.split c s = [s].
Proof.
  induction s as [|d s IH]; simpl; [done|].
  rewrite (Ascii.eqb_sym d c).
  destruct (Ascii.eqb c d); [done|]. intros Hs. by rewrite IH.
Qed.

Lemma split_trailing_sep c s :
  PyStr.contains_char c s = false ->
  PyLib.split c (s +:+ String c EmptyString) = [s; EmptyString].
Proof.
  induction s as [|d s IH]; simpl.
  - intros _. by rewrite Ascii.eqb_refl.
  - rewrite (Ascii.eqb_sym d c).
    destruct (Ascii.eqb c d); [done|]. intros Hs. by rewrite IH.
Qed.

Lemma split_one_inv c s a :
  PyLib.split c s = [a] -> a = s /\ PyStr.contains_char c s = false.
Proof.
  revert a. induction s as [|d s IH]; intros a; simpl.
  - by intros [= <-].
  - rewrite (Ascii.eqb_sym d c). destruct (Ascii.eqb c d).
    + intros [= _ Hs]. by apply split_nonempty in Hs.
    + destruct (PyLib.split c s) as [|w ws] eqn:Hs;
        [by apply split_nonempty in Hs|].
      intros [= <- ->]. destruct (IH w eq_refl) as [-> Hc]. done.
Qed.

Lemma split_two_inv c s a :
  PyLib.split c s = [a; EmptyString] ->
  s = a +:+ String c EmptyString /\ PyStr.contains_char c a = false.
Proof.
  revert a. induction s as [|d s IH]; intros a; simpl; [done|].
  rewrite (Ascii.eqb_sym d c). destruct (Ascii.eqb c d) eqn:Hd.
  - intros [= <- Hs]. apply Ascii.eqb_eq in Hd as ->.
    apply split_one_inv in Hs as [<- _]. done.
  - destruct (PyLib.split c s) as [|w ws] eqn:Hs; [done|].
    intros [= <- ->]. destruct (IH w eq_refl) as [-> Hc].
    simpl. by rewrite Hd.
Qed.

(** X10.  The version of a project.  Read from a file, given alone or as
    the one entry of a list, it is accepted exactly when the file holds one
    line, with or without a line feed at its end, and it is that line
    without the line feed; any other text raises [InterpreterException].  A
    list that does not hold one entry raises [InvalidCode], the empty list
    too. *)
Theorem project_version_from_file text :
  let read := project_version_of (Some (VerOne (VerFile (Some text)))) in
  project_version_of (Some (VerList [VerFile (Some text)])) = read
  /\ (forall l, length l <> 1 ->
                exists e, project_version_of (Some (VerList l)) = inl e
                          /\ exc_class e = InvalidCode)
  /\ (forall v,
         read = inr v
         <-> PyStr.contains_char (ascii_of_nat 10) v = false
             /\ (text = v \/ text = v +:+ nl))
  /\ (forall e, read = inl e -> exc_class e = InterpreterException).
Proof.
  cbv zeta.
  change (project_version_of (Some (VerOne (VerFile (Some text)))))
    with (version_from_text text).
  split; [done|]. split.
  { intros [|v [|w l]] Hl; [by eexists|done|by eexists]. }
  unfold version_from_text, nl.
  assert (Hback : forall v,
             PyStr.contains_char (ascii_of_nat 10) v = false ->
             text = v \/ text = v +:+ String (ascii_of_nat 10) EmptyString ->
             PyLib.split (ascii_of_nat 10) text = [v]
             \/ PyLib.split (ascii_of_nat 10) text = [v; EmptyString]).
  { intros v Hv [-> | ->]; [left; by apply split_no_sep|].
    right. by apply split_trailing_sep. }
  destruct (PyLib.split (ascii_of_nat 10) text)
    as [|l1 [|l2 [|l3 rest]]] eqn:Hs.
  - by apply split_nonempty in Hs.
  - apply split_one_inv in Hs as [-> Hc]. split; [|done].
    intros v. split.
    + intros [= <-]. split; [done|by left].
    + intros [Hv Ht]. destruct (Hback v Hv Ht) as [H|H]; by simplify_eq.
  - destruct l2 as [|d l2].
    + apply split_two_inv in Hs as [-> Hc]. split; [|done].
      intros v. split.
      * intros [= <-]. split; [done|by right].
      * intros [Hv Ht]. destruct (Hback v Hv Ht) as [H|H]; by simplify_eq.
    + split; [|by intros e [= <-]]. intros v. split; [done|].
      intros [Hv Ht]. destruct (Hback v Hv Ht) as [H|H]; by simplify_eq.
  - destruct l2; (split; [|by intros e [= <-]]); (intros v; split; [done|]);
      intros [Hv Ht]; destruct (Hback v Hv Ht) as [H|H]; by simplify_eq.
Qed.

(** ** Programs *)

Lemma lift_exc_Return_inv {S A} (r : Exc + A) (st st' : S) a :
  lift_exc r st = Return a st' -> r = inr a /\ st' = st.
Proof. unfold lift_exc. destruct r; [done|]. by intros [= -> ->]. Qed.

Section ProgramFacts.
Context `{Collaborators} `{ProgramFinder}.
Variable do_subproject_and_merge :
  string -> string -> Kwargs -> M PState SubprojectHolder.

Lemma string_names_elem_of name args :
  PString name ∈ args -> name ∈ string_names args.
Proof.
  induction args as [|a args IH]; [by intros ?%elem_of_nil|].
  intros [<-|Hin]%elem_of_cons; simpl; [by left|].
  destruct a; [right|..]; by apply IH.
Qed.

Lemma program_from_overrides_first overrides pre name post exe :
  (forall n, PString n ∈ pre -> overrides !! n = None) ->
  overrides !! name = Some exe ->
  program_from_overrides overrides (pre ++ PString name :: post) = Some exe.
Proof.
  intros Hpre Hname. induction pre as [|a pre IH]; simpl.
  - by rewrite Hname.
  - assert (Hrest : forall n, PString n ∈ pre -> overrides !! n = None)
      by (intros n Hn; apply Hpre; by right).
    destruct a as [s| |]; [|by apply IH..].
    rewrite (Hpre s) by by left. by apply IH.
Qed.

Lemma add_find_program_override_rejects name exe st :
  name ∈ searched_programs st \/ is_Some (find_overrides st !! name) ->
  exists e, add_find_program_override name exe st = Raise e st
            /\ exc_class e = InterpreterException.
Proof.
  intros Hc. unfold add_find_program_override, bind, get, raise, ret.
  case_bool_decide as Hs; [by eexists|].
  case_bool_decide as Ho; [by eexists|]. by destruct Hc.
Qed.

(** X11.  An override of a program is installed once, and only before the
    program is looked up: [add_find_program_override] raises and changes
    nothing when the name has been found by a lookup or has an override;
    otherwise it installs the override, which [program_from_overrides] then
    answers and which no second override replaces. *)
Theorem program_override_once name exe st :
  (name ∈ searched_programs st \/ is_Some (find_overrides st !! name) ->
   exists e, add_find_program_override name exe st = Raise e st
             /\ exc_class e = InterpreterException)
  /\ (name ∉ searched_programs st -> find_overrides st !! name = None ->
      exists st',
        add_find_program_override name exe st = Return tt st'
        /\ find_overrides st' = <[name := exe]> (find_overrides st)
        /\ searched_programs st' = searched_programs st
        /\ ps_interp st' = ps_interp st
        /\ program_from_overrides (find_overrides st') [PString name]
           = Some exe
        /\ forall exe2,
             exists e, add_find_program_override name exe2 st' = Raise e st'
                       /\ exc_class e = InterpreterException).
Proof.
  split; [apply add_find_program_override_rejects|].
  intros Hs Ho. eexists. split_and!.
  - unfold add_find_program_override, bind, get, raise, ret, modify.
    rewrite bool_decide_eq_false_2 by done.
    rewrite bool_decide_eq_false_2; [reflexivity|].
    rewrite Ho. by intros [? ?].
  - done.
  - done.
  - done.
  - simpl. by rewrite lookup_insert_eq.
  - intros exe2. apply add_find_program_override_rejects. right. simpl.
    rewrite lookup_insert_eq. by eexists.
Qed.

(** X12.  An override wins over every other way to find a program: when
    a name of the lookup has an override, and no name before it has one,
    [program_lookup] answers with that override and leaves the state as it
    is, so that neither a fallback subproject is configured nor anything
    recorded.  [find_program_impl] then returns the override and records
    the names as looked up if the override is found and no version is
    asked for, or its version satisfies the versions asked for.  If the
    override is not found, or its version does not satisfy them,
    [find_program_impl] records nothing: it raises when the program is
    required, and otherwise returns the override that is not found, or the
    program named by the names that is not found. *)
Theorem program_override_wins pre name post exe st m required dirs :
  (forall n, PString n ∈ pre -> find_overrides st !! n = None) ->
  find_overrides st !! name = Some exe ->
  let args := pre ++ PString name :: post in
  let run wanted version_func :=
    find_program_impl do_subproject_and_merge args m required wanted dirs
                      version_func st in
  let version_of version_func :=
    match version_func with
    | Some f => f exe
    | None => prog_get_version exe
    end in
  let recorded :=
    set_searched_programs
      (list_to_set (string_names args) ∪ searched_programs st) st in
  program_lookup do_subproject_and_merge args m required dirs st
  = Return (Some exe) st
  /\ (prog_found exe = true ->
      forall version_func, run [] version_func = Return exe recorded)
  /\ (prog_found exe = true ->
      forall w wanted version_func version not_found found,
        version_of version_func = inr version ->
        version_compare_many3 version (w :: wanted) = (true, not_found, found) ->
        run (w :: wanted) version_func = Return exe recorded)
  /\ (prog_found exe = true ->
      forall w wanted version_func version not_found found,
        version_of version_func = inr version ->
        version_compare_many3 version (w :: wanted)
        = (false, not_found, found) ->
        run (w :: wanted) version_func
        = if required then
            Raise (mkExc InterpreterException
                     ("Invalid version of program, need "
                      +:+ PyLib.repr (prog_get_name exe) +:+ " "
                      +:+ repr_list not_found +:+ " found "
                      +:+ PyLib.repr version +:+ ".")) st
          else lift_exc (notfound_program args) st)
  /\ (prog_found exe = false ->
      forall wanted version_func,
        run wanted version_func
        = if required then
            Raise (mkExc InterpreterException
                     ("Program " +:+ PyLib.repr (prog_get_name exe)
                      +:+ " not found")) st
          else Return exe st).
Proof.
  intros Hpre Hname args run version_of recorded.
  assert (Hlookup :
    program_lookup do_subproject_and_merge args m required dirs st
    = Return (Some exe) st).
  { unfold program_lookup, bind, get.
    unfold args. by rewrite (program_from_overrides_first _ _ _ _ exe). }
  split; [done|].
  assert (Hfound_run : prog_found exe = true ->
            forall wanted vf,
              run wanted vf
              = match
                  match wanted with
                  | [] => Return None st
                  | _ :: _ =>
                      match version_of vf with
                      | inl e => Raise e st
                      | inr version =>
                          let '(is_found, not_found, _) :=
                            version_compare_many3 version wanted in
                          if negb is_found then
                            if required then
                              Raise (mkExc InterpreterException
                                       ("Invalid version of program, need "
                                        +:+ PyLib.repr (prog_get_name exe)
                                        +:+ " " +:+ repr_list not_found
                                        +:+ " found " +:+ PyLib.repr version
                                        +:+ ".")) st
                            else
                              match notfound_program args with
                              | inl e => Raise e st
                              | inr p => Return (Some p) st
                              end
                          else Return None st
                      end
                  end
                with
                | Return (Some p) st1 => Return p st1
                | Return None st1 => Return exe recorded
                | Raise e st1 => Raise e st1
                end).
  { intros Hfound wanted vf. unfold run, find_program_impl.
    rewrite (bind_Return _ _ _ _ _ Hlookup).
    unfold bind at 1. unfold ret at 1. rewrite Hfound. simpl.
    unfold bind at 1. destruct wanted as [|w wanted]; [done|].
    unfold bind at 1. unfold lift_exc at 1. fold (version_of vf).
    destruct (version_of vf) as [e|version]; [done|].
    destruct (version_compare_many3 version (w :: wanted))
      as [[is_found not_found] found].
    destruct is_found; simpl; [done|]. destruct required; [done|].
    unfold bind, lift_exc. by destruct (notfound_program args). }
  split_and!.
  - intros Hfound vf. by rewrite Hfound_run.
  - intros Hfound w wanted vf version nf f Hv Hc.
    by rewrite Hfound_run, Hv, Hc.
  - intros Hfound w wanted vf version nf f Hv Hc.
    rewrite Hfound_run, Hv, Hc by done. simpl.
    destruct required; [done|]. unfold lift_exc.
    by destruct (notfound_program args).
  - intros Hfound wanted vf. unfold run, find_program_impl.
    rewrite (bind_Return _ _ _ _ _ Hlookup).
    unfold bind at 1. unfold ret at 1. rewrite Hfound. simpl.
    by destruct required.
Qed.

(** X13.  What [find_program_impl] returns: a lookup that is required
    returns only a program that is found; when the program returned is
    found, every string among the names is recorded in
    [searched_programs], so that an override of it is refused from then
    on; and when it is not found, nothing is recorded: the state is the one
    that [program_lookup] left. *)
Theorem find_program_impl_returns args m required wanted dirs vf st p st' :
  find_program_impl do_subproject_and_merge args m required wanted dirs vf st
  = Return p st' ->
  (required = true -> prog_found p = true)
  /\ (prog_found p = true ->
      forall name,
        PString name ∈ args ->
        name ∈ searched_programs st'
        /\ forall exe,
             exists e, add_find_program_override name exe st' = Raise e st'
                       /\ exc_class e = InterpreterException)
  /\ (prog_found p = false ->
      exists r,
        program_lookup do_subproject_and_merge args m required dirs st
        = Return r st').
Proof.
  unfold find_program_impl. intros Hrun.
  apply bind_Return_inv in Hrun as (r & st1 & Hlookup & Hrun).
  apply bind_Return_inv in Hrun as (progobj & st2 & Hobj & Hrun).
  assert (st2 = st1) as ->.
  { destruct r; [by inversion Hobj|].
    by apply lift_exc_Return_inv in Hobj as [_ ->]. }
  destruct (prog_found progobj) eqn:Hfound; simpl in Hrun.
  - apply bind_Return_inv in Hrun as (early & st3 & Hearly & Hrun).
    assert (st3 = st1 /\ (forall q, early = Some q -> required = false
                                    /\ prog_found q = false)) as [-> Hq].
    { destruct wanted as [|w wanted]; [by inversion Hearly|].
      apply bind_Return_inv in Hearly as (version & st4 & Hv & Hearly).
      apply lift_exc_Return_inv in Hv as [_ ->].
      destruct (version_compare_many3 version (w :: wanted))
        as [[is_found not_found] found].
      destruct is_found; simpl in Hearly; [by inversion Hearly|].
      destruct required; [done|].
      apply bind_Return_inv in Hearly as (q & st5 & Hq & Hearly).
      apply lift_exc_Return_inv in Hq as [Hq ->].
      inversion Hearly; subst. split; [done|]. intros q' [= <-].
      split; [done|]. unfold notfound_program in Hq.
      destruct (join_args args); [done|]. injection Hq as <-.
      apply non_existing_not_found. }
    destruct early as [q|].
    + inversion Hrun; subst. destruct (Hq p eq_refl) as [-> Hnf].
      split_and!; [done|congruence|]. intros _. by exists r.
    + unfold store_name_lookups, bind, modify, ret in Hrun.
      inversion Hrun; subst. split_and!; [done| |congruence].
      intros _ name Hin.
      assert (Hs : name ∈ searched_programs
                     (set_searched_programs
                        (list_to_set (string_names args)
                         ∪ searched_programs st1) st1)).
      { simpl. apply elem_of_union_l, elem_of_list_to_set.
        by apply string_names_elem_of. }
      split; [done|]. intros exe.
      apply add_find_program_override_rejects. by left.
  - destruct required; [done|]. inversion Hrun; subst.
    split_and!; [done|congruence|]. intros _. by exists r.
Qed.

(** X14.  A program that no lookup finds.  When every name is a string,
    [find_program_impl] raises if the program is required and otherwise
    returns the program that is not found, named by the names joined with
    spaces; nothing is recorded.  When a name is not a string, as the file
    that [make_test] passes, it raises [TypeError] whether the program is
    required or not: the names cannot be joined. *)
Theorem find_program_impl_not_found args m required wanted dirs vf st st' :
  program_lookup do_subproject_and_merge args m required dirs st
  = Return None st' ->
  find_program_impl do_subproject_and_merge args m required wanted dirs vf st
  = match arg_strings args with
    | Some names =>
        let missing := NonExistingExternalProgram (PyStr.join " " names) in
        if required then
          Raise (mkExc InterpreterException
                   ("Program " +:+ PyLib.repr (prog_get_name missing)
                    +:+ " not found")) st'
        else Return missing st'
    | None =>
        Raise (mkExc OtherException
                 "TypeError: sequence item: expected str instance") st'
    end.
Proof.
  intros Hlookup. unfold find_program_impl.
  rewrite (bind_Return _ _ _ _ _ Hlookup).
  unfold notfound_program, join_args.
  destruct (arg_strings args) as [names|]; [|done].
  unfold bind, lift_exc. rewrite non_existing_not_found. by destruct required.
Qed.

End ProgramFacts.

(** ** Modules *)

Lemma startswith_app s p :
  PyStr.startswith s p = true -> exists r, s = p +:+ r.
Proof.
  unfold PyStr.startswith. revert s.
  induction p as [|c p IH]; intros s; simpl.
  - intros _. by exists s.
  - destruct s as [|d s]; [done|].
    change (String.prefix (String c p) (String d s))
      with (if ascii_dec c d then String.prefix p s else false).
    destruct (ascii_dec c d) as [->|]; [|done].
    intros Hp. destruct (IH _ Hp) as [r ->]. by exists r.
Qed.

Section ImportFacts.
Context `{ModuleLoader}.

Lemma import_module_cached modname m st :
  modules st !! modname = Some m -> import_module modname st = Return tt st.
Proof.
  intros Hm. unfold import_module, bind, get, ret.
  rewrite bool_decide_eq_true_2; [done|]. by eexists.
Qed.

(** What [import_module] does for a module that is not loaded. *)
Lemma import_module_fresh modname st :
  modules st !! modname = None ->
  import_module modname st
  = if negb (python_module_exists modname) then
      Raise (mkExc InvalidArguments
               ("Module " +:+ dquote +:+ modname +:+ dquote
                +:+ " does not exist")) st
    else
      let st1 := mkModState _ (modules st) (initialized st ++ [modname]) in
      match initialize modname with
      | inl e => Raise e st1
      | inr m => Return tt (mkModState _ (<[modname := m]> (modules st))
                                       (initialized st1))
      end.
Proof.
  intros Hm. unfold import_module, bind, get, ret, raise, modify, lift_exc.
  rewrite bool_decide_eq_false_2 by (rewrite Hm; by intros [? ?]).
  destruct (python_module_exists modname); simpl; [|done].
  by destruct (initialize modname).
Qed.

(** The dictionary [modules] after [import_module], in each outcome. *)
Lemma import_module_modules modname st :
  match import_module modname st with
  | Return _ st' =>
      exists m, modules st' !! modname = Some m
                /\ (modules st' = modules st
                    \/ modules st !! modname = None
                       /\ modules st' = <[modname := m]> (modules st))
  | Raise e st' => modules st' = modules st /\ modules st !! modname = None
  end.
Proof.
  destruct (modules st !! modname) as [m|] eqn:Hm.
  - rewrite (import_module_cached _ m) by done. exists m. split; [done|by left].
  - rewrite import_module_fresh by done.
    destruct (python_module_exists modname); simpl; [|done].
    destruct (initialize modname) as [e|m]; [done|].
    exists m. simpl. rewrite lookup_insert_eq. split; [done|]. by right.
Qed.

(** An import by the plain name. *)
Lemma func_import_plain modname st :
  PyStr.startswith modname "unstable-" = false ->
  func_import [modname] st
  = match import_module modname st with
    | Return _ st' =>
        match modules st' !! modname with
        | Some m => Return m st'
        | None => Raise (mkExc OtherException "KeyError") st'
        end
    | Raise e st' => Raise e st'
    end.
Proof.
  intros Hu. unfold func_import. rewrite Hu.
  unfold bind at 1. unfold ret at 1. unfold bind, get.
  destruct (import_module modname st) as [[] st'|e st']; [|done].
  by destruct (modules st' !! modname).
Qed.

Lemma unstable_prefix plainname :
  PyStr.startswith ("unstable-" +:+ plainname) "unstable-" = true
  /\ PyLib.split_once "-" ("unstable-" +:+ plainname)
     = Some ("unstable", plainname)
  /\ PyStr.startswith ("unstable_" +:+ plainname) "unstable-" = false.
Proof. unfold PyStr.startswith. by destruct plainname. Qed.

(** The import of [unstable-x], by the outcome of the import of [x]. *)
Lemma func_import_unstable plainname st :
  func_import ["unstable-" +:+ plainname] st
  = match import_module plainname st with
    | Return _ st' =>
        match modules st' !! plainname with
        | Some m => Return m st'
        | None => Raise (mkExc OtherException "KeyError") st'
        end
    | Raise e st' =>
        if is_InvalidArguments e
        then func_import ["unstable_" +:+ plainname] st'
        else Raise e st'
    end.
Proof.
  destruct (unstable_prefix plainname) as (Hp & Hs & Hn).
  unfold func_import at 1. rewrite Hp, Hs.
  unfold bind at 1. unfold try_catch. unfold bind at 1.
  pose proof (import_module_modules plainname st) as Hm.
  destruct (import_module plainname st) as [[] st'|e st'].
  - unfold ret at 1. destruct Hm as (m & Hm & _).
    rewrite (bind_Return _ _ _ _ _ (import_module_cached _ _ _ Hm)).
    unfold bind, get. by rewrite Hm.
  - destruct (is_InvalidArguments e); [|done].
    rewrite (func_import_plain ("unstable_" +:+ plainname)) by done.
    unfold ret at 1. unfold bind, get.
    destruct (import_module _ st') as [[] st2|e2 st2]; [|done].
    by destruct (modules st2 !! _).
Qed.

(** X15.  [import('unstable-x')] gives the stable module [x] when that
    one loads; when the import of [x] ends with [InvalidArguments] (there
    is no module [x]), it is the import of the module [unstable_x]; any
    other error of the import of [x] is raised as it is. *)
Theorem import_unstable_name plainname st :
  (forall st', import_module plainname st = Return tt st' ->
               exists m, modules st' !! plainname = Some m
                         /\ func_import ["unstable-" +:+ plainname] st
                            = Return m st')
  /\ (forall e st', import_module plainname st = Raise e st' ->
                    exc_class e = InvalidArguments ->
                    func_import ["unstable-" +:+ plainname] st
                    = func_import ["unstable_" +:+ plainname] st')
  /\ (forall e st', import_module plainname st = Raise e st' ->
                    exc_class e <> InvalidArguments ->
                    func_import ["unstable-" +:+ plainname] st = Raise e st')
  /\ (modules st !! plainname = None ->
      python_module_exists plainname = false ->
      func_import ["unstable-" +:+ plainname] st
      = func_import ["unstable_" +:+ plainname] st).
Proof.
  split_and!.
  - intros st' Hi. rewrite func_import_unstable, Hi.
    pose proof (import_module_modules plainname st) as Hm. rewrite Hi in Hm.
    destruct Hm as (m & Hm & _). exists m. by rewrite Hm.
  - intros e st' Hi He. rewrite func_import_unstable, Hi.
    unfold is_InvalidArguments. by rewrite bool_decide_eq_true_2.
  - intros e st' Hi He. rewrite func_import_unstable, Hi.
    unfold is_InvalidArguments. by rewrite bool_decide_eq_false_2.
  - intros Hm Hp. rewrite func_import_unstable.
    rewrite import_module_fresh by done. by rewrite Hp.
Qed.

Lemma func_import_plain_again modname st m st1 :
  PyStr.startswith modname "unstable-" = false ->
  func_import [modname] st = Return m st1 ->
  modules st1 !! modname = Some m
  /\ func_import [modname] st1 = Return m st1.
Proof.
  intros Hu. rewrite !func_import_plain by done. intros Hrun.
  destruct (import_module modname st) as [[] st'|e st'] eqn:Hi; [|done].
  destruct (modules st' !! modname) as [m'|] eqn:Hm; [|done].
  inversion Hrun; subst. split; [done|].
  rewrite (import_module_cached _ _ _ Hm). by rewrite Hm.
Qed.

(** X16.  A module is loaded once: when [import()] has returned a module,
    the same call returns the same module again and leaves the dictionary
    of the modules as it is; with a name that does not start with
    [unstable-] it leaves the whole state, so that [initialize] is not
    called again. *)
Theorem import_twice modname st m st1 :
  func_import [modname] st = Return m st1 ->
  (exists key, modules st1 !! key = Some m)
  /\ (exists st2,
         func_import [modname] st1 = Return m st2
         /\ modules st2 = modules st1)
  /\ (PyStr.startswith modname "unstable-" = false ->
      func_import [modname] st1 = Return m st1).
Proof.
  intros Hrun.
  destruct (PyStr.startswith modname "unstable-") eqn:Hu.
  2: { destruct (func_import_plain_again _ _ _ _ Hu Hrun) as [Hm Hagain].
       split_and!; [by eexists|by eexists|done]. }
  assert (exists plainname, modname = "unstable-" +:+ plainname)
    as [plainname ->].
  { by apply startswith_app. }
  destruct (unstable_prefix plainname) as (_ & _ & Hn).
  rewrite func_import_unstable in Hrun.
  pose proof (import_module_modules plainname st) as Hmods.
  destruct (import_module plainname st) as [[] st'|e st'] eqn:Hi.
  - destruct Hmods as (m' & Hm' & _). rewrite Hm' in Hrun.
    inversion Hrun; subst. split_and!; [by eexists| |done].
    exists st1. split; [|done].
    rewrite func_import_unstable, (import_module_cached _ _ _ Hm').
    by rewrite Hm'.
  - destruct Hmods as [Hmods Hnone].
    destruct (is_InvalidArguments e) eqn:He; [|done].
    destruct (func_import_plain_again _ _ _ _ Hn Hrun) as [Hm Hagain].
    split_and!; [by eexists| |done].
    (* the stable module is still not loaded *)
    assert (Hstill : modules st1 !! plainname = None).
    { rewrite func_import_plain in Hrun by done.
      pose proof (import_module_modules ("unstable_" +:+ plainname) st')
        as Hm2.
      destruct (import_module _ st') as [[] st2|e2 st2]; [|done].
      destruct (modules st2 !! _) eqn:Hm3; [|done].
      inversion Hrun; subst.
      destruct Hm2 as (m2 & _ & [-> | [_ ->]]); [congruence|].
      rewrite lookup_insert_ne; [congruence|].
      intros Heq. apply (f_equal String.length) in Heq.
      rewrite str_length_app in Heq. simpl in Heq. lia. }
    rewrite func_import_unstable, import_module_fresh by done.
    rewrite import_module_fresh in Hi by done.
    destruct (python_module_exists plainname); cbn [negb] in *; cbv zeta in *.
    + destruct (initialize plainname) as [e'|m'] eqn:Hinit; [|done].
      injection Hi as -> _. rewrite He.
      rewrite func_import_plain by done.
      rewrite (import_module_cached _ m) by done. cbn [modules].
      rewrite Hm. eexists. split; [reflexivity|done].
    + injection Hi as <- _.
      change (is_InvalidArguments _) with true. cbv iota.
      exists st1. by rewrite Hagain.
Qed.

End ImportFacts.

(** ** Variables *)

(** X17.  [is_variable(name)] is true exactly when [get_variable(name)]
    yields the value of the variable; with a second argument
    [get_variable] never fails for a name: it yields the value of the
    variable when it is set, and the second argument only when it is not;
    and a disabler as first argument is returned as it is. *)
Theorem get_variable_and_is_variable me name :
  (func_is_variable me [name] = inr true
   <-> yields_variable (func_get_variable me [VAString name]))
  /\ (forall fallback,
         func_get_variable me [VAString name; fallback]
         = inr (match variables me !! name with
                | Some v => inl v
                | None => inr fallback
                end))
  /\ (forall rest,
         length rest <= 1 ->
         func_get_variable me (VADisabler :: rest) = inr (inr VADisabler)).
Proof.
  unfold yields_variable, func_is_variable, func_get_variable. split_and!.
  - destruct (variables me !! name) as [v|] eqn:Hv.
    + rewrite bool_decide_eq_true_2 by by eexists. split; [by eexists|done].
    + rewrite bool_decide_eq_false_2 by by intros [? ?].
      split; [done|]. by intros [v Hv'].
  - intros fallback. by destruct (variables me !! name).
  - intros [|a [|b rest]] Hlen; simpl in *; [done|done|lia].
Qed.

(** ** [subdir] *)

Section SubdirFacts.
Variable source_root : string.
Variable the_subproject_dir : string.
Variable realpath : string -> string.
Variable isfile : string -> bool.
Variable evaluate_build_file : string -> M DirState bool.

(** [func_subdir] from the point where the directory is looked up. *)
Lemma func_subdir_reaches st dir if_found :
  reaches_directory the_subproject_dir st dir if_found ->
  func_subdir source_root the_subproject_dir realpath isfile
              evaluate_build_file [PosStr dir] if_found st
  = let subdir := os_path_join (cur_subdir st) dir in
    let build_file := build_file_of source_root realpath st dir in
    let buildfilename := os_path_join subdir "meson.build" in
    if bool_decide (build_file ∈ processed_buildfiles st) then
      Raise (mkExc InvalidArguments
               ("Tried to enter directory " +:+ dquote +:+ subdir +:+ dquote
                +:+ ", which has already been visited.")) st
    else
      let st1 := mkDirState subdir ({[build_file]} ∪ processed_buildfiles st)
                            (def_files st ++ [buildfilename]) (evaluated st) in
      if negb (isfile (os_path_join source_root buildfilename)) then
        Raise (mkExc InterpreterException
                 ("Non-existent build file '" +:+ buildfilename +:+ "'"))
              (set_cur_subdir (cur_subdir st) st1)
      else
        match evaluate_build_file (os_path_join source_root buildfilename)
                (mkDirState subdir (processed_buildfiles st1) (def_files st1)
                            (evaluated st ++ [build_file])) with
        | Return _ st2 => Return tt (set_cur_subdir (cur_subdir st) st2)
        | Raise e st2 => Raise e st2
        end.
Proof.
  intros (Hdots & Htop & Hfound & Habs).
  assert (Hsub : bool_decide (cur_subdir st = EmptyString)
                 && bool_decide (dir = the_subproject_dir) = false).
  { case_bool_decide as Hc; [|done]. destruct (Htop Hc) as [Hne _].
    by rewrite bool_decide_eq_false_2. }
  assert (Hmeson : bool_decide (cur_subdir st = EmptyString)
                   && PyStr.startswith dir "meson-" = false).
  { case_bool_decide as Hc; [|done]. by destruct (Htop Hc) as [_ ->]. }
  unfold func_subdir, bind, lift_exc, get, raise, ret, modify. simpl.
  rewrite Hdots, Hsub, Hmeson, Hfound. simpl. rewrite Habs.
  unfold build_file_of.
  destruct (bool_decide (_ ∈ processed_buildfiles st)); simpl; [done|].
  destruct (isfile _); simpl; [|done].
  by destruct (evaluate_build_file _ _).
Qed.

(** The checks that come before the directory is looked up. *)
Lemma func_subdir_static st dir if_found :
  PyStr.contains ".." dir = true
  \/ cur_subdir st = EmptyString
     /\ (dir = the_subproject_dir \/ PyStr.startswith dir "meson-" = true) ->
  exists e,
    func_subdir source_root the_subproject_dir realpath isfile
                evaluate_build_file [PosStr dir] if_found st
    = Raise e st
    /\ exc_class e = InvalidArguments.
Proof.
  intros Hc.
  unfold func_subdir, bind, lift_exc, get, raise, ret, modify. simpl.
  destruct (PyStr.contains ".." dir); [by eexists|].
  destruct Hc as [Hc|[-> Hc]]; [done|].
  rewrite bool_decide_eq_true_2 by done. simpl.
  case_bool_decide; [by eexists|].
  destruct Hc as [Hc| ->]; [done|]. by eexists.
Qed.

(** X18.  [subdir()] refuses, with [InvalidArguments] and before it looks
    at [if_found] or touches anything, a directory whose name holds [..],
    and at the top level of a project the directory of the subprojects and
    a name that starts with [meson-]; a call without exactly one string as
    argument is refused in the same way. *)
Theorem func_subdir_refuses st if_found :
  (forall dir,
      PyStr.contains ".." dir = true
      \/ cur_subdir st = EmptyString
         /\ (dir = the_subproject_dir \/ PyStr.startswith dir "meson-" = true) ->
      exists e,
        func_subdir source_root the_subproject_dir realpath isfile
                    evaluate_build_file [PosStr dir] if_found st
        = Raise e st
        /\ exc_class e = InvalidArguments)
  /\ (forall args,
         (forall dir, args <> [PosStr dir]) ->
         exists e,
           func_subdir source_root the_subproject_dir realpath isfile
                       evaluate_build_file args if_found st
           = Raise e st
           /\ exc_class e = InvalidArguments).
Proof.
  split; [intros dir; apply func_subdir_static|].
  intros args Hargs.
  unfold func_subdir, bind, lift_exc, validate_arguments.
  destruct args as [|[dir|tag] [|b args]]; simpl; try by eexists.
  by destruct (Hargs dir).
Qed.

(** X19.  A directory is entered once.  A call of [subdir()] that gets
    as far as the directory raises [InvalidArguments] and changes nothing
    when the build file of the directory is among the processed ones.
    Otherwise it marks the build file as processed and records it among
    the build definition files before it looks for it: when the file does
    not exist the call raises [InterpreterException] with the current
    directory as it was, and a second call for the directory then fails
    as for a directory already visited.  A call that returns leaves the
    current directory as it was. *)
Theorem func_subdir_visits_once st dir if_found :
  reaches_directory the_subproject_dir st dir if_found ->
  let run := func_subdir source_root the_subproject_dir realpath isfile
                         evaluate_build_file [PosStr dir] if_found in
  let build_file := build_file_of source_root realpath st dir in
  let buildfilename :=
    os_path_join (os_path_join (cur_subdir st) dir) "meson.build" in
  (build_file ∈ processed_buildfiles st ->
   exists e, run st = Raise e st /\ exc_class e = InvalidArguments)
  /\ (build_file ∉ processed_buildfiles st ->
      isfile (os_path_join source_root buildfilename) = false ->
      exists e st',
        run st = Raise e st'
        /\ exc_class e = InterpreterException
        /\ cur_subdir st' = cur_subdir st
        /\ build_file ∈ processed_buildfiles st'
        /\ def_files st' = def_files st ++ [buildfilename]
        /\ evaluated st' = evaluated st
        /\ exists e', run st' = Raise e' st'
                      /\ exc_class e' = InvalidArguments)
  /\ (forall st', run st = Return tt st' -> cur_subdir st' = cur_subdir st).
Proof.
  intros Hreach run build_file buildfilename. unfold run.
  rewrite func_subdir_reaches by done. cbv zeta. fold build_file.
  split_and!.
  - intros Hin. rewrite bool_decide_eq_true_2 by done. by eexists.
  - intros Hnew Hfile. rewrite bool_decide_eq_false_2 by done.
    fold buildfilename. rewrite Hfile. simpl.
    do 2 eexists. split_and!; try done.
    { simpl. set_solver. }
    rewrite func_subdir_reaches.
    2: { destruct Hreach as (? & ? & ? & ?). by split_and!. }
    cbv zeta. unfold build_file_of at 1. simpl.
    rewrite bool_decide_eq_true_2; [by eexists|].
    fold (build_file_of source_root realpath st dir). fold build_file.
    set_solver.
  - intros st'. case_bool_decide; [done|].
    destruct (isfile _); simpl; [|done].
    destruct (evaluate_build_file _ _); [|done].
    by intros [= <-].
Qed.

Lemma evaluated_once_enter st subdir build_file buildfilename :
  evaluated_once st ->
  build_file ∉ processed_buildfiles st ->
  evaluated_once
    (mkDirState subdir ({[build_file]} ∪ processed_buildfiles st)
                (def_files st ++ [buildfilename])
                (evaluated st ++ [build_file])).
Proof.
  intros [Hnd Hsub] Hnew. split; simpl.
  - apply NoDup_app. split_and!; [done| |apply NoDup_singleton].
    intros f Hf ->%list_elem_of_singleton. by apply Hnew, Hsub.
  - intros f [Hf|Hf%list_elem_of_singleton]%elem_of_app; [|set_solver].
    apply Hsub in Hf. set_solver.
Qed.

Lemma func_subdir_keeps_record args if_found :
  (forall f, keeps_evaluated_once (evaluate_build_file f)) ->
  keeps_evaluated_once
    (func_subdir source_root the_subproject_dir realpath isfile
                 evaluate_build_file args if_found).
Proof.
  intros Heval st Hst.
  unfold func_subdir, bind, lift_exc, get, raise, ret, modify,
    validate_arguments.
  destruct args as [|[dir|tag] [|b args]]; simpl; try done.
  destruct (PyStr.contains ".." dir); [done|].
  destruct (bool_decide (cur_subdir st = EmptyString)
            && bool_decide (dir = the_subproject_dir)); [done|].
  destruct (bool_decide (cur_subdir st = EmptyString)
            && PyStr.startswith dir "meson-"); [done|].
  destruct (check_if_found if_found) as [e|[]]; simpl; [done| |done].
  destruct (os_path_isabs _); [done|]. simpl.
  destruct (bool_decide (_ ∈ processed_buildfiles st)) eqn:Hin; simpl; [done|].
  apply bool_decide_eq_false in Hin.
  destruct (isfile _); simpl.
  - match goal with
    | |- context [evaluate_build_file ?f ?s] =>
        pose proof (Heval f s (evaluated_once_enter _ _ _ _ Hst Hin)) as Hk
    end.
    by destruct (evaluate_build_file _ _).
  - destruct Hst as [Hnd Hsub]. split; simpl; [done|].
    intros f Hf. apply Hsub in Hf. set_solver.
Qed.

(** X20.  The build files that [subdir()] hands to the evaluation are
    distinct and marked as processed, and a call keeps this so when the
    evaluations it starts do: it hands a build file over only when it is not
    yet marked, and marks it before.  The build file of the project itself
    is not covered: the interpreter starts with no build file marked, so at
    the top level [subdir('.')] is not refused; it marks the build file of
    the source directory and hands it to the evaluation. *)
Theorem build_files_evaluated_once args if_found st :
  (forall f, keeps_evaluated_once (evaluate_build_file f)) ->
  evaluated_once st ->
  let run := func_subdir source_root the_subproject_dir realpath isfile
                         evaluate_build_file in
  let st' := outcome_state (run args if_found st) in
  NoDup (evaluated st')
  /\ (forall f, f ∈ evaluated st' -> f ∈ processed_buildfiles st')
  /\ (cur_subdir st = EmptyString ->
      processed_buildfiles st = ∅ ->
      the_subproject_dir <> "." ->
      isfile (os_path_join source_root "./meson.build") = true ->
      let root_build_file :=
        os_path_join (realpath (os_path_join source_root ".")) "meson.build" in
      run [PosStr "."] [] st
      = match evaluate_build_file (os_path_join source_root "./meson.build")
                (mkDirState "." {[root_build_file]}
                            (def_files st ++ ["./meson.build"])
                            (evaluated st ++ [root_build_file])) with
        | Return _ st2 => Return tt (set_cur_subdir EmptyString st2)
        | Raise e st2 => Raise e st2
        end).
Proof.
  intros Heval Hst run st'.
  destruct (func_subdir_keeps_record args if_found Heval st Hst)
    as [Hnodup Hmarked].
  split; [exact Hnodup|]. split; [exact Hmarked|].
  intros Htop Hnone Hsub Hfile root_build_file. unfold run.
  rewrite func_subdir_reaches.
  2: { split_and!; [done| |done|by rewrite Htop].
       intros _. split; [congruence|done]. }
  cbv zeta. unfold build_file_of. rewrite Htop, Hnone.
  change (os_path_join EmptyString ".") with ".".
  change (os_path_join "." "meson.build") with "./meson.build".
  fold root_build_file.
  rewrite bool_decide_eq_false_2 by set_solver.
  rewrite Hfile. simpl.
  by rewrite (right_id_L ∅ (∪)).
Qed.

End SubdirFacts.

(** The evaluation of a directory tree keeps the record of the
    evaluations. *)
Lemma evaluate_tree_keeps_record source_root the_subproject_dir realpath
      tree fuel :
  forall f,
    keeps_evaluated_once
      (evaluate_tree source_root the_subproject_dir realpath tree fuel f).
Proof.
  induction fuel as [|n IH]; intros f st Hst; simpl; [done|].
  generalize (default [] (tree (realpath f))). intros dirs. revert st Hst.
  induction dirs as [|d dirs IHd]; intros st Hst; [done|].
  unfold bind.
  pose proof (func_subdir_keeps_record source_root the_subproject_dir
                realpath (fun f => bool_decide (is_Some (tree (realpath f))))
                (evaluate_tree source_root the_subproject_dir realpath tree n)
                [PosStr d] [] IH st Hst) as Hk.
  destruct (func_subdir _ _ _ _ _ _ _ st) as [[] st1|e st1]; [|done].
  by apply IHd.
Qed.

(** ** Tests and the module [unstable_rust] *)

Lemma replace_no_char c d s :
  c <> d -> PyStr.contains_char c (PyLib.replace c d s) = false.
Proof.
  intros Hcd. induction s as [|x s IH]; simpl; [done|].
  destruct (Ascii.eqb x c) eqn:Hx.
  - destruct (Ascii.eqb c d) eqn:Hd; [by apply Ascii.eqb_eq in Hd|done].
  - rewrite (Ascii.eqb_sym c x), Hx. done.
Qed.

Lemma replace_keeps_no_char c d e s :
  e <> d -> PyStr.contains_char e s = false ->
  PyStr.contains_char e (PyLib.replace c d s) = false.
Proof.
  intros Hed. induction s as [|x s IH]; simpl; [done|].
  destruct (Ascii.eqb e x) eqn:Hx; [done|]. intros Hs.
  destruct (Ascii.eqb x c).
  - destruct (Ascii.eqb e d) eqn:Hd; [by apply Ascii.eqb_eq in Hd|by apply IH].
  - rewrite Hx. by apply IH.
Qed.

Lemma replace_absent c d s :
  PyStr.contains_char c s = false -> PyLib.replace c d s = s.
Proof.
  induction s as [|x s IH]; simpl; [done|].
  rewrite (Ascii.eqb_sym c x). destruct (Ascii.eqb x c); [done|].
  intros Hs. by rewrite IH.
Qed.

Lemma filter_length_sublist {A} (P : A -> Prop) `{!forall x, Decision (P x)}
    (l1 l2 : list A) :
  sublist l1 l2 -> length (filter P l1) <= length (filter P l2).
Proof.
  induction 1 as [|x l1 l2 _ IH|x l1 l2 _ IH]; [done|..];
    rewrite ?filter_cons; destruct (decide (P x)); simpl; lia.
Qed.

Lemma filter_length_middle {A} (P : A -> Prop) `{!forall x, Decision (P x)}
    (pre post : list A) x :
  P x -> length (filter P (pre ++ x :: post)) <= 1 ->
  filter P pre = [] /\ filter P post = [].
Proof.
  intros Hx. rewrite filter_app, filter_cons, decide_True by done.
  rewrite length_app. simpl.
  destruct (filter P pre), (filter P post); simpl; (done || lia).
Qed.

Lemma filter_nil_Forall {A} (P : A -> Prop) `{!forall x, Decision (P x)}
    (l : list A) :
  filter P l = [] -> Forall (fun x => ~ P x) l.
Proof.
  intros Hf. apply Forall_forall. intros x Hin HP.
  by apply (filter_nil_not_elem_of P l x).
Qed.

(** *** The arguments of a test of the module *)

Lemma list_remove_absent x l : x ∉ l -> list_remove x l = l.
Proof.
  induction l as [|y l IH]; simpl; [done|].
  intros Hn. apply not_elem_of_cons in Hn as [Hy Hl].
  rewrite bool_decide_eq_false_2 by done. by rewrite IH.
Qed.

Lemma list_remove_split x l :
  x ∈ l ->
  exists pre post,
    l = pre ++ x :: post /\ (x ∉ pre) /\ list_remove x l = pre ++ post.
Proof.
  induction l as [|y l IH]; [by intros ?%elem_of_nil|]. simpl.
  intros Hin. case_bool_decide as Hy.
  - subst y. exists [], l. split_and!; [done|apply not_elem_of_nil|done].
  - apply elem_of_cons in Hin as [->|Hin]; [done|].
    destruct (IH Hin) as (pre & post & -> & Hpre & ->).
    exists (y :: pre), post. split_and!; [done| |done].
    apply not_elem_of_cons. split; [congruence|done].
Qed.

Lemma list_remove_sublist x l : sublist (list_remove x l) l.
Proof.
  induction l as [|y l IH]; simpl; [done|].
  case_bool_decide; [by apply sublist_cons|by apply sublist_skip].
Qed.

Lemma list_index_None x l : list_index x l = None <-> x ∉ l.
Proof.
  induction l as [|y l IH]; simpl.
  - split; [intros _; apply not_elem_of_nil|done].
  - case_bool_decide as Hy.
    + subst y. split; [done|]. intros Hn. destruct Hn. by left.
    + rewrite not_elem_of_cons. rewrite <- IH.
      destruct (list_index x l); simpl; split; (done || intros [_ ?]; done).
Qed.

Lemma list_index_split x l i :
  list_index x l = Some i ->
  exists pre post, l = pre ++ x :: post /\ (x ∉ pre) /\ length pre = i.
Proof.
  revert i. induction l as [|y l IH]; intros i; simpl; [done|].
  case_bool_decide as Hy.
  - intros [= <-]. subst y. exists [], l.
    split_and!; [done|apply not_elem_of_nil|done].
  - destruct (list_index x l) as [j|] eqn:Hj; simpl; [|done].
    intros [= <-]. destruct (IH j eq_refl) as (pre & post & -> & Hpre & <-).
    exists (y :: pre), post. split_and!; [done| |done].
    apply not_elem_of_cons. split; [congruence|done].
Qed.

Lemma drop_format_option_sublist l : sublist (drop_format_option l) l.
Proof.
  induction l as [|a l IH]; simpl; [done|].
  destruct (PyStr.startswith a "--format=");
    [by apply sublist_cons|by apply sublist_skip].
Qed.

Lemma drop_format_option_once l :
  length (filter (fun a => PyStr.startswith a "--format=" = true) l) <= 1 ->
  Forall (fun a => PyStr.startswith a "--format=" = false)
         (drop_format_option l).
Proof.
  induction l as [|a l IH]; simpl; [by constructor|].
  rewrite filter_cons.
  destruct (PyStr.startswith a "--format=") eqn:Ha.
  - rewrite decide_True by done. simpl. intros Hlen.
    assert (Hnil : filter (fun a => PyStr.startswith a "--format=" = true) l
                   = [])
      by (destruct (filter _ l); [done|simpl in Hlen; lia]).
    apply filter_nil_Forall in Hnil.
    eapply Forall_impl; [exact Hnil|]. simpl. intros x Hx.
    by destruct (PyStr.startswith x "--format=").
  - rewrite decide_False by congruence. intros Hlen.
    constructor; [done|by apply IH].
Qed.

Lemma delete_at_length {A} (pre post : list A) x :
  delete (length pre) (pre ++ x :: post) = pre ++ post.
Proof. induction pre as [|y pre IH]; simpl; [done|]. by rewrite IH. Qed.

Lemma delete_after_length {A} (pre post : list A) x y :
  delete (length pre + 1) (pre ++ x :: y :: post) = pre ++ x :: post.
Proof. induction pre as [|z pre IH]; simpl; [done|]. by rewrite IH. Qed.

(** The list after the first two steps of [clean_test_args]. *)
Lemma clean_test_args_steps l :
  match clean_test_args l with
  | inl e =>
      e = mkExc IndexError "list assignment index out of range"
      /\ exists pre,
           list_remove "--test" l = pre ++ ["--format"] /\ ("--format" ∉ pre)
  | inr r =>
      ((("--format" ∉ list_remove "--test" l)
        /\ r = drop_format_option (list_remove "--test" l))
       \/ exists pre arg post,
            list_remove "--test" l = pre ++ "--format" :: arg :: post
            /\ ("--format" ∉ pre)
            /\ r = drop_format_option (pre ++ post))
  end.
Proof.
  unfold clean_test_args.
  assert (Hl1 : (if bool_decide ("--test" ∈ l) then list_remove "--test" l
                 else l) = list_remove "--test" l).
  { case_bool_decide; [done|]. by rewrite list_remove_absent. }
  rewrite Hl1. clear Hl1. set (l1 := list_remove "--test" l).
  destruct (list_index "--format" l1) as [i|] eqn:Hi.
  - apply list_index_split in Hi as (pre & post & Hl1 & Hpre & <-).
    rewrite Hl1. rewrite length_app. simpl.
    destruct post as [|arg post].
    + rewrite bool_decide_eq_false_2 by (simpl; lia). split; [done|].
      by exists pre.
    + rewrite bool_decide_eq_true_2 by (simpl; lia). right.
      exists pre, arg, post. split_and!; [done..|]. f_equal.
      by rewrite delete_after_length, delete_at_length.
  - left. by apply list_index_None in Hi.
Qed.

Lemma list_remove_once x l :
  length (filter (fun a => a = x) l) <= 1 -> x ∉ list_remove x l.
Proof.
  intros Hlen. destruct (decide (x ∈ l)) as [Hin|Hn].
  - destruct (list_remove_split x l Hin) as (pre & post & Hl & _ & ->).
    rewrite Hl in Hlen.
    apply (filter_length_middle (fun a => a = x)) in Hlen as [Hpre Hpost];
      [|done].
    apply not_elem_of_app. split.
    + by apply (filter_nil_not_elem_of (fun a => a = x)).
    + by apply (filter_nil_not_elem_of (fun a => a = x)).
  - by rewrite list_remove_absent.
Qed.

Lemma not_elem_of_sublist {A} (x : A) (l1 l2 : list A) :
  sublist l1 l2 -> x ∉ l2 -> x ∉ l1.
Proof. intros Hs Hn Hin. apply Hn. by eapply elem_of_sublist. Qed.

Lemma clean_test_args_sublists l r :
  clean_test_args l = inr r ->
  exists l2,
    r = drop_format_option l2 /\ sublist l2 (list_remove "--test" l)
    /\ (length (filter (fun a => a = "--format") l) <= 1 -> "--format" ∉ l2).
Proof.
  intros Hr. pose proof (clean_test_args_steps l) as Hs. rewrite Hr in Hs.
  destruct Hs as [[Hn ->]|(pre & arg & post & Hl1 & Hpre & ->)].
  - eexists. split_and!; [done|done|]. by intros _.
  - exists (pre ++ post). split_and!; [done| |].
    + rewrite Hl1. apply sublist_app; [done|]. by do 2 apply sublist_cons.
    + intros Hlen.
      assert (Hlen1 : length (filter (fun a => a = "--format")
                                (pre ++ "--format" :: arg :: post)) <= 1).
      { rewrite <- Hl1. etrans; [|exact Hlen].
        apply filter_length_sublist, list_remove_sublist. }
      apply (filter_length_middle (fun a => a = "--format")) in Hlen1
        as [_ Hpost]; [|done].
      apply not_elem_of_app. split; [done|].
      eapply not_elem_of_sublist; [by apply sublist_cons|].
      by apply (filter_nil_not_elem_of (fun a => a = "--format")).
Qed.

(** X21.  [test] of the module fails with [IndexError] exactly when, once the
    first [--test] is taken out, the first [--format] is the last argument:
    the statement that deletes the argument of [--format] then has nothing
    to delete. *)
Theorem clean_test_args_raises l :
  (exists pre,
     list_remove "--test" l = pre ++ ["--format"] /\ ("--format" ∉ pre))
  <-> exists e, clean_test_args l = inl e.
Proof.
  pose proof (clean_test_args_steps l) as Hs. split.
  - intros (pre & Hl1 & Hpre).
    destruct (clean_test_args l) as [e|r]; [by exists e|]. exfalso.
    destruct Hs as [[Hn _]|(pre' & arg & post & Hl1' & Hpre' & _)].
    + apply Hn. rewrite Hl1. apply elem_of_app. right. by left.
    + rewrite Hl1 in Hl1'.
      assert (Hlen : length pre = length pre').
      { destruct (Nat.lt_trichotomy (length pre) (length pre'))
          as [Hlt|[Heq|Hgt]]; [|done|]; exfalso.
        - apply Hpre'. apply (f_equal (fun k => k !! length pre)) in Hl1'.
          rewrite lookup_app_r, Nat.sub_diag in Hl1' by lia.
          rewrite lookup_app_l in Hl1' by lia. simpl in Hl1'.
          by eapply list_elem_of_lookup_2.
        - apply Hpre. apply (f_equal (fun k => k !! length pre')) in Hl1'.
          rewrite lookup_app_l in Hl1' by lia.
          rewrite lookup_app_r, Nat.sub_diag in Hl1' by lia.
          simpl in Hl1'. by eapply list_elem_of_lookup_2. }
      apply (f_equal length) in Hl1'. rewrite !length_app in Hl1'.
      simpl in Hl1'. lia.
  - intros [e He]. rewrite He in Hs. by destruct Hs as [_ Hs].
Qed.

Lemma list_remove_without_first x l :
  without_first (fun a => a = x) l (list_remove x l).
Proof.
  destruct (decide (x ∈ l)) as [Hin|Hn].
  - destruct (list_remove_split x l Hin) as (pre & post & Hl & Hpre & ->).
    right. exists pre, x, post. split_and!; [done| |done|done].
    apply Forall_forall. by intros a Ha ->.
  - rewrite list_remove_absent by done. left. split; [|done].
    apply Forall_forall. by intros a Ha ->.
Qed.

Lemma drop_format_option_without_first l :
  without_first (fun a => PyStr.startswith a "--format=" = true) l
                (drop_format_option l).
Proof.
  induction l as [|a l IH]; simpl; [by left|].
  destruct (PyStr.startswith a "--format=") eqn:Ha.
  - right. by exists [], a, l.
  - destruct IH as [[Hall ->]|(pre & x & post & -> & Hpre & Hx & ->)].
    + left. split; [|done]. constructor; [congruence|done].
    + right. exists (a :: pre), x, post.
      split_and!; [done| |done|done]. constructor; [congruence|done].
Qed.

(** The list without the first item that satisfies [P] is determined. *)
Lemma without_first_functional P l r1 r2 :
  without_first P l r1 -> without_first P l r2 -> r1 = r2.
Proof.
  assert (Hsplit : forall pre1 x1 post1 pre2 x2 post2,
            pre1 ++ x1 :: post1 = pre2 ++ x2 :: post2 ->
            Forall (fun a => ~ P a) pre1 -> P x1 ->
            Forall (fun a => ~ P a) pre2 -> P x2 ->
            pre1 ++ post1 = pre2 ++ post2).
  { induction pre1 as [|a pre1 IH]; intros x1 post1 pre2 x2 post2 Heq H1 Hx1
      H2 Hx2.
    - destruct pre2 as [|b pre2]; simpl in *; [by injection Heq as _ <-|].
      injection Heq as <- _. by apply Forall_cons in H2 as [? _].
    - destruct pre2 as [|b pre2]; simpl in *.
      + injection Heq as <- _. by apply Forall_cons in H1 as [? _].
      + injection Heq as <- Heq. f_equal.
        apply Forall_cons in H1 as [_ H1]. apply Forall_cons in H2 as [_ H2].
        by eapply IH. }
  intros [[H1 ->]|(pre1 & x1 & post1 & Hl1 & H1 & Hx1 & ->)]
         [[H2 ->]|(pre2 & x2 & post2 & Hl2 & H2 & Hx2 & ->)]; [done| | |].
  - subst l. apply Forall_app in H1 as [_ H1].
    by apply Forall_cons in H1 as [? _].
  - subst l. apply Forall_app in H2 as [_ H2].
    by apply Forall_cons in H2 as [? _].
  - subst l. by eapply Hsplit.
Qed.

(** X22.  What [test] of the module passes on is the list of its arguments
    after three deletions, one after the other, each of which leaves every
    other argument where it is: the first [--test]; then the first
    [--format] together with the argument that follows it; then the first
    argument that starts with [--format=].  A later occurrence of any of
    them stays.  So the result is a sublist of the arguments, and an option
    that occurs at most once is gone from it. *)
Theorem clean_test_args_removes l r :
  clean_test_args l = inr r ->
  (exists l1 l2,
      without_first (fun a => a = "--test") l l1
      /\ ((("--format" ∉ l1) /\ l2 = l1)
          \/ exists pre arg post,
               l1 = pre ++ "--format" :: arg :: post
               /\ ("--format" ∉ pre)
               /\ l2 = pre ++ post)
      /\ without_first (fun a => PyStr.startswith a "--format=" = true) l2 r
      /\ forall r',
           (exists l1' l2',
               without_first (fun a => a = "--test") l l1'
               /\ ((("--format" ∉ l1') /\ l2' = l1')
                   \/ exists pre arg post,
                        l1' = pre ++ "--format" :: arg :: post
                        /\ ("--format" ∉ pre)
                        /\ l2' = pre ++ post)
               /\ without_first
                    (fun a => PyStr.startswith a "--format=" = true) l2' r') ->
           r' = r)
  /\ sublist r l
  /\ (length (filter (fun a => a = "--test") l) <= 1 -> "--test" ∉ r)
  /\ (length (filter (fun a => a = "--format") l) <= 1 -> "--format" ∉ r)
  /\ (length (filter (fun a => PyStr.startswith a "--format=" = true) l) <= 1
      -> Forall (fun a => PyStr.startswith a "--format=" = false) r).
Proof.
  intros Hr. destruct (clean_test_args_sublists l r Hr)
    as (l2 & Hr2 & Hsub & Hformat).
  assert (Hl2 : sublist l2 l)
    by (etrans; [exact Hsub|apply list_remove_sublist]).
  split_and!.
  - pose proof (clean_test_args_steps l) as Hs. rewrite Hr in Hs.
    pose proof (list_remove_without_first "--test" l) as Hfirst.
    assert (Hmid : forall l1 m1 m2,
              ((("--format" ∉ l1) /\ m1 = l1)
               \/ exists pre arg post,
                    l1 = pre ++ "--format" :: arg :: post
                    /\ ("--format" ∉ pre) /\ m1 = pre ++ post) ->
              ((("--format" ∉ l1) /\ m2 = l1)
               \/ exists pre arg post,
                    l1 = pre ++ "--format" :: arg :: post
                    /\ ("--format" ∉ pre) /\ m2 = pre ++ post) ->
              m1 = m2).
    { intros l1 m1 m2
        [[Hn1 ->]|(pre1 & arg1 & post1 & Hl1 & Hp1 & ->)]
        [[Hn2 ->]|(pre2 & arg2 & post2 & Hl1' & Hp2 & ->)]; [done| | |].
      - exfalso. apply Hn1. rewrite Hl1'. apply elem_of_app. right. by left.
      - exfalso. apply Hn2. rewrite Hl1. apply elem_of_app. right. by left.
      - rewrite Hl1 in Hl1'.
        assert (Hlen : length pre1 = length pre2).
        { destruct (Nat.lt_trichotomy (length pre1) (length pre2))
            as [Hlt|[Heq|Hgt]]; [|done|]; exfalso.
          - apply Hp2. apply (f_equal (fun k => k !! length pre1)) in Hl1'.
            rewrite lookup_app_r, Nat.sub_diag in Hl1' by lia.
            rewrite lookup_app_l in Hl1' by lia. simpl in Hl1'.
            by eapply list_elem_of_lookup_2.
          - apply Hp1. apply (f_equal (fun k => k !! length pre2)) in Hl1'.
            rewrite lookup_app_l in Hl1' by lia.
            rewrite lookup_app_r, Nat.sub_diag in Hl1' by lia.
            simpl in Hl1'. by eapply list_elem_of_lookup_2. }
        apply app_inj_1 in Hl1' as [-> Hrest]; [|done].
        by injection Hrest as _ ->. }
    assert (Hsteps :
      exists m,
        ((("--format" ∉ list_remove "--test" l) /\ m = list_remove "--test" l)
         \/ exists pre arg post,
              list_remove "--test" l = pre ++ "--format" :: arg :: post
              /\ ("--format" ∉ pre) /\ m = pre ++ post)
        /\ r = drop_format_option m).
    { destruct Hs as [[Hn ->]|(pre & arg & post & Hl1 & Hpre & ->)].
      - eexists. split; [by left|done].
      - eexists. split; [right; by exists pre, arg, post|done]. }
    destruct Hsteps as (m & Hm & ->).
    exists (list_remove "--test" l), m. split_and!; [done|done| |].
    + apply drop_format_option_without_first.
    + intros r' (l1' & l2' & Hfirst' & Hm' & Hlast').
      pose proof (without_first_functional _ _ _ _ Hfirst' Hfirst) as ->.
      pose proof (Hmid _ _ _ Hm' Hm) as ->.
      eapply without_first_functional; [exact Hlast'|].
      apply drop_format_option_without_first.
  - subst r. etrans; [apply drop_format_option_sublist|done].
  - subst r. intros Hlen. eapply not_elem_of_sublist;
      [etrans; [apply drop_format_option_sublist|exact Hsub]|].
    by apply list_remove_once.
  - subst r. intros Hlen. eapply not_elem_of_sublist;
      [apply drop_format_option_sublist|by apply Hformat].
  - subst r. intros Hlen. apply drop_format_option_once.
    etrans; [|exact Hlen]. by apply filter_length_sublist.
Qed.

(** *** Methods that keep a relation *)

Section Keeps.
Context {S : Type} {R : S -> S -> Prop} `{!Reflexive R} `{!Transitive R}.

Lemma keeps_ret {A} (a : A) : keeps R (ret a).
Proof. intros st. simpl. reflexivity. Qed.

Lemma keeps_raise {A} c s : keeps R (@raise S A c s).
Proof. intros st. simpl. reflexivity. Qed.

Lemma keeps_get : keeps R get.
Proof. intros st. simpl. reflexivity. Qed.

Lemma keeps_lift_exc {A} (r : Exc + A) : keeps R (lift_exc r).
Proof. intros st. destruct r; simpl; reflexivity. Qed.

Lemma keeps_modify (f : S -> S) : (forall st, R st (f st)) -> keeps R (modify f).
Proof. intros Hf st. simpl. apply Hf. Qed.

Lemma keeps_bind {A B} (m : M S A) (k : A -> M S B) :
  keeps R m -> (forall a, keeps R (k a)) -> keeps R (bind m k).
Proof.
  intros Hm Hk st. unfold bind. specialize (Hm st).
  destruct (m st) as [a st'|e st']; simpl in *; [|done].
  etrans; [exact Hm|]. apply Hk.
Qed.

End Keeps.

Lemma keeps_zoom {S T A} (R : T -> T -> Prop) (part : T -> S)
    (put : S -> T -> T) (m : M S A) :
  (forall t s, R t (put s t)) -> keeps R (zoom part put m).
Proof. intros Hput t. unfold zoom. destruct (m (part t)); simpl; apply Hput. Qed.

Lemma keeps_zoom_eq {S T A} (part : T -> S) (put : S -> T -> T) (m : M S A) :
  (forall t, put (part t) t = t) -> keeps eq m -> keeps eq (zoom part put m).
Proof.
  intros Hput Hm t. unfold zoom. specialize (Hm (part t)).
  destruct (m (part t)); simpl in *; subst; by rewrite Hput.
Qed.

Lemma keeps_eq_Return {S A} (m : M S A) st a st' :
  keeps eq m -> m st = Return a st' -> st' = st.
Proof. intros Hm Hr. specialize (Hm st). rewrite Hr in Hm. done. Qed.

Ltac keeps_step :=
  lazymatch goal with
  | |- keeps _ (bind _ _) => apply keeps_bind; [|intros]
  | |- keeps _ (ret _) => apply keeps_ret
  | |- keeps _ (raise _ _) => apply keeps_raise
  | |- keeps _ get => apply keeps_get
  | |- keeps _ (lift_exc _) => apply keeps_lift_exc
  | |- keeps _ (modify _) => apply keeps_modify; intros
  | |- keeps _ (if ?b then _ else _) => destruct b eqn:?
  | |- keeps _ (match ?x with _ => _ end) => destruct x eqn:?
  | |- keeps _ (let _ := _ in _) => cbv zeta
  end.

Lemma zoom_Return_inv {S T A} (part : T -> S) (put : S -> T -> T)
    (m : M S A) t a t' :
  zoom part put m t = Return a t' ->
  exists s, m (part t) = Return a s /\ t' = put s t.
Proof.
  unfold zoom. destruct (m (part t)) as [a' s|]; [|done].
  intros [= -> <-]. by exists s.
Qed.

Section TestFacts.
Context `{Collaborators} `{ProgramFinder} `{TestCollaborators}.
Variable do_subproject_and_merge :
  string -> string -> Kwargs -> M PState SubprojectHolder.

#[local] Instance tables_kept_refl : Reflexive tables_kept.
Proof. by intros st. Qed.

#[local] Instance tables_kept_trans : Transitive tables_kept.
Proof.
  intros a b c (?&?&?&?&?) (?&?&?&?&?). unfold tables_kept.
  split_and!; congruence.
Qed.

Lemma bool_kwarg_keeps {S} (R : S -> S -> Prop) `{!Reflexive R} v d text :
  keeps R (bool_kwarg v d text).
Proof. unfold bool_kwarg. repeat keeps_step. Qed.

Lemma int_kwarg_keeps {S} (R : S -> S -> Prop) `{!Reflexive R} v d text :
  keeps R (int_kwarg v d text).
Proof. unfold int_kwarg. repeat keeps_step. Qed.

Lemma bool_kwarg_inv {S} v d text (st st' : S) b :
  bool_kwarg v d text st = Return b st' ->
  st' = st /\ (v = None /\ b = d \/ v = Some (KBool b)).
Proof.
  unfold bool_kwarg. destruct v as [[]|]; try done.
  - intros [= -> ->]. auto.
  - intros [= -> ->]. auto.
Qed.

Lemma int_kwarg_inv {S} v d text (st st' : S) n :
  int_kwarg v d text st = Return n st' -> st' = st.
Proof.
  unfold int_kwarg. destruct v as [v|]; [|by intros [= _ ->]].
  destruct (as_int v); [|done]. by intros [= _ ->].
Qed.

Lemma make_test_tables args kwargs :
  keeps tables_kept (make_test do_subproject_and_merge args kwargs).
Proof.
  unfold make_test. repeat keeps_step;
    first [ apply bool_kwarg_keeps; apply _
          | apply int_kwarg_keeps; apply _
          | by apply keeps_zoom ].
Qed.

Lemma append_empty (s : string) : s +:+ EmptyString = s.
Proof.
  induction s as [|c s IH]; [done|].
  change (String c (s +:+ EmptyString) = String c s). by rewrite IH.
Qed.

(** What a test that [make_test] returns is made of. *)
Lemma make_test_inv args kwargs st t st' :
  make_test do_subproject_and_merge args kwargs st = Return t st' ->
  exists name exe,
    args = [TAStr name; exe]
    /\ test_name t = PyLib.replace ":" "_" name
    /\ (forall e, exe = TAExe e -> st' = st /\ test_exe t = e)
    /\ (tk_is_parallel kwargs = None /\ test_is_parallel t = true
        \/ tk_is_parallel kwargs = Some (KBool (test_is_parallel t)))
    /\ test_cmd_args t = tk_args kwargs
    /\ forallb is_cmd_arg (tk_args kwargs) = true
    /\ (forall w, test_workdir t = Some w -> os_path_isabs w = true)
    /\ test_protocol t ∈ protocols
    /\ (forall p, tk_protocol kwargs = Some (KStr p) -> test_protocol t = p)
    /\ test_project t
       = (if is_subproject (interp_of st') then subproject (interp_of st')
          else project_name st')
    /\ test_suite t
       = suite_name (test_project t)
           <$> default [EmptyString] (tk_suite kwargs)
    /\ test_depends t = tk_depends kwargs
    /\ forallb is_build_or_custom_target (tk_depends kwargs) = true.
Proof.
  unfold make_test. intros Hrun.
  destruct args as [|[name| | |] [|exe [|]]]; try done.
  exists name, exe. split; [done|].
  apply bind_Return_inv in Hrun as (e & st1 & Hexe & Hrun).
  apply bind_Return_inv in Hrun as (par & st2 & Hpar & Hrun).
  apply bool_kwarg_inv in Hpar as [-> Hpar].
  apply bind_Return_inv in Hrun as ([] & st2 & Hcmd & Hrun).
  destruct (forallb is_cmd_arg (tk_args kwargs)) eqn:Hargs; [|done].
  injection Hcmd as <-.
  apply bind_Return_inv in Hrun as (env & st2 & Henv & Hrun).
  apply lift_exc_Return_inv in Henv as [_ ->].
  apply bind_Return_inv in Hrun as (should_fail & st2 & Hsf & Hrun).
  apply bool_kwarg_inv in Hsf as [-> _].
  apply bind_Return_inv in Hrun as (timeout & st2 & Hto & Hrun).
  apply int_kwarg_inv in Hto as ->.
  apply bind_Return_inv in Hrun as (workdir & st2 & Hwd & Hrun).
  assert (st2 = st1
          /\ forall w, workdir = Some w -> os_path_isabs w = true) as [-> Hw].
  { destruct (tk_workdir kwargs) as [[| |w| |]|]; try done.
    - destruct (os_path_isabs w) eqn:Habs; [|done].
      injection Hwd as <- <-. split; [done|]. by intros ? [= <-].
    - injection Hwd as <- <-. done. }
  apply bind_Return_inv in Hrun as (protocol & st2 & Hp & Hrun).
  assert (st2 = st1 /\ protocol ∈ protocols
          /\ forall p, tk_protocol kwargs = Some (KStr p) -> protocol = p)
    as (-> & Hprot & Hprot').
  { destruct (tk_protocol kwargs) as [[| |p| |]|]; try done.
    - case_bool_decide as Hin; [|done]. injection Hp as <- <-.
      split_and!; [done..|]. by intros ? [= <-].
    - injection Hp as <- <-. split_and!; [done| |done].
      by left. }
  apply bind_Return_inv in Hrun as (st2 & st3 & Hget & Hrun).
  injection Hget as <- <-.
  apply bind_Return_inv in Hrun as ([] & st3 & Hdep & Hrun).
  destruct (forallb is_build_or_custom_target (tk_depends kwargs)) eqn:Hdeps;
    [|done].
  injection Hdep as <-.
  apply bind_Return_inv in Hrun as (priority & st3 & Hprio & Hrun).
  apply int_kwarg_inv in Hprio as ->.
  injection Hrun as <- <-. simpl.
  split_and!; try done.
  - destruct (PyStr.contains_char ":" name) eqn:Hc; [done|].
    by rewrite replace_absent.
  - intros e' ->. by injection Hexe as <- <-.
Qed.

Lemma Forall2_fmap_self {A B} (P : B -> A -> Prop) (f : A -> B) (l : list A) :
  (forall x, P (f x) x) -> Forall2 P (f <$> l) l.
Proof. intros Hf. induction l; csimpl; by constructor. Qed.

Lemma suite_name_parts prj s :
  let prefix := PyLib.replace ":" "_" (PyLib.replace " " "_" prj) in
  if bool_decide (s = EmptyString) then suite_name prj s = prefix
  else PyLib.split_once ":" (suite_name prj s) = Some (prefix, s).
Proof.
  unfold suite_name. destruct s as [|c s].
  - rewrite bool_decide_eq_true_2 by done. apply append_empty.
  - rewrite bool_decide_eq_false_2 by done.
    change (if Nat.ltb 0 (String.length (String c s))
            then ":" +:+ String c s else String c s)
      with (String ":" (String c s)).
    apply split_once_entry. by apply replace_no_char.
Qed.

(** X23.  A test that [make_test] returns is well formed: its name holds no
    colon; the names of its suites are those of the caller, each behind the
    name of the project in which spaces and colons are replaced, so that
    the first colon of a name separates the project from the suite; its
    protocol is one of the four; its working directory, when it has one,
    is absolute. *)
Theorem make_test_wellformed args kwargs st t st' :
  make_test do_subproject_and_merge args kwargs st = Return t st' ->
  let prefix :=
    PyLib.replace ":" "_" (PyLib.replace " " "_" (test_project t)) in
  PyStr.contains_char ":" (test_name t) = false
  /\ PyStr.contains_char ":" prefix = false
  /\ PyStr.contains_char " " prefix = false
  /\ Forall2 (fun entry s =>
                if bool_decide (s = EmptyString) then entry = prefix
                else PyLib.split_once ":" entry = Some (prefix, s))
             (test_suite t) (default [EmptyString] (tk_suite kwargs))
  /\ test_protocol t ∈ protocols
  /\ (forall w, test_workdir t = Some w -> os_path_isabs w = true).
Proof.
  intros Hrun prefix.
  apply make_test_inv in Hrun
    as (name & exe & _ & Hname & _ & _ & _ & _ & Hw & Hp & _ & _ & Hs & _).
  split_and!; [| | | |done..].
  - rewrite Hname. by apply replace_no_char.
  - by apply replace_no_char.
  - apply replace_keeps_no_char; [done|]. by apply replace_no_char.
  - rewrite Hs. apply Forall2_fmap_self. intros s.
    apply suite_name_parts.
Qed.

(** X24.  [func_test] appends one test to the tests and [func_benchmark] one
    to the benchmarks, and neither touches the other list; a call that
    raises changes neither.  A benchmark is parallel whatever the caller
    passes as [is_parallel], which for a test must be a boolean. *)
Theorem add_test_registers args kwargs st :
  match func_test do_subproject_and_merge args kwargs st with
  | Return _ st' =>
      benchmarks st' = benchmarks st
      /\ exists t,
           tests st' = tests st ++ [t]
           /\ (tk_is_parallel kwargs = None
               \/ tk_is_parallel kwargs = Some (KBool (test_is_parallel t)))
  | Raise _ st' => tests st' = tests st /\ benchmarks st' = benchmarks st
  end
  /\ match func_benchmark do_subproject_and_merge args kwargs st with
     | Return _ st' =>
         tests st' = tests st
         /\ exists t,
              benchmarks st' = benchmarks st ++ [t]
              /\ test_is_parallel t = true
     | Raise _ st' => tests st' = tests st /\ benchmarks st' = benchmarks st
     end.
Proof.
  split.
  - unfold func_test, add_test, bind.
    pose proof (make_test_tables args kwargs st) as Hk.
    destruct (make_test do_subproject_and_merge args kwargs st)
      as [t st1|e st1] eqn:Hrun; simpl in Hk;
      destruct Hk as (_ & Ht & Hb & _ & _); [|done].
    simpl. split; [done|]. exists t. rewrite Ht. split; [done|].
    apply make_test_inv in Hrun as (name & exe & _ & _ & _ & Hpar & _).
    destruct Hpar as [[Hn _]|Hs]; [by left|by right].
  - unfold func_benchmark, add_test, bind.
    pose proof (make_test_tables args (set_tk_is_parallel None kwargs) st)
      as Hk.
    destruct (make_test do_subproject_and_merge args
                (set_tk_is_parallel None kwargs) st)
      as [t st1|e st1] eqn:Hrun; simpl in Hk;
      destruct Hk as (_ & Ht & Hb & _ & _); [|done].
    simpl. split; [done|]. exists t. rewrite Hb. split; [done|].
    apply make_test_inv in Hrun as (name & exe & _ & _ & _ & Hpar & _).
    by destruct Hpar as [[_ Hp]|Hs].
Qed.

(** *** Test setups *)

Lemma ident_char_no_colon c : is_ident_char c = true -> Ascii.eqb ":" c = false.
Proof.
  intros Hc. destruct (Ascii.eqb ":" c) eqn:Heq; [|done].
  apply Ascii.eqb_eq in Heq. subst c. done.
Qed.

Lemma all_ident_chars_no_colon s :
  all_ident_chars s = true -> PyStr.contains_char ":" s = false.
Proof.
  induction s as [|c s IH]; [done|].
  change (all_ident_chars (String c s))
    with (is_ident_char c && all_ident_chars s).
  change (PyStr.contains_char ":" (String c s))
    with (if Ascii.eqb ":" c then true else PyStr.contains_char ":" s).
  intros [Hc Hs]%andb_true_iff. rewrite (ident_char_no_colon c Hc).
  by apply IH.
Qed.

Lemma is_identifier_no_colon s :
  is_identifier s = true -> PyStr.contains_char ":" s = false.
Proof.
  destruct s as [|c s]; [done|].
  change (is_identifier (String c s))
    with (is_ident_start c && all_ident_chars s).
  change (PyStr.contains_char ":" (String c s))
    with (if Ascii.eqb ":" c then true else PyStr.contains_char ":" s).
  intros [Hc Hs]%andb_true_iff.
  rewrite ident_char_no_colon.
  - by apply all_ident_chars_no_colon.
  - unfold is_ident_char. by rewrite Hc.
Qed.

Lemma split_once_Some c s a b :
  PyLib.split_once c s = Some (a, b) ->
  s = a +:+ String c b /\ PyStr.contains_char c s = true.
Proof.
  revert a. induction s as [|d s IH]; intros a; simpl; [done|].
  rewrite (Ascii.eqb_sym c d). destruct (Ascii.eqb d c) eqn:Hd.
  - intros [= <- <-]. apply Ascii.eqb_eq in Hd as ->. done.
  - destruct (PyLib.split_once c s) as [[a' b']|]; [|done].
    intros [= <- <-]. destruct (IH a' eq_refl) as [-> Hc]. done.
Qed.

(** What a call of [func_add_test_setup] that returns has done. *)
Lemma func_add_test_setup_inv get_command args kwargs st st' :
  func_add_test_setup get_command args kwargs st = Return tt st' ->
  exists name setup,
    let key := qualified_setup_name (interp_of st) (project_name st) name in
    args = [name]
    /\ setup_name_matches name = true
    /\ test_setups st' = <[key := setup]> (test_setups st)
    /\ (sk_is_default kwargs = Some (KBool true)
        /\ test_setup_default_name st = None
        /\ test_setup_default_name st' = Some key
        \/ sk_is_default kwargs <> Some (KBool true)
           /\ test_setup_default_name st' = test_setup_default_name st).
Proof.
  unfold func_add_test_setup. intros Hrun.
  destruct args as [|name [|]]; try done.
  apply bind_Return_inv in Hrun as ([] & st1 & Hm & Hrun).
  destruct (setup_name_matches name) eqn:Hmatch; [|done].
  injection Hm as <-.
  apply bind_Return_inv in Hrun as (st0 & st1 & Hget & Hrun).
  injection Hget as <- <-.
  apply bind_Return_inv in Hrun as (wrapper & st1 & Hwr & Hrun).
  apply lift_exc_Return_inv in Hwr as [_ ->].
  apply bind_Return_inv in Hrun as (g & st1 & Hg & Hrun).
  apply bool_kwarg_inv in Hg as [-> _].
  apply bind_Return_inv in Hrun as (tm & st1 & Htm & Hrun).
  apply int_kwarg_inv in Htm as ->.
  apply bind_Return_inv in Hrun as (is_default & st1 & Hd & Hrun).
  apply bool_kwarg_inv in Hd as [-> Hd].
  apply bind_Return_inv in Hrun as ([] & st1 & Hdef & Hrun).
  apply bind_Return_inv in Hrun as (env & st2 & Henv & Hrun).
  apply lift_exc_Return_inv in Henv as [_ ->].
  injection Hrun as <-.
  exists name. eexists. cbv zeta. split; [done|]. split; [done|].
  destruct is_default.
  - unfold bind, get in Hdef.
    destruct (test_setup_default_name st) eqn:Hnone; [done|].
    injection Hdef as <-. split; [reflexivity|]. left.
    destruct Hd as [[_ ?]|Hd]; done.
  - injection Hdef as <-. split; [reflexivity|]. right. split; [|done].
    destruct Hd as [[-> _]| ->]; done.
Qed.

(** X25.  The name under which a test setup is stored ends with a colon and
    the name of the setup, an identifier: a name given with a colon is kept,
    and both its parts are identifiers; a name given without one is put
    behind the name of the subproject, or of the project in the main
    project. *)
Theorem add_test_setup_key get_command args kwargs st st' :
  func_add_test_setup get_command args kwargs st = Return tt st' ->
  exists key setup prefix name,
    test_setups st' = <[key := setup]> (test_setups st)
    /\ key = prefix +:+ ":" +:+ name
    /\ is_identifier name = true
    /\ (args = [key] /\ is_identifier prefix = true
        \/ args = [name]
           /\ prefix = (if bool_decide (subproject (interp_of st) = EmptyString)
                        then project_name st
                        else subproject (interp_of st))).
Proof.
  intros Hrun.
  apply func_add_test_setup_inv in Hrun
    as (name & setup & -> & Hmatch & Hsetups & _).
  unfold setup_name_matches in Hmatch. unfold qualified_setup_name in Hsetups.
  destruct (is_identifier name) eqn:Hid.
  - rewrite (is_identifier_no_colon name Hid) in Hsetups.
    eexists _, setup, _, name. split_and!; [exact Hsetups|done|done|].
    by right.
  - simpl in Hmatch.
    destruct (PyLib.split_once ":" name) as [[a b]|] eqn:Hsplit; [|done].
    apply andb_true_iff in Hmatch as [Ha Hb].
    apply split_once_Some in Hsplit as [Hname Hcolon].
    rewrite Hcolon in Hsetups.
    exists name, setup, a, b. split_and!; [done|done|done|]. by left.
Qed.

#[local] Instance default_kept_refl : Reflexive default_kept.
Proof. intros st d Hd. exact Hd. Qed.

#[local] Instance default_kept_trans : Transitive default_kept.
Proof. intros a b c Hab Hbc d Hd. by apply Hbc, Hab. Qed.

Lemma func_add_test_setup_default_kept get_command args kwargs :
  keeps default_kept (func_add_test_setup get_command args kwargs).
Proof.
  unfold func_add_test_setup.
  repeat first
    [ apply bool_kwarg_keeps; apply _
    | apply int_kwarg_keeps; apply _
    | lazymatch goal with
      | |- keeps _ (bind get (fun st => match test_setup_default_name st
                                        with _ => _ end)) =>
          intros st0; unfold bind, get;
          destruct (test_setup_default_name st0) eqn:Hnone; simpl;
          intros d Hd; congruence
      end
    | keeps_step ].
  by intros d Hd.
Qed.

(** X26.  At most one test setup is the default one.  A default that is set
    stays, whatever [func_add_test_setup] is called with and however the
    call ends, and a call that asks for another default raises.  A call
    that returns and asked for the default has set it, to the name it
    stored the setup under; so the default names a stored setup after
    every call that returns, if it did before. *)
Theorem add_test_setup_default get_command args kwargs st :
  (forall d,
     test_setup_default_name st = Some d ->
     test_setup_default_name
       (outcome_state (func_add_test_setup get_command args kwargs st))
     = Some d)
  /\ forall st',
       func_add_test_setup get_command args kwargs st = Return tt st' ->
       (sk_is_default kwargs = Some (KBool true) ->
        test_setup_default_name st = None
        /\ exists key,
             test_setup_default_name st' = Some key
             /\ is_Some (test_setups st' !! key))
       /\ ((forall d, test_setup_default_name st = Some d ->
                      is_Some (test_setups st !! d)) ->
           forall d, test_setup_default_name st' = Some d ->
                     is_Some (test_setups st' !! d)).
Proof.
  split; [apply func_add_test_setup_default_kept|].
  - intros st' Hrun.
    apply func_add_test_setup_inv in Hrun
      as (name & setup & _ & _ & Hsetups & Hdef).
    split.
    + intros Hk. destruct Hdef as [(_ & Hn & Hs)|[Hne _]]; [|done].
      split; [done|]. eexists. split; [exact Hs|].
      rewrite Hsetups, lookup_insert_eq. by eexists.
    + intros Hinv d Hd. rewrite Hsetups.
      destruct Hdef as [(_ & _ & Hs)|[_ Hs]].
      * rewrite Hs in Hd. injection Hd as <-.
        rewrite lookup_insert_eq. by eexists.
      * rewrite Hs in Hd. apply Hinv in Hd.
        destruct (decide (qualified_setup_name (interp_of st)
                            (project_name st) name = d)) as [->|Hne].
        -- rewrite lookup_insert_eq. by eexists.
        -- by rewrite lookup_insert_ne.
Qed.

(** *** The module [unstable_rust] *)

Lemma set_interpreter_same (m : RustModule) :
  set_interpreter (interpreter m) m = m.
Proof. by destruct m. Qed.

Lemma set_ts_programs_same (t : TState) : set_ts_programs (ts_programs t) t = t.
Proof. by destruct t. Qed.




Lemma source_strings_to_files_reads l :
  preserves eq (source_strings_to_files l).
Proof. induction l as [|s l IH]; simpl; repeat preserves_step; apply IH. Qed.

Lemma source_strings_to_files_length l st files st' :
  source_strings_to_files l st = Return files st' ->
  length files = length l.
Proof.
  revert st files st'. induction l as [|s l IH]; intros st files st'; simpl.
  - by intros [= <- _].
  - intros Hrun.
    apply bind_Return_inv in Hrun as (st0 & st1 & Hget & Hrun).
    apply bind_Return_inv in Hrun as (out & st2 & Hout & Hrun).
    apply bind_Return_inv in Hrun as (outs & st3 & Houts & Hrun).
    injection Hrun as <- _. simpl. f_equal. by eapply IH.
Qed.

Lemma source_strings_to_files_items l st files st' :
  source_strings_to_files l st = Return files st' ->
  Forall2 (fun s f => source_output (subdir (self st)) s = Some f) l files.
Proof.
  revert st files st'. induction l as [|s l IH]; intros st files st'; simpl.
  - intros [= <- _]. constructor.
  - intros Hrun.
    apply bind_Return_inv in Hrun as (st0 & st1 & Hget & Hrun).
    injection Hget as <- <-.
    apply bind_Return_inv in Hrun as (out & st2 & Hout & Hrun).
    apply bind_Return_inv in Hrun as (outs & st3 & Houts & Hrun).
    injection Hrun as <- _.
    assert (Hs : source_output (subdir (self st)) s = Some out /\ st2 = st).
    { destruct s as [str|tag|r]; simpl.
      - apply bind_Return_inv in Hout as ([] & s1 & Hv1 & Hout).
        apply bind_Return_inv in Hout as ([] & s2 & Hv2 & Hout).
        unfold lift_result in Hv1, Hv2.
        destruct (validate_within_subproject _ _ _) as [|[]]; [done|].
        destruct (from_source_file _ _ _) as [|[]]; [done|].
        injection Hv1 as <-. injection Hv2 as <-. by injection Hout as <- <-.
      - by injection Hout as <- <-.
      - done. }
    destruct Hs as [Hs ->]. constructor; [done|]. by eapply IH.
Qed.

(** The files of the inputs, read through the module object. *)
Lemma input_files_reads input :
  keeps eq
    (zoom interpreter set_interpreter
       (zoom ts_programs set_ts_programs
          (zoom ps_interp
             (fun i p => mkPState _ i (find_overrides p) (searched_programs p))
             (source_strings_to_files input)))).
Proof.
  apply keeps_zoom_eq; [apply set_interpreter_same|].
  apply keeps_zoom_eq; [apply set_ts_programs_same|].
  apply keeps_zoom_eq; [by intros []|].
  apply source_strings_to_files_reads.
Qed.

Lemma find_program_impl_required args m wanted dirs vf st p st' :
  find_program_impl do_subproject_and_merge args m true wanted dirs vf st
  = Return p st' ->
  prog_found p = true.
Proof.
  unfold find_program_impl. intros Hrun.
  apply bind_Return_inv in Hrun as (r & st1 & _ & Hrun).
  apply bind_Return_inv in Hrun as (progobj & st2 & _ & Hrun).
  destruct (prog_found progobj) eqn:Hfound; simpl in Hrun; [|done].
  apply bind_Return_inv in Hrun as (early & st3 & Hearly & Hrun).
  assert (early = None) as ->.
  { destruct wanted as [|w wanted]; [by inversion Hearly|].
    apply bind_Return_inv in Hearly as (version & st4 & _ & Hearly).
    destruct (version_compare_many3 version (w :: wanted))
      as [[is_found not_found] found].
    destruct is_found; simpl in Hearly; [by inversion Hearly|done]. }
  apply bind_Return_inv in Hrun as ([] & st4 & _ & Hrun).
  by injection Hrun as <- _.
Qed.

(** What a call of [bindgen] that returns has done. *)
Lemma bindgen_inv get_command file_fname get_outputs kwargs st ct st' :
  bindgen do_subproject_and_merge get_command file_fname get_outputs kwargs st
  = Return ct st' ->
  exists input header deps bin name rest,
    bg_input kwargs = Some input
    /\ length input = S (length deps)
    /\ ct_input ct = header
    /\ ct_depends ct = filter (fun d => is_file file_fname d = false) deps
    /\ ct_depend_files ct
       = filter (fun d => is_file file_fname d = true) deps
    /\ ct_name ct = PyLib.replace "/" "_" ("rustmod-bindgen-" +:+ name)
    /\ ct_command ct = get_command bin ++ rest
    /\ bindgen_bin st' = Some bin
    /\ (bindgen_bin st = None -> prog_found bin = true)
    /\ (bindgen_bin st = Some bin -> st' = st)
    /\ (forall p, bindgen_bin st = Some p -> p = bin).
Proof.
  unfold bindgen. intros Hrun.
  destruct (bg_input kwargs) as [input|]; [|done].
  apply bind_Return_inv in Hrun as (files & st1 & Hfiles & Hrun).
  pose proof (keeps_eq_Return _ _ _ _ (input_files_reads input) Hfiles) as ->.
  apply zoom_Return_inv in Hfiles as (s1 & Hfiles & _).
  apply zoom_Return_inv in Hfiles as (s2 & Hfiles & _).
  apply zoom_Return_inv in Hfiles as (s3 & Hfiles & _).
  apply source_strings_to_files_length in Hfiles.
  destruct files as [|header deps]; [done|].
  destruct (bg_output kwargs) as [[|output|]|]; try done.
  apply bind_Return_inv in Hrun as (me & st1 & Hget & Hrun).
  injection Hget as <- <-.
  apply bind_Return_inv in Hrun as (bin & st1 & Hbin & Hrun).
  apply bind_Return_inv in Hrun as (name & st2 & Hname & Hrun).
  assert (st2 = st1) as ->.
  { destruct header as [sd f|tag]; [by inversion Hname|].
    destruct (file_fname tag); [by inversion Hname|].
    destruct (get_outputs tag); [done|]. by inversion Hname. }
  apply bind_Return_inv in Hrun as (me & st2 & Hget & Hrun).
  injection Hget as <- <-. injection Hrun as <- <-.
  exists input, header, deps, bin, name. eexists. simpl.
  split_and!; [done|by rewrite <- Hfiles|done|done|done|done|reflexivity|..].
  - destruct (bindgen_bin st) as [p|] eqn:Hp.
    + injection Hbin as <- <-. done.
    + apply bind_Return_inv in Hbin as (p & st3 & _ & Hbin).
      apply bind_Return_inv in Hbin as ([] & st4 & Hmod & Hbin).
      injection Hmod as <-. injection Hbin as <- <-. done.
  - intros Hnone. rewrite Hnone in Hbin.
    apply bind_Return_inv in Hbin as (p & st3 & Hfind & Hbin).
    apply bind_Return_inv in Hbin as ([] & st4 & Hmod & Hbin).
    injection Hbin as <- _.
    apply zoom_Return_inv in Hfind as (s4 & Hfind & _).
    apply zoom_Return_inv in Hfind as (s5 & Hfind & _).
    by apply find_program_impl_required in Hfind.
  - intros Hsome. rewrite Hsome in Hbin. by inversion Hbin.
  - intros p Hsome. rewrite Hsome in Hbin. by injection Hbin as <- _.
Qed.

(** The inputs of a call of [bindgen] that returns, and the name of its
    target. *)
Lemma bindgen_files get_command file_fname get_outputs kwargs st ct st' :
  bindgen do_subproject_and_merge get_command file_fname get_outputs kwargs st
  = Return ct st' ->
  exists input deps name,
    bg_input kwargs = Some input
    /\ Forall2 (fun s f =>
                  source_output (subdir (interp_of (interpreter st))) s
                  = Some f)
               input (ct_input ct :: deps)
    /\ ct_depend_files ct
       = filter (fun d => is_file file_fname d = true) deps
    /\ ct_depends ct = filter (fun d => is_file file_fname d = false) deps
    /\ ct_name ct = PyLib.replace "/" "_" ("rustmod-bindgen-" +:+ name)
    /\ match ct_input ct with
       | OutFile _ fname => name = fname
       | OutObject tag =>
           match file_fname tag with
           | Some fname => name = fname
           | None => exists rest, get_outputs tag = name :: rest
           end
       end.
Proof.
  unfold bindgen. intros Hrun.
  destruct (bg_input kwargs) as [input|]; [|done].
  apply bind_Return_inv in Hrun as (files & st1 & Hfiles & Hrun).
  pose proof (keeps_eq_Return _ _ _ _ (input_files_reads input) Hfiles) as ->.
  apply zoom_Return_inv in Hfiles as (s1 & Hfiles & _).
  apply zoom_Return_inv in Hfiles as (s2 & Hfiles & _).
  apply zoom_Return_inv in Hfiles as (s3 & Hfiles & _).
  apply source_strings_to_files_items in Hfiles.
  destruct files as [|header deps]; [done|].
  destruct (bg_output kwargs) as [[|output|]|]; try done.
  apply bind_Return_inv in Hrun as (me & st1 & Hget & Hrun).
  injection Hget as <- <-.
  apply bind_Return_inv in Hrun as (bin & st1 & Hbin & Hrun).
  apply bind_Return_inv in Hrun as (name & st2 & Hname & Hrun).
  apply bind_Return_inv in Hrun as (me & st3 & Hget & Hrun).
  injection Hget as <- <-. injection Hrun as <- <-.
  exists input, deps, name. simpl. split_and!; [done|done|done|done|done|].
  destruct header as [sd f|tag]; [by injection Hname as <- _|].
  destruct (file_fname tag); [by injection Hname as <- _|].
  destruct (get_outputs tag) as [|o rest]; [done|].
  injection Hname as <- _. by exists rest.
Qed.

(** X28.  The target that [bindgen] returns.  Its input is the file or
    object made of the first of the inputs, and the files and objects made
    of the other inputs, in the order of the inputs, are its dependencies:
    [depend_files] is the list of those that are files, [depends] the list
    of the others.  Its name is [rustmod-bindgen-] followed by the name of
    the first input, the file name of a file and the first output of
    another object, with every slash replaced: it holds no slash. *)
Theorem bindgen_target get_command file_fname get_outputs kwargs st ct st' :
  bindgen do_subproject_and_merge get_command file_fname get_outputs kwargs st
  = Return ct st' ->
  PyStr.contains_char "/" (ct_name ct) = false
  /\ Forall (fun d => is_file file_fname d = true) (ct_depend_files ct)
  /\ Forall (fun d => is_file file_fname d = false) (ct_depends ct)
  /\ (exists input deps,
         bg_input kwargs = Some input
         /\ length input = S (length deps)
         /\ Forall2 (fun s f =>
                       source_output (subdir (interp_of (interpreter st))) s
                       = Some f)
                    input (ct_input ct :: deps)
         /\ ct_depend_files ct
            = filter (fun d => is_file file_fname d = true) deps
         /\ ct_depends ct
            = filter (fun d => is_file file_fname d = false) deps
         /\ ct_depend_files ct ++ ct_depends ct ≡ₚ deps
         /\ sublist (ct_depend_files ct) deps
         /\ sublist (ct_depends ct) deps)
  /\ exists name,
       ct_name ct = PyLib.replace "/" "_" ("rustmod-bindgen-" +:+ name)
       /\ match ct_input ct with
          | OutFile _ fname => name = fname
          | OutObject tag =>
              match file_fname tag with
              | Some fname => name = fname
              | None => exists rest, get_outputs tag = name :: rest
              end
          end.
Proof.
  intros Hrun.
  apply bindgen_files in Hrun
    as (input & deps & name & Hin & Hitems & Hf & Hd & Hname & Hfirst).
  rewrite Hd, Hf. split_and!.
  - rewrite Hname. by apply replace_no_char.
  - apply Forall_forall. by intros d [? _]%list_elem_of_filter.
  - apply Forall_forall. by intros d [? _]%list_elem_of_filter.
  - exists input, deps.
    split_and!; [done| |done|done|done| |apply sublist_filter..].
    + by apply Forall2_length in Hitems.
    + etrans; [|apply (filter_app_complement
                         (fun d => is_file file_fname d = true))].
      f_equiv. apply reflexive_eq, list_filter_iff. intros d.
      by destruct (is_file file_fname d).
  - by exists name.
Qed.

(** X29.  The module looks for the program [bindgen] once.  A call of
    [bindgen] that returns leaves the program in the module, found when the
    call had to look for it; with the program in the module, a call changes
    neither the interpreter nor the module, however it ends, and the
    command of its target starts with the command of that program. *)
Theorem bindgen_looks_up_once get_command file_fname get_outputs kwargs st
    ct st' :
  bindgen do_subproject_and_merge get_command file_fname get_outputs kwargs st
  = Return ct st' ->
  exists bin,
    bindgen_bin st' = Some bin
    /\ (bindgen_bin st = None -> prog_found bin = true)
    /\ (forall p, bindgen_bin st = Some p -> p = bin /\ st' = st)
    /\ forall kwargs2,
         match bindgen do_subproject_and_merge get_command file_fname
                 get_outputs kwargs2 st' with
         | Return ct2 st2 =>
             st2 = st' /\ exists rest, ct_command ct2 = get_command bin ++ rest
         | Raise _ st2 => st2 = st'
         end.
Proof.
  intros Hrun.
  apply bindgen_inv in Hrun
    as (input & header & deps & bin & name & rest & _ & _ & _ & _ & _ & _ & _
        & Hbin & Hfound & Hsame & Huniq).
  exists bin. split_and!; [done|done| |].
  - intros p Hp. specialize (Huniq p Hp) as ->. split; [done|]. by apply Hsame.
  - intros kwargs2.
    destruct (bindgen do_subproject_and_merge get_command file_fname
                get_outputs kwargs2 st') as [ct2 st2|e st2] eqn:Hrun2.
    + apply bindgen_inv in Hrun2
        as (input2 & header2 & deps2 & bin2 & name2 & rest2 & _ & _ & _ & _
            & _ & _ & Hcmd & _ & _ & Hsame2 & Huniq2).
      specialize (Huniq2 bin Hbin) as <-. split; [by apply Hsame2|].
      by exists rest2.
    + revert Hrun2. unfold bindgen.
      destruct (bg_input kwargs2) as [input2|]; [|by intros [= _ <-]].
      unfold bind at 1.
      pose proof (input_files_reads input2 st') as Hreads.
      destruct (zoom interpreter set_interpreter _ st')
        as [files st1|e1 st1]; simpl in Hreads; subst st1;
        [|by intros [= _ <-]].
      destruct files as [|header2 deps2]; [by intros [= _ <-]|].
      destruct (bg_output kwargs2) as [[|output|]|]; try by intros [= _ <-].
      unfold bind, get. rewrite Hbin. unfold ret.
      destruct header2 as [sd f|tag]; [done|].
      destruct (file_fname tag); [done|].
      destruct (get_outputs tag); [|done]. by intros [= _ <-].
Qed.

(** X30.  [bindgen] without an input raises and changes nothing.  The
    exception is [InvalidArguments] when the keyword is absent; its message
    asks for at least one element, but an empty list of inputs is not
    answered by it: the assignment that unpacks the files raises
    [ValueError]. *)
Theorem bindgen_needs_input get_command file_fname get_outputs kwargs st :
  bg_input kwargs = None \/ bg_input kwargs = Some [] ->
  exists e,
    bindgen do_subproject_and_merge get_command file_fname get_outputs kwargs
            st = Raise e st
    /\ (exc_class e = InvalidArguments <-> bg_input kwargs = None)
    /\ (bg_input kwargs = Some [] ->
        PyStr.startswith (exc_msg e) "ValueError" = true).
Proof.
  unfold bindgen. intros [-> | ->].
  - eexists. split; [reflexivity|]. simpl. split; [done|]. done.
  - destruct st as [[[[i sh] fo sp] pn ts bs dn tss] bb]. eexists.
    split; [reflexivity|]. simpl. split; [|done]. split; done.
Qed.
End TestFacts.

(** ** The second sample run *)

Section DemoRun.
Import Demo.

Lemma extract_variables_round_trip_witness :
  extract_variables
    (VarsList [ItemStr "prefix=/usr"; ItemStr "libdir=lib64"])
  = inr [("prefix", VarStr "/usr"); ("libdir", VarStr "lib64")].
Proof.
  apply (extract_variables_round_trip
           [("prefix", "/usr"); ("libdir", "lib64")]).
  - apply NoDup_cons. split; [|apply NoDup_singleton].
    intros Hin. apply list_elem_of_singleton in Hin. discriminate.
  - repeat constructor; discriminate.
Defined.

Lemma program_override_wins_witness :
  @program_lookup Sample.W finder merge_subproject
    [PString "bash"; PString "sh"] HOST true [] sh_overridden
  = Return (Some ("scripts/sh.py", true)) sh_overridden
  /\ @find_program_impl Sample.W finder merge_subproject
       [PString "bash"; PString "sh"] HOST true [] [] None sh_overridden
     = Return ("scripts/sh.py", true)
         (set_searched_programs
            (list_to_set ["bash"; "sh"] ∪ searched_programs sh_overridden)
            sh_overridden)
  /\ @find_program_impl Sample.W finder merge_subproject
       [PString "bash"; PString "sh"] HOST false ["2.0"] [] None
       sh_overridden
     = Return ("bash sh", false) sh_overridden.
Proof.
  assert (Hpre : forall n, PString n ∈ [PString "bash"] ->
                           find_overrides sh_overridden !! n = None).
  { intros n Hin. apply list_elem_of_singleton in Hin.
    injection Hin as ->. vm_compute. reflexivity. }
  destruct (@program_override_wins Sample.W finder merge_subproject
              [PString "bash"] "sh" [] ("scripts/sh.py", true) sh_overridden
              HOST true [] Hpre eq_refl) as (Hlookup & Hplain & _).
  destruct (@program_override_wins Sample.W finder merge_subproject
              [PString "bash"] "sh" [] ("scripts/sh.py", true) sh_overridden
              HOST false [] Hpre eq_refl) as (_ & _ & _ & Hfails & _).
  split_and!.
  - exact Hlookup.
  - exact (Hplain eq_refl None).
  - exact (Hfails eq_refl "2.0" [] None "1.0" ["2.0"] [] eq_refl eq_refl).
Defined.

Lemma find_program_impl_returns_witness :
  exists p st',
    find_sh = Return p st'
    /\ @prog_found finder p = true
    /\ "sh" ∈ searched_programs st'.
Proof.
  unfold find_sh.
  destruct (@find_program_impl Sample.W finder merge_subproject
              [PString "sh"] HOST true [] [] None programs)
    as [p st'|e st'] eqn:Hrun; [|vm_compute in Hrun; discriminate].
  exists p, st'. split; [reflexivity|].
  destruct (@find_program_impl_returns Sample.W finder merge_subproject
              [PString "sh"] HOST true [] [] None programs p st' Hrun)
    as (Hrequired & Hfound & _).
  split; [by apply Hrequired|].
  apply (Hfound (Hrequired eq_refl) "sh"). by left.
Defined.

Lemma find_program_impl_not_found_witness :
  exists e,
    @find_program_impl Sample.W finder merge_subproject nosuch HOST false
                       [] [] None programs
    = Raise e programs
    /\ exc_class e = OtherException.
Proof.
  eexists. split.
  - apply (@find_program_impl_not_found Sample.W finder merge_subproject
             nosuch HOST false [] [] None programs programs).
    vm_compute. reflexivity.
  - reflexivity.
Defined.

Lemma import_twice_witness :
  exists m st1,
    import_rust = Return m st1
    /\ exists st2,
         @func_import loader ["unstable-rust"] st1 = Return m st2
         /\ modules st2 = modules st1.
Proof.
  unfold import_rust.
  destruct (@func_import loader ["unstable-rust"] no_modules)
    as [m st1|e st1] eqn:Hrun; [|vm_compute in Hrun; discriminate].
  exists m, st1. split; [reflexivity|].
  destruct (@import_twice loader "unstable-rust" no_modules m st1 Hrun)
    as (_ & Hagain & _).
  exact Hagain.
Defined.

Lemma func_subdir_visits_once_witness :
  exists e,
    subdir_call "src/core" src_entered = Raise e src_entered
    /\ exc_class e = InvalidArguments.
Proof.
  assert (Hreach : reaches_directory "subprojects" src_entered "src/core" []).
  { split_and!; [reflexivity| |reflexivity|reflexivity].
    intros _. split; [discriminate|reflexivity]. }
  destruct (func_subdir_visits_once "/src" "subprojects" realpath isfile
              evaluate src_entered "src/core" [] Hreach)
    as (Hvisited & _ & _).
  apply Hvisited.
  match goal with
  | |- ?f ∈ ?fs => apply (bool_decide_eq_true_1 (f ∈ fs))
  end.
  vm_compute. reflexivity.
Defined.

Lemma build_files_evaluated_once_witness :
  NoDup (evaluated src_entered)
  /\ (forall f,
         f ∈ evaluated src_entered -> f ∈ processed_buildfiles src_entered)
  /\ exists st',
       subdir_call "." top_dir = Return tt st'
       /\ evaluated st'
          = ["/src/meson.build"; "/src/src/meson.build";
             "/src/src/core/meson.build"; "/src/tests/meson.build"].
Proof.
  destruct (build_files_evaluated_once "/src" "subprojects" realpath isfile
              evaluate [PosStr "src"] [] top_dir)
    as (Hnodup & Hmarked & Hroot).
  - intros f. apply evaluate_tree_keeps_record.
  - split; [constructor|]. intros f Hf. by apply elem_of_nil in Hf.
  - split; [exact Hnodup|]. split; [exact Hmarked|].
    specialize (Hroot eq_refl eq_refl ltac:(discriminate) eq_refl).
    unfold subdir_call. rewrite Hroot. eexists. split; reflexivity.
Defined.

Lemma clean_test_args_removes_witness :
  clean_test_args test_arguments = inr ["-q"; "x"]
  /\ (forall r',
         (exists l1 l2,
             without_first (fun a => a = "--test") test_arguments l1
             /\ ((("--format" ∉ l1) /\ l2 = l1)
                 \/ exists pre arg post,
                      l1 = pre ++ "--format" :: arg :: post
                      /\ ("--format" ∉ pre)
                      /\ l2 = pre ++ post)
             /\ without_first
                  (fun a => PyStr.startswith a "--format=" = true) l2 r') ->
         r' = ["-q"; "x"])
  /\ sublist ["-q"; "x"] test_arguments
  /\ ("--test" ∉ ["-q"; "x"])
  /\ ("--format" ∉ ["-q"; "x"])
  /\ Forall (fun a => PyStr.startswith a "--format=" = false) ["-q"; "x"].
Proof.
  destruct (clean_test_args_removes test_arguments ["-q"; "x"] eq_refl)
    as ((l1 & l2 & _ & _ & _ & Honly) & Hsub & Htest & Hformat & Hoption).
  split_and!;
    [reflexivity|exact Honly|exact Hsub|apply Htest|apply Hformat
    |apply Hoption];
    vm_compute; lia.
Defined.

Lemma make_test_wellformed_witness :
  exists t st',
    parser_test = Return t st'
    /\ PyStr.contains_char ":" (test_name t) = false
    /\ test_protocol t ∈ protocols.
Proof.
  unfold parser_test.
  destruct (@make_test Sample.W finder environments merge_subproject
              [TAStr "unit: parser"; TAExe (HeldTarget Sample.exe_prog)]
              parser_kwargs test_state)
    as [t st'|e st'] eqn:Hrun; [|vm_compute in Hrun; discriminate].
  exists t, st'. split; [reflexivity|].
  destruct (@make_test_wellformed Sample.W finder environments
              merge_subproject _ _ _ t st' Hrun)
    as (Hname & _ & _ & _ & Hprotocol & _).
  by split.
Defined.

Lemma add_test_setup_key_witness :
  exists st' key setup prefix name,
    valgrind_setup = Return tt st'
    /\ test_setups st' = <[key := setup]> (test_setups test_state)
    /\ key = prefix +:+ ":" +:+ name
    /\ is_identifier name = true.
Proof.
  unfold valgrind_setup.
  destruct (@func_add_test_setup finder environments get_command
              ["valgrind"] default_setup test_state)
    as [[] st'|e st'] eqn:Hrun; [|vm_compute in Hrun; discriminate].
  destruct (@add_test_setup_key finder environments get_command _ _ _ st'
              Hrun) as (key & setup & prefix & name & Hs & Hk & Hn & _).
  by exists st', key, setup, prefix, name.
Defined.

Lemma bindgen_target_witness :
  exists ct st',
    bindgen_call header_kwargs rust_module = Return ct st'
    /\ PyStr.contains_char "/" (ct_name ct) = false
    /\ Forall (fun d => is_file (fun _ => None) d = true) (ct_depend_files ct)
    /\ Forall (fun d => is_file (fun _ => None) d = false) (ct_depends ct)
    /\ ct_input ct = OutFile EmptyString "include/api.h"
    /\ ct_depend_files ct = [OutFile EmptyString "include/types.h"]
    /\ ct_depends ct = [OutObject "generated"]
    /\ ct_name ct = "rustmod-bindgen-include_api.h".
Proof.
  unfold bindgen_call.
  destruct (@bindgen Sample.W finder environments merge_subproject
              get_command (fun _ => None) (fun _ => ["gen.h"]) header_kwargs
              rust_module)
    as [ct st'|e st'] eqn:Hrun; [|vm_compute in Hrun; discriminate].
  exists ct, st'. split; [reflexivity|].
  destruct (@bindgen_target Sample.W finder environments merge_subproject
              get_command _ _ _ _ ct st' Hrun)
    as (Hname & Hfiles & Hdepends & (input & deps & Hin & _ & Hitems & Hf
                                     & Hd & _)
        & (name & Hct & Hfirst)).
  split_and!; [exact Hname|exact Hfiles|exact Hdepends|..].
  - injection Hin as <-.
    apply Forall2_cons_inv_l in Hitems as (f & fs & Hhead & _ & Heq).
    injection Heq as -> _. by injection Hhead as <-.
  - injection Hin as <-.
    apply Forall2_cons_inv_l in Hitems as (f & fs & _ & Hitems & Heq).
    injection Heq as _ <-.
    apply Forall2_cons_inv_l in Hitems as (f1 & fs1 & H1 & Hitems & ->).
    apply Forall2_cons_inv_l in Hitems as (f2 & fs2 & H2 & Hitems & ->).
    apply Forall2_nil_inv_l in Hitems as ->.
    injection H1 as <-. injection H2 as <-. exact Hf.
  - injection Hin as <-.
    apply Forall2_cons_inv_l in Hitems as (f & fs & _ & Hitems & Heq).
    injection Heq as _ <-.
    apply Forall2_cons_inv_l in Hitems as (f1 & fs1 & H1 & Hitems & ->).
    apply Forall2_cons_inv_l in Hitems as (f2 & fs2 & H2 & Hitems & ->).
    apply Forall2_nil_inv_l in Hitems as ->.
    injection H1 as <-. injection H2 as <-. exact Hd.
  - injection Hin as <-.
    apply Forall2_cons_inv_l in Hitems as (f & fs & Hhead & _ & Heq).
    injection Heq as Hinput _. injection Hhead as <-.
    rewrite Hinput in Hfirst. by rewrite Hct, Hfirst.
Defined.

Lemma bindgen_looks_up_once_witness :
  exists ct st' bin,
    bindgen_call header_kwargs rust_module = Return ct st'
    /\ bindgen_bin st' = Some bin
    /\ @prog_found finder bin = true
    /\ outcome_state (bindgen_call header_kwargs st') = st'.
Proof.
  unfold bindgen_call.
  destruct (@bindgen Sample.W finder environments merge_subproject
              get_command (fun _ => None) (fun _ => ["gen.h"]) header_kwargs
              rust_module)
    as [ct st'|e st'] eqn:Hrun; [|vm_compute in Hrun; discriminate].
  destruct (@bindgen_looks_up_once Sample.W finder environments
              merge_subproject get_command _ _ _ _ ct st' Hrun)
    as (bin & Hbin & Hfound & _ & Hagain).
  exists ct, st', bin. split_and!; [reflexivity|exact Hbin|by apply Hfound|].
  specialize (Hagain header_kwargs).
  destruct (@bindgen Sample.W finder environments merge_subproject
              get_command (fun _ => None) (fun _ => ["gen.h"]) header_kwargs
              st') as [ct2 st2|e2 st2]; simpl.
  - by destruct Hagain as [-> _].
  - exact Hagain.
Defined.

Lemma bindgen_needs_input_witness :
  exists e,
    bindgen_call no_input rust_module = Raise e rust_module
    /\ exc_class e = InvalidArguments.
Proof.
  destruct (@bindgen_needs_input Sample.W finder environments
              merge_subproject get_command (fun _ => None)
              (fun _ => ["gen.h"]) no_input rust_module (or_introl eq_refl))
    as (e & Hrun & Hclass & _).
  exists e. split; [exact Hrun|]. by apply Hclass.
Defined.

End DemoRun.
